(** * StreamVibe backend: access control, engagement ledger and notices

    A shallow embedding of the request handlers of the StreamVibe backend
    (Express controllers over Mongoose models) together with the properties
    its specification states about them.

    Conventions of the embedding.
    - A Mongoose collection is the list of its documents in insertion order;
      the user and video collections, which the handlers only reach by
      [_id], are finite maps keyed by [_id].
    - An [ObjectId] is a number; fresh ones come from a counter in the
      database state.  Handlers receive ids that already are ObjectIds.
    - A handler is a function from the database (and the request) to the
      response it sends and the database it leaves.
    - An exception thrown by a model operation is a value of [Thrown]; the
      handler's [catch] turns it into the response the source sends.
    - Numbers sent by clients (watch time, positions) are integers. *)

From Stdlib Require Import ZArith NArith String Ascii List Bool.
From stdpp Require Import gmap strings list pretty.

Open Scope string_scope.

(** ** JavaScript values the handlers branch on *)

Module Js.

(** The value of a boolean-valued property that may be missing. *)
Inductive value :=
| undefined
| boolean (b : bool).

Definition truthy (v : value) : bool :=
  match v with
  | undefined => false
  | boolean b => b
  end.

(** [a && b]: the left operand when it is falsy, else the right one. *)
Definition and (a b : value) : value := if truthy a then b else a.

(** [a || b]: the left operand when it is truthy, else the right one. *)
Definition or (a b : value) : value := if truthy a then a else b.

(** Truthiness of a string that may be absent from the request. *)
Definition truthy_string (s : option string) : bool :=
  match s with
  | None => false
  | Some s => negb (String.eqb s EmptyString)
  end.

(** Truthiness of a number that may be absent from the request. *)
Definition truthy_number (n : option Z) : bool :=
  match n with
  | None => false
  | Some n => negb (n =? 0)%Z
  end.

(** [n || d] on numbers. *)
Definition or_number (n : option Z) (d : Z) : Z :=
  match n with
  | Some n => if (n =? 0)%Z then d else n
  | None => d
  end.

(** [String(x)] for a string property that may be undefined. *)
Definition String_ (s : option string) : string :=
  match s with
  | None => "undefined"
  | Some s => s
  end.

(** [s.includes(sub)] on strings: [sub] occurs somewhere in [s]. *)
Fixpoint includes (sub s : string) : bool :=
  String.prefix sub s ||
  match s with
  | EmptyString => false
  | String _ s' => includes sub s'
  end.

Definition isWhitespace (c : ascii) : bool :=
  let n := Ascii.nat_of_ascii c in
  (n =? 32)%nat || ((9 <=? n)%nat && (n <=? 13)%nat).

Fixpoint trimStart (s : string) : string :=
  match s with
  | EmptyString => EmptyString
  | String c s' => if isWhitespace c then trimStart s' else s
  end.

(** [s.trim()] *)
Definition trim (s : string) : string :=
  String.rev (trimStart (String.rev (trimStart s))).

(** [s.split(sep)] for a one-character separator. *)
Fixpoint split_aux (sep : ascii) (acc s : string) : list string :=
  match s with
  | EmptyString => [String.rev acc]
  | String c s' =>
      if Ascii.eqb c sep then String.rev acc :: split_aux sep EmptyString s'
      else split_aux sep (String c acc) s'
  end.

Definition split (sep : ascii) (s : string) : list string :=
  split_aux sep EmptyString s.

End Js.

(** ** Documents *)

Abbreviation ObjectId := N (only parsing).

Inductive Role := student | teacher | admin.

Definition Role_eqb (a b : Role) : bool :=
  match a, b with
  | student, student | teacher, teacher | admin, admin => true
  | _, _ => false
  end.

Definition Role_name (r : Role) : string :=
  match r with
  | student => "student"
  | teacher => "teacher"
  | admin => "admin"
  end.

(** models/User.js.  [branch] and [year] are required for students only. *)
Record User := mkUser {
  user_id : ObjectId;
  user_name : string;
  user_email : string;
  user_role : Role;
  user_branch : option string;
  user_year : option string;
  user_isApproved : bool
}.

(** models/Video.js.  The schema declares no approval path. *)
Record Video := mkVideo {
  video_id : ObjectId;
  video_title : string;
  video_branch : string;
  video_year : string;
  video_teacher : ObjectId;
  video_specialAccess : list ObjectId;
  video_views : Z
}.

(** [video.isApproved]: VideoSchema has no such path, so the property of a
    hydrated document is undefined. *)
Definition video_isApproved (v : Video) : Js.value := Js.undefined.

(** models/Like.js, unique on (video, user). *)
Record Like := mkLike {
  like_id : ObjectId;
  like_video : ObjectId;
  like_user : ObjectId
}.

(** models/VideoView.js, unique on (video, user). *)
Record VideoView := mkVideoView {
  view_id : ObjectId;
  view_video : ObjectId;
  view_user : ObjectId;
  view_watchedAt : Z;
  view_watchTime : Z;
  view_completionPercentage : Z;
  view_lastPosition : Z
}.

(** models/Comment.js.  [parentComment] null means top-level. *)
Record Comment := mkComment {
  comment_id : ObjectId;
  comment_content : string;
  comment_user : ObjectId;
  comment_video : ObjectId;
  comment_parentComment : option ObjectId
}.

(** models/Report.js, unique on (comment, user). *)
Record Report := mkReport {
  report_id : ObjectId;
  report_comment : ObjectId;
  report_user : ObjectId;
  report_reason : string;
  report_details : option string;
  report_status : string
}.

(** models/Notification.js.  [data] is a free-form object; these are the
    shapes the handlers put there. *)
Inductive Payload :=
| VideoRef (videoId : ObjectId)
| NoticeRef (noticeId : ObjectId) (category priority : string).

Record Notification := mkNotification {
  notification_recipient : ObjectId;
  notification_type : string;
  notification_title : string;
  notification_message : string;
  notification_data : Payload
}.

(** models/Notice.js. *)
Record Attachment := mkAttachment {
  attachment_filename : string;
  attachment_url : string;
  attachment_size : Z
}.

Record Notice := mkNotice {
  notice_id : ObjectId;
  notice_title : string;
  notice_content : string;
  notice_category : string;
  notice_branch : string;
  notice_year : string;
  notice_priority : string;
  notice_expirationType : string;
  notice_expirationDate : option string;
  notice_expirationDuration : option string;
  notice_attachments : list Attachment;
  notice_teacher : ObjectId
}.

(** models/Note.js. *)
Record Note := mkNote {
  note_id : ObjectId;
  note_title : string;
  note_content : string;
  note_student : ObjectId;
  note_video : option ObjectId;
  note_timestamp : Z;
  note_updatedAt : Z
}.

(** ** The database *)

Record Db := mkDb {
  users : gmap N User;
  videos : gmap N Video;
  likes : list Like;
  videoViews : list VideoView;
  comments : list Comment;
  reports : list Report;
  notifications : list Notification;
  notices : list Notice;
  notes : list Note;
  nextId : N
}.

Definition set_users (f : gmap N User -> gmap N User) (db : Db) : Db :=
  mkDb (f (users db)) (videos db) (likes db) (videoViews db) (comments db)
       (reports db) (notifications db) (notices db) (notes db) (nextId db).

Definition set_videos (f : gmap N Video -> gmap N Video) (db : Db) : Db :=
  mkDb (users db) (f (videos db)) (likes db) (videoViews db) (comments db)
       (reports db) (notifications db) (notices db) (notes db) (nextId db).

Definition set_likes (f : list Like -> list Like) (db : Db) : Db :=
  mkDb (users db) (videos db) (f (likes db)) (videoViews db) (comments db)
       (reports db) (notifications db) (notices db) (notes db) (nextId db).

Definition set_videoViews (f : list VideoView -> list VideoView) (db : Db) : Db :=
  mkDb (users db) (videos db) (likes db) (f (videoViews db)) (comments db)
       (reports db) (notifications db) (notices db) (notes db) (nextId db).

Definition set_comments (f : list Comment -> list Comment) (db : Db) : Db :=
  mkDb (users db) (videos db) (likes db) (videoViews db) (f (comments db))
       (reports db) (notifications db) (notices db) (notes db) (nextId db).

Definition set_reports (f : list Report -> list Report) (db : Db) : Db :=
  mkDb (users db) (videos db) (likes db) (videoViews db) (comments db)
       (f (reports db)) (notifications db) (notices db) (notes db) (nextId db).

Definition set_notifications (f : list Notification -> list Notification) (db : Db) : Db :=
  mkDb (users db) (videos db) (likes db) (videoViews db) (comments db)
       (reports db) (f (notifications db)) (notices db) (notes db) (nextId db).

Definition set_notices (f : list Notice -> list Notice) (db : Db) : Db :=
  mkDb (users db) (videos db) (likes db) (videoViews db) (comments db)
       (reports db) (notifications db) (f (notices db)) (notes db) (nextId db).

Definition set_notes (f : list Note -> list Note) (db : Db) : Db :=
  mkDb (users db) (videos db) (likes db) (videoViews db) (comments db)
       (reports db) (notifications db) (notices db) (f (notes db)) (nextId db).

(** A fresh ObjectId. *)
Definition fresh (db : Db) : ObjectId * Db :=
  (nextId db,
   mkDb (users db) (videos db) (likes db) (videoViews db) (comments db)
        (reports db) (notifications db) (notices db) (notes db)
        (N.succ (nextId db))).

Definition emptyDb : Db :=
  mkDb ∅ ∅ [] [] [] [] [] [] [] 1%N.

(** ** Responses *)

(** What a model operation throws. *)
Inductive Thrown :=
| ValidationError (model : string) (paths : list string)
| DuplicateKey (model : string)
| UploadError.

(** An error string: a literal of the source or [error.message]. *)
Inductive Message :=
| Text (s : string)
| MessageOf (e : Thrown).

Inductive Body (D : Type) :=
| Success (data : D)                (* { success: true, data } *)
| SuccessMessage (message : string) (* { success: true, message } *)
| Failure (error : Message)         (* { success: false, error } *)
| ErrorOnly (error : Message).      (* { error } *)

Arguments Success {D} data.
Arguments SuccessMessage {D} message.
Arguments Failure {D} error.
Arguments ErrorOnly {D} error.

Record Response (D : Type) := mkResponse {
  status : nat;
  body : Body D
}.

Arguments mkResponse {D} status body.
Arguments status {D} r.
Arguments body {D} r.

(** What a middleware does: answer, or call [next()] with [req.user] set. *)
Inductive Outcome (D : Type) :=
| Reply (r : Response D)
| Next (user : User).

Arguments Reply {D} r.
Arguments Next {D} user.

(** ** Handler bodies: database state and thrown exceptions

    A statement that throws keeps the writes made before it. *)

Definition M (A : Type) : Type := Db -> (Thrown + A) * Db.

Definition ret {A} (a : A) : M A := fun db => (inr a, db).

Definition bind {A B} (m : M A) (k : A -> M B) : M B :=
  fun db =>
    match m db with
    | (inl e, db') => (inl e, db')
    | (inr a, db') => k a db'
    end.

Definition throw {A} (e : Thrown) : M A := fun db => (inl e, db).

Definition gets {A} (f : Db -> A) : M A := fun db => (inr (f db), db).

Definition modify (f : Db -> Db) : M unit := fun db => (inr tt, f db).

Definition newId : M ObjectId :=
  fun db => let (i, db') := fresh db in (inr i, db').

Declare Scope handler_scope.
Delimit Scope handler_scope with handler.

Notation "'await' x ':=' m 'in' k" :=
  (bind m (fun x => k))
  (at level 10, x name, m at level 100, k at level 200) : handler_scope.

Open Scope handler_scope.

(** [try { body } catch (error) { handler }] around a whole handler. *)
Definition try_catch {D} (body : M (Response D)) (handler : Thrown -> Response D)
  : Db -> Response D * Db :=
  fun db =>
    match body db with
    | (inl e, db') => (handler e, db')
    | (inr r, db') => (r, db')
    end.

(** [try { body } catch (err) { console.error(err) }] around a statement. *)
Definition try_ignore (body : M unit) : M unit :=
  fun db =>
    match body db with
    | (_, db') => (inr tt, db')
    end.

(** Delete the document with a given [_id] ([_id] is unique in a collection). *)
Definition deleteById {A} (idOf : A -> ObjectId) (id : ObjectId) (l : list A) : list A :=
  List.filter (fun x => negb (idOf x =? id)%N) l.

Definition findById {A} (idOf : A -> ObjectId) (id : ObjectId) (l : list A) : option A :=
  List.find (fun x => (idOf x =? id)%N) l.

Definition isIn (s : string) (l : list string) : bool :=
  existsb (String.eqb s) l.

(** The failing paths of a validation, or none. *)
Definition validate (model : string) (checks : list (string * bool)) : M unit :=
  match List.filter (fun c => negb (snd c)) checks with
  | [] => ret tt
  | failed => throw (ValidationError model (List.map fst failed))
  end.

(** Mongoose [required] on a string path: present and not empty. *)
Definition required (s : option string) : bool := Js.truthy_string s.

(** *** Video *)

Definition Video_findById (id : ObjectId) : M (option Video) :=
  gets (fun db => videos db !! id).

(** [Video.findByIdAndUpdate(id, { $inc: { views: 1 } })] *)
Definition Video_incViews (id : ObjectId) : M unit :=
  modify (set_videos (alter (fun v =>
    mkVideo (video_id v) (video_title v) (video_branch v) (video_year v)
            (video_teacher v) (video_specialAccess v) (video_views v + 1)%Z) id)).

(** *** User *)

Definition User_findById (id : ObjectId) : M (option User) :=
  gets (fun db => users db !! id).

(** A query [{ role, branch: { $in }, year: { $in } }] whose last two
    conditions may be left out. *)
Record UserQuery := mkUserQuery {
  query_role : Role;
  query_branch : option (list string);
  query_year : option (list string)
}.

Definition within (x : option string) (cond : option (list string)) : bool :=
  match cond, x with
  | None, _ => true
  | Some l, Some x => existsb (String.eqb x) l
  | Some _, None => false
  end.

Definition User_matches (q : UserQuery) (u : User) : bool :=
  Role_eqb (user_role u) (query_role q)
  && within (user_branch u) (query_branch q)
  && within (user_year u) (query_year q).

(** [User.updateMany({ _id: { $in: userIds } }, { isApproved })], the write
    of the bulk approval handler. *)
Definition withApproval (isApproved : bool) (u : User) : User :=
  mkUser (user_id u) (user_name u) (user_email u) (user_role u) (user_branch u)
         (user_year u) isApproved.

Definition User_setApproved (userIds : list ObjectId) (isApproved : bool) : M unit :=
  modify (set_users (fun us =>
    foldr (fun id us => alter (withApproval isApproved) id us) us userIds)).

(** [User.find(query)] *)
Definition User_find (q : UserQuery) : M (list User) :=
  gets (fun db => List.filter (User_matches q) (List.map snd (map_to_list (users db)))).

(** *** Like *)

Definition Like_matches (video user : ObjectId) (l : Like) : bool :=
  (like_video l =? video)%N && (like_user l =? user)%N.

Definition Like_findOne (video user : ObjectId) : M (option Like) :=
  gets (fun db => List.find (Like_matches video user) (likes db)).

Definition Like_countDocuments (video : ObjectId) : M nat :=
  gets (fun db => length (List.filter (fun l => (like_video l =? video)%N) (likes db))).

(** [Like.create]: the unique index on (video, user) rejects a duplicate. *)
Definition Like_create (video user : ObjectId) : M Like :=
  await dup := Like_findOne video user in
  match dup with
  | Some _ => throw (DuplicateKey "Like")
  | None =>
      await id := newId in
      let l := mkLike id video user in
      await _ := modify (set_likes (fun ls => (ls ++ [l])%list)) in
      ret l
  end.

(** [like.remove()] and [Like.findByIdAndDelete(like._id)] *)
Definition Like_remove (l : Like) : M unit :=
  modify (set_likes (deleteById like_id (like_id l))).

(** *** Notification *)

Definition Notification_types : list string :=
  [ "video_comment"; "video_like"; "video_view"; "notice_posted";
    "notice_updated"; "playlist_updated"; "system_announcement" ].

Definition Notification_checks (n : Notification) : list (string * bool) :=
  [ ("type", isIn (notification_type n) Notification_types);
    ("title", negb (String.eqb (notification_title n) EmptyString));
    ("message", negb (String.eqb (notification_message n) EmptyString)) ].

Definition Notification_create (n : Notification) : M unit :=
  await _ := validate "Notification" (Notification_checks n) in
  modify (set_notifications (fun ns => (ns ++ [n])%list)).

(** [Notification.insertMany]: every document is validated first, and
    nothing is written when one of them fails. *)
Definition Notification_insertMany (l : list Notification) : M unit :=
  await _ := validate "Notification" (List.concat (List.map Notification_checks l)) in
  modify (set_notifications (fun ns => (ns ++ l)%list)).

(** *** VideoView *)

Definition VideoView_matches (video user : ObjectId) (v : VideoView) : bool :=
  (view_video v =? video)%N && (view_user v =? user)%N.

Definition VideoView_findOne (video user : ObjectId) : M (option VideoView) :=
  gets (fun db => List.find (VideoView_matches video user) (videoViews db)).

Definition VideoView_create (video user : ObjectId) (now watchTime completionPercentage lastPosition : Z)
  : M VideoView :=
  await dup := VideoView_findOne video user in
  match dup with
  | Some _ => throw (DuplicateKey "VideoView")
  | None =>
      await id := newId in
      let v := mkVideoView id video user now watchTime completionPercentage lastPosition in
      await _ := modify (set_videoViews (fun vs => (vs ++ [v])%list)) in
      ret v
  end.

(** [view.save()]: the stored document with this [_id] takes the new fields. *)
Definition VideoView_save (v : VideoView) : M unit :=
  modify (set_videoViews
    (List.map (fun x => if (view_id x =? view_id v)%N then v else x))).

(** *** Comment *)

Definition Comment_findById (id : ObjectId) : M (option Comment) :=
  gets (fun db => findById comment_id id (comments db)).

Definition isReplyTo (parent : ObjectId) (c : Comment) : bool :=
  match comment_parentComment c with
  | Some p => (p =? parent)%N
  | None => false
  end.

(** [Comment.deleteMany({ parentComment })] *)
Definition Comment_deleteReplies (parent : ObjectId) : M unit :=
  modify (set_comments (List.filter (fun c => negb (isReplyTo parent c)))).

Definition Comment_findByIdAndDelete (id : ObjectId) : M unit :=
  modify (set_comments (deleteById comment_id id)).

(** *** Report *)

Definition Report_reasons : list string :=
  [ "spam"; "harassment"; "off-topic"; "inappropriate"; "other" ].

Definition Report_statuses : list string :=
  [ "pending"; "reviewed"; "ignored" ].

Definition Report_matches (comment user : ObjectId) (r : Report) : bool :=
  (report_comment r =? comment)%N && (report_user r =? user)%N.

Definition Report_findOne (comment user : ObjectId) : M (option Report) :=
  gets (fun db => List.find (Report_matches comment user) (reports db)).

Definition Report_create (comment user : ObjectId) (reason : string) (details : option string)
  : M Report :=
  await _ := validate "Report"
    [ ("reason", isIn reason Report_reasons);
      ("details", if String.eqb reason "other" then required details else true) ] in
  await dup := Report_findOne comment user in
  match dup with
  | Some _ => throw (DuplicateKey "Report")
  | None =>
      await id := newId in
      let r := mkReport id comment user reason details "pending" in
      await _ := modify (set_reports (fun rs => (rs ++ [r])%list)) in
      ret r
  end.

Definition Report_withStatus (s : string) (r : Report) : Report :=
  mkReport (report_id r) (report_comment r) (report_user r) (report_reason r)
           (report_details r) s.

(** [Report.findByIdAndUpdate(id, { status }, { new: true, runValidators: true })] *)
Definition Report_findByIdAndUpdate (id : ObjectId) (s : string) : M (option Report) :=
  await _ := validate "Report" [ ("status", isIn s Report_statuses) ] in
  await found := gets (fun db => findById report_id id (reports db)) in
  match found with
  | None => ret None
  | Some r =>
      await _ := modify (set_reports
        (List.map (fun x => if (report_id x =? id)%N then Report_withStatus s x else x))) in
      ret (Some (Report_withStatus s r))
  end.

Definition Report_findByIdAndDelete (id : ObjectId) : M unit :=
  modify (set_reports (deleteById report_id id)).

(** *** Notice *)

Definition Notice_categories : list string :=
  [ "General"; "Academic"; "Event"; "Important"; "Other" ].

Definition Notice_branches : list string :=
  [ "CSE"; "CSE-AI"; "CSE-SF"; "ECE"; "EE"; "ME"; "CE" ].

Definition years : list string := [ "1st"; "2nd"; "3rd"; "4th" ].

Definition Notice_priorities : list string := [ "low"; "normal"; "high" ].

Definition Notice_expirationTypes : list string := [ "date"; "duration" ].

Definition Notice_durations : list string :=
  [ "3 days"; "7 days"; "14 days"; "30 days"; "3 months"; "6 months";
    "1 year"; "never" ].

Definition optionIn (s : option string) (l : list string) : bool :=
  match s with
  | None => true
  | Some s => isIn s l
  end.

Definition Notice_checks (n : Notice) : list (string * bool) :=
  [ ("title", negb (String.eqb (notice_title n) EmptyString)
              && (String.length (notice_title n) <=? 100)%nat);
    ("content", negb (String.eqb (notice_content n) EmptyString)
                && (String.length (notice_content n) <=? 1000)%nat);
    ("category", isIn (notice_category n) Notice_categories);
    ("branch", isIn (notice_branch n) Notice_branches);
    ("year", isIn (notice_year n) years);
    ("priority", isIn (notice_priority n) Notice_priorities);
    ("expiration.type", isIn (notice_expirationType n) Notice_expirationTypes);
    ("expiration.date",
      if String.eqb (notice_expirationType n) "date"
      then required (notice_expirationDate n) else true);
    ("expiration.duration",
      (if String.eqb (notice_expirationType n) "duration"
       then required (notice_expirationDuration n) else true)
      && optionIn (notice_expirationDuration n) Notice_durations) ].

(** [Notice.create]; [title] is trimmed by the schema. *)
Definition Notice_create
    (title content category branch year priority expirationType : string)
    (expirationDate expirationDuration : option string) (teacher : ObjectId)
  : M Notice :=
  await id := newId in
  let n := mkNotice id (Js.trim title) content category branch year priority
                    expirationType expirationDate expirationDuration [] teacher in
  await _ := validate "Notice" (Notice_checks n) in
  await _ := modify (set_notices (fun ns => (ns ++ [n])%list)) in
  ret n.

Definition Notice_save (n : Notice) : M unit :=
  await _ := validate "Notice" (Notice_checks n) in
  modify (set_notices
    (List.map (fun x => if (notice_id x =? notice_id n)%N then n else x))).

(** [notice.targetAudience]: NoticeSchema has no such path, so the property
    of a hydrated document is undefined. *)
Definition notice_targetAudience (n : Notice) : option (list string * list string) :=
  None.

(** *** Note *)

Definition Note_checks (n : Note) (content : option string) : list (string * bool) :=
  [ ("content", required content) ].

Definition Note_findOne (student video : ObjectId) : M (option Note) :=
  gets (fun db =>
    List.find (fun n => (note_student n =? student)%N &&
                        match note_video n with
                        | Some v => (v =? video)%N
                        | None => false
                        end) (notes db)).

(** [Note.create]; a missing title takes the schema default. *)
Definition Note_create (title content : option string) (student : ObjectId)
    (video : option ObjectId) (timestamp now : Z) : M Note :=
  await id := newId in
  let n := mkNote id (default "Untitled Note" title) (default EmptyString content)
                  student video timestamp now in
  await _ := validate "Note" (Note_checks n content) in
  await _ := modify (set_notes (fun ns => (ns ++ [n])%list)) in
  ret n.

(** [note.save()] after [note.content = content]. *)
Definition Note_save (n : Note) (content : option string) : M unit :=
  await _ := validate "Note" (Note_checks n content) in
  modify (set_notes
    (List.map (fun x => if (note_id x =? note_id n)%N then n else x))).

(** ** middleware/auth.js *)

Definition pendingApproval {D} : Outcome D :=
  Reply (mkResponse 403 (Failure (Text
    "Your account is pending approval. Please wait for admin approval."))).

Section Auth.

(** [jwt.verify(token, JWT_SECRET)]: the [id] of the payload, or nothing
    when the signature or the expiry check throws. *)
Variable jwt_verify : string -> option ObjectId.

(** The token read from the Authorization header. *)
Definition bearerToken (authorization : option string) : option string :=
  match authorization with
  | Some h => if String.prefix "Bearer" h then Js.split " " h !! 1%nat else None
  | None => None
  end.

Definition protect {D} (authorization : option string) (db : Db) : Outcome D :=
  let token := bearerToken authorization in
  if negb (Js.truthy_string token) then
    Reply (mkResponse 401 (Failure (Text "Not authorized to access this route")))
  else
    match token ≫= jwt_verify with
    | None =>
        Reply (mkResponse 401 (Failure (Text "Not authorized to access this route")))
    | Some id =>
        match users db !! id with
        | None => Reply (mkResponse 401 (Failure (Text "User not found")))
        | Some user =>
            if negb (user_isApproved user) then pendingApproval
            else Next user
        end
    end.

End Auth.

(** [authorize(...roles)] *)
Definition authorize {D} (roles : list Role) (user : User) : Outcome D :=
  if negb (existsb (Role_eqb (user_role user)) roles) then
    Reply (mkResponse 403 (Failure (Text
      ("User role " ++ Role_name (user_role user)
       ++ " is not authorized to access this route"))))
  else Next user.

(** A route [router.verb(path, protect, authorize(roles), handler)] once
    [protect] has set [req.user]. *)
Definition authorized {D} (roles : list Role) (user : User)
    (handler : User -> Db -> Response D * Db) (db : Db) : Response D * Db :=
  match authorize roles user with
  | Reply r => (r, db)
  | Next user => handler user db
  end.

(** ** controllers/videoController.js *)

(** The access decision of [getVideo] for a student. *)
Definition getVideo_hasAccess (user : User) (video : Video) : bool :=
  let branchMatch := String.eqb (video_branch video) (Js.String_ (user_branch user)) in
  let yearMatch := String.eqb (video_year video) (Js.String_ (user_year user)) in
  let hasSpecialAccess :=
    existsb (fun id => (id =? user_id user)%N) (video_specialAccess video) in
  (branchMatch && yearMatch) || hasSpecialAccess.

Record VideoData := mkVideoData {
  data_video : Video;
  data_likes : nat;
  data_isLiked : option bool
}.

(** [getVideo]; the route is public, so [req.user] may be missing.  The
    rewriting of the media URL in the answer is left out. *)
Definition getVideo (req_user : option User) (id : ObjectId)
  : Db -> Response VideoData * Db :=
  try_catch
    (await video := Video_findById id in
     await likesCount := Like_countDocuments id in
     match video with
     | None => ret (mkResponse 404 (Failure (Text "Video not found")))
     | Some video =>
         let denied :=
           match req_user with
           | Some user =>
               Role_eqb (user_role user) student && negb (getVideo_hasAccess user video)
           | None => false
           end in
         if denied then
           ret (mkResponse 403 (Failure (Text "You do not have access to this video")))
         else
           await isLiked :=
             match req_user with
             | Some user =>
                 await userLiked := Like_findOne id (user_id user) in
                 ret (Some (bool_decide (is_Some userLiked)))
             | None => ret None
             end in
           ret (mkResponse 200 (Success (mkVideoData video likesCount isLiked)))
     end)
    (fun error => mkResponse 500 (Failure (MessageOf error))).

Record LikeState := mkLikeState { liked : bool }.

Definition quote : string := String "034" EmptyString.

Definition likeNotification (user : User) (video : Video) : Notification :=
  mkNotification (video_teacher video) "like" "New Like"
    (user_name user ++ " liked your video " ++ quote ++ video_title video ++ quote)
    (VideoRef (video_id video)).

(** [likeVideo] of the video controller: the notification is created inside
    its own try/catch ("notification is not critical"). *)
Definition likeVideo (user : User) (id : ObjectId) : Db -> Response LikeState * Db :=
  try_catch
    (await video := Video_findById id in
     match video with
     | None => ret (mkResponse 404 (Failure (Text "Video not found")))
     | Some video =>
         await existingLike := Like_findOne id (user_id user) in
         match existingLike with
         | Some existingLike =>
             await _ := Like_remove existingLike in
             ret (mkResponse 200 (Success (mkLikeState false)))
         | None =>
             fun db =>
               match Like_create id (user_id user) db with
               | (inl _, db') =>
                   (inr (mkResponse 500 (Failure (Text "Failed to like video"))), db')
               | (inr _, db') =>
                   (await _ := try_ignore
                      (if negb (video_teacher video =? user_id user)%N
                       then Notification_create (likeNotification user video)
                       else ret tt) in
                    ret (mkResponse 200 (Success (mkLikeState true)))) db'
               end
         end
     end)
    (fun error => mkResponse 500 (Failure (Text "Server error"))).

(** ** controllers/likeController.js *)

(** The access decision of [toggleLike] for a student. *)
Definition toggleLike_hasAccess (user : User) (video : Video) : Js.value :=
  Js.or
    (Js.and (video_isApproved video)
       (Js.boolean
          (Js.includes (Js.String_ (user_branch user)) (video_branch video)
           && Js.includes (Js.String_ (user_year user)) (video_year video))))
    (Js.boolean (existsb (N.eqb (user_id user)) (video_specialAccess video))).

Definition toggleLike (user : User) (id : ObjectId) : Db -> Response LikeState * Db :=
  try_catch
    (await video := Video_findById id in
     match video with
     | None => ret (mkResponse 404 (Failure (Text "Video not found")))
     | Some video =>
         if Role_eqb (user_role user) student
            && negb (Js.truthy (toggleLike_hasAccess user video))
         then ret (mkResponse 403 (Failure (Text "You do not have access to this video")))
         else
           await existingLike := Like_findOne id (user_id user) in
           match existingLike with
           | Some existingLike =>
               await _ := Like_remove existingLike in
               ret (mkResponse 200 (Success (mkLikeState false)))
           | None =>
               await like := Like_create id (user_id user) in
               await _ :=
                 (if negb (video_teacher video =? user_id user)%N
                  then Notification_create (likeNotification user video)
                  else ret tt) in
               ret (mkResponse 200 (Success (mkLikeState true)))
           end
     end)
    (fun error => mkResponse 400 (Failure (MessageOf error))).

(** ** controllers/viewController.js *)

Record ViewBody := mkViewBody {
  body_videoId : option ObjectId;
  body_watchTime : option Z;
  body_completionPercentage : option Z;
  body_lastPosition : option Z
}.

(** [recordView]; [now] is what [Date.now()] returns during the call. *)
Definition recordView (user : User) (req : ViewBody) (now : Z)
  : Db -> Response VideoView * Db :=
  try_catch
    (match body_videoId req with
     | None => ret (mkResponse 400 (Failure (Text "VideoId is required")))
     | Some videoId =>
         await found := VideoView_findOne videoId (user_id user) in
         match found with
         | Some view =>
             let view :=
               mkVideoView (view_id view) (view_video view) (view_user view) now
                 (Js.or_number (body_watchTime req) (view_watchTime view))
                 (Js.or_number (body_completionPercentage req)
                               (view_completionPercentage view))
                 (Js.or_number (body_lastPosition req) (view_lastPosition view)) in
             await _ := VideoView_save view in
             ret (mkResponse 200 (Success view))
         | None =>
             await view := VideoView_create videoId (user_id user) now
                             (Js.or_number (body_watchTime req) 0)
                             (Js.or_number (body_completionPercentage req) 0)
                             (Js.or_number (body_lastPosition req) 0) in
             await _ := Video_incViews videoId in
             ret (mkResponse 200 (Success view))
         end
     end)
    (fun error => mkResponse 500 (Failure (MessageOf error))).

(** ** controllers/commentController.js *)

Definition deleteComment (user : User) (id : ObjectId) : Db -> Response unit * Db :=
  try_catch
    (await found := Comment_findById id in
     match found with
     | None => ret (mkResponse 404 (Failure (Text "Comment not found")))
     | Some comment =>
         if negb (comment_user comment =? user_id user)%N
            && negb (Role_eqb (user_role user) admin)
         then ret (mkResponse 403 (Failure (Text "Not authorized")))
         else
           await _ :=
             match comment_parentComment comment with
             | None => Comment_deleteReplies (comment_id comment)
             | Some _ => ret tt
             end in
           await _ := Comment_findByIdAndDelete id in
           ret (mkResponse 200 (SuccessMessage "Comment deleted"))
     end)
    (fun error => mkResponse 500 (Failure (MessageOf error))).

(** ** controllers/reportController.js *)

Record ReportBody := mkReportBody {
  body_commentId : option ObjectId;
  body_reason : option string;
  body_details : option string
}.

Definition createReport (user : User) (req : ReportBody) : Db -> Response Report * Db :=
  try_catch
    (match body_commentId req, Js.truthy_string (body_reason req), body_reason req with
     | Some commentId, true, Some reason =>
         await found := Comment_findById commentId in
         match found with
         | None => ret (mkResponse 404 (Failure (Text "Comment not found")))
         | Some comment =>
             if (comment_user comment =? user_id user)%N then
               ret (mkResponse 400 (Failure (Text "You cannot report your own comment")))
             else
               await existingReport := Report_findOne commentId (user_id user) in
               match existingReport with
               | Some _ =>
                   ret (mkResponse 400
                          (Failure (Text "You have already reported this comment")))
               | None =>
                   await report := Report_create commentId (user_id user) reason
                     (if String.eqb reason "other" then body_details req else None) in
                   ret (mkResponse 201 (Success report))
               end
         end
     | _, _, _ =>
         ret (mkResponse 400 (Failure (Text "Please provide comment ID and reason")))
     end)
    (fun error => mkResponse 500 (Failure (MessageOf error))).

(** [updateReportStatus]; [status] is [req.body.status]. *)
Definition updateReportStatus (id : ObjectId) (status : option string) (user : User)
  : Db -> Response Report * Db :=
  try_catch
    (match status with
     | Some s =>
         if negb (isIn s Report_statuses) then
           ret (mkResponse 400 (Failure (Text "Invalid status value")))
         else
           await report := Report_findByIdAndUpdate id s in
           match report with
           | None => ret (mkResponse 404 (Failure (Text "Report not found")))
           | Some report => ret (mkResponse 200 (Success report))
           end
     | None => ret (mkResponse 400 (Failure (Text "Invalid status value")))
     end)
    (fun error => mkResponse 500 (Failure (MessageOf error))).

(** [router.put('/:id', protect, authorize('admin'), updateReportStatus)] *)
Definition PUT_report (user : User) (id : ObjectId) (status : option string)
  : Db -> Response Report * Db :=
  authorized [admin] user (updateReportStatus id status).

(** [cancelReport]; the route is open to every authenticated user. *)
Definition cancelReport (user : User) (commentId : ObjectId) : Db -> Response Report * Db :=
  try_catch
    (await found := Report_findOne commentId (user_id user) in
     match found with
     | None => ret (mkResponse 404 (Failure (Text "Report not found")))
     | Some report =>
         await _ := Report_findByIdAndDelete (report_id report) in
         ret (mkResponse 200 (SuccessMessage "Report successfully canceled"))
     end)
    (fun error => mkResponse 500 (Failure (MessageOf error))).

(** ** controllers/noticeController.js *)

Record NoticeBody := mkNoticeBody {
  body_title : option string;
  body_content : option string;
  body_category : option string;
  body_branch : option string;
  body_year : option string;
  body_priority : option string;
  body_expirationType : option string;
  body_expirationDate : option string;
  body_expirationDuration : option string
}.

(** An uploaded file of the request, by its path. *)
Record UploadResult := mkUploadResult {
  original_filename : string;
  secure_url : string;
  bytes : Z
}.

(** [Promise.all] over the uploads: the first rejection wins. *)
Fixpoint uploadAll (upload : string -> option UploadResult) (files : list string)
  : M (list UploadResult) :=
  match files with
  | [] => ret []
  | f :: files =>
      match upload f with
      | None => throw UploadError
      | Some r =>
          await rs := uploadAll upload files in
          ret (r :: rs)
      end
  end.

Definition withAttachments (n : Notice) (a : list Attachment) : Notice :=
  mkNotice (notice_id n) (notice_title n) (notice_content n) (notice_category n)
           (notice_branch n) (notice_year n) (notice_priority n)
           (notice_expirationType n) (notice_expirationDate n)
           (notice_expirationDuration n) a (notice_teacher n).

(** The helper [createNotifications(notice)] of the notice controller.  No
    handler of the controller calls it. *)
Definition createNotifications (notice : Notice) : M unit :=
  try_ignore
    (let unlessAll (l : list string) :=
       if negb (isIn "All" l) then Some l else None in
     let query :=
       match notice_targetAudience notice with
       | Some (branches, years) =>
           mkUserQuery student (unlessAll branches) (unlessAll years)
       | None => mkUserQuery student None None
       end in
     await students := User_find query in
     Notification_insertMany
       (List.map (fun s =>
          mkNotification (user_id s) "notice_posted" "New Notice" (notice_title notice)
            (NoticeRef (notice_id notice) (notice_category notice)
                       (notice_priority notice)))
          students)).

Section Notices.

(** [cloudinary.uploader.upload(file.path, ...)]: the result, or nothing
    when the upload fails. *)
Variable cloudinary_upload : string -> option UploadResult.

Definition createNotice (user : User) (req : NoticeBody) (files : list string)
  : Db -> Response Notice * Db :=
  try_catch
    (let present := Js.truthy_string in
     let text := default EmptyString in
     if negb (present (body_title req) && present (body_content req)
              && present (body_category req) && present (body_branch req)
              && present (body_year req) && present (body_priority req)
              && present (body_expirationType req))
     then ret (mkResponse 400 (ErrorOnly (Text "Please provide all required fields")))
     else if bool_decide (body_branch req = Some "All")
             || bool_decide (body_year req = Some "All")
     then ret (mkResponse 400 (ErrorOnly (Text "Please select specific branch and year")))
     else
       let byDate := bool_decide (body_expirationType req = Some "date") in
       await notice := Notice_create
         (text (body_title req)) (text (body_content req)) (text (body_category req))
         (text (body_branch req)) (text (body_year req)) (text (body_priority req))
         (text (body_expirationType req))
         (if byDate then body_expirationDate req else None)
         (if byDate then None else body_expirationDuration req)
         (user_id user) in
       match files with
       | [] => ret (mkResponse 201 (Success notice))
       | _ =>
           await uploadResults := uploadAll cloudinary_upload files in
           let notice := withAttachments notice
             (List.map (fun r => mkAttachment (original_filename r) (secure_url r)
                                              (bytes r)) uploadResults) in
           await _ := Notice_save notice in
           ret (mkResponse 201 (Success notice))
       end)
    (fun error => mkResponse 500 (ErrorOnly (MessageOf error))).

End Notices.

(** ** controllers/noteController.js *)

Record NoteBody := mkNoteBody {
  note_body_content : option string;
  note_body_videoId : option ObjectId;
  note_body_timestamp : option Z;
  note_body_title : option string
}.

(** The access check of [createNote]. *)
Definition createNote_hasAccess (user : User) (video : Video) : Js.value :=
  Js.or
    (Js.or
       (Js.and (video_isApproved video)
          (Js.boolean
             (bool_decide (Some (video_branch video) = user_branch user)
              && bool_decide (Some (video_year video) = user_year user))))
       (Js.boolean (existsb (N.eqb (user_id user)) (video_specialAccess video))))
    (Js.boolean true).

Definition withContent (n : Note) (content : option string) (timestamp now : Z) : Note :=
  mkNote (note_id n) (note_title n) (default EmptyString content) (note_student n)
         (note_video n) timestamp now.

Definition createNote (user : User) (req : NoteBody) (now : Z) : Db -> Response Note * Db :=
  try_catch
    (match note_body_videoId req with
     | None =>
         if negb (Js.truthy_string (note_body_title req)) then
           ret (mkResponse 400 (Failure (Text "Title is required for standalone notes")))
         else
           await note := Note_create (note_body_title req) (note_body_content req)
                           (user_id user) None 0 now in
           ret (mkResponse 201 (Success note))
     | Some videoId =>
         await video := Video_findById videoId in
         match video with
         | None => ret (mkResponse 404 (Failure (Text "Video not found")))
         | Some video =>
             if negb (Js.truthy (createNote_hasAccess user video)) then
               ret (mkResponse 403 (Failure (Text "You do not have access to this video")))
             else
               await found := Note_findOne (user_id user) videoId in
               match found with
               | Some note =>
                   let note := withContent note (note_body_content req)
                     (Js.or_number (note_body_timestamp req) (note_timestamp note)) now in
                   await _ := Note_save note (note_body_content req) in
                   ret (mkResponse 201 (Success note))
               | None =>
                   await note := Note_create None (note_body_content req) (user_id user)
                     (Some videoId) (Js.or_number (note_body_timestamp req) 0) now in
                   ret (mkResponse 201 (Success note))
               end
         end
     end)
    (fun error => mkResponse 400 (Failure (MessageOf error))).

(** ** More of the controllers

    The handlers below sit beside the ones above in the same files.  A reply
    that is not of the shape [{ success, data }] is given by a record of its
    other fields. *)

(** [Model.findOneAndDelete(filter)]: the first matching document goes. *)
Fixpoint removeFirst {A} (p : A -> bool) (l : list A) : list A :=
  match l with
  | [] => []
  | x :: l => if p x then l else x :: removeFirst p l
  end.

(** [{ success: true, count, data }] *)
Record Listing (A : Type) := mkListing {
  listing_count : nat;
  listing_data : list A
}.

Arguments mkListing {A} listing_count listing_data.
Arguments listing_count {A} l.
Arguments listing_data {A} l.

(** *** controllers/likeController.js *)

Module LikeController.

(** [likeVideo]: a duplicate-key error of the unique index is answered
    400 "Already liked". *)
Definition likeVideo (user : User) (videoId : option ObjectId)
  : Db -> Response unit * Db :=
  try_catch
    (match videoId with
     | None => ret (mkResponse 400 (Failure (Text "videoId is required")))
     | Some videoId =>
         await video := Video_findById videoId in
         match video with
         | None => ret (mkResponse 404 (Failure (Text "Video not found")))
         | Some _ =>
             await _ := Like_create videoId (user_id user) in
             ret (mkResponse 201 (SuccessMessage "Video liked"))
         end
     end)
    (fun error =>
       match error with
       | DuplicateKey _ => mkResponse 400 (Failure (Text "Already liked"))
       | _ => mkResponse 500 (Failure (MessageOf error))
       end).

Definition Like_findOneAndDelete (video user : ObjectId) : M unit :=
  modify (set_likes (removeFirst (Like_matches video user))).

Definition unlikeVideo (user : User) (videoId : option ObjectId)
  : Db -> Response unit * Db :=
  try_catch
    (match videoId with
     | None => ret (mkResponse 400 (Failure (Text "videoId is required")))
     | Some videoId =>
         await _ := Like_findOneAndDelete videoId (user_id user) in
         ret (mkResponse 200 (SuccessMessage "Video unliked"))
     end)
    (fun error => mkResponse 500 (Failure (MessageOf error))).

(** [getLikesForVideo]: the likes of a video, each with the name of its
    user when the user still exists ([populate('user', 'name')]). *)
Definition getLikesForVideo (videoId : ObjectId)
  : Db -> Response (Listing (Like * option string)) * Db :=
  try_catch
    (await found := gets (fun db =>
       List.map (fun l => (l, user_name <$> users db !! like_user l))
         (List.filter (fun l => (like_video l =? videoId)%N) (likes db))) in
     ret (mkResponse 200 (Success (mkListing (length found) found))))
    (fun error => mkResponse 500 (Failure (MessageOf error))).

End LikeController.

(** *** controllers/viewController.js *)

(** The number [sum / count || 0]: zero when the quotient is NaN or zero,
    else the quotient, kept as its two operands. *)
Inductive Average :=
| Zero
| Quotient (sum : Z) (count : nat).

Definition average (sum : Z) (count : nat) : Average :=
  if (count =? 0)%nat || (sum =? 0)%Z then Zero else Quotient sum count.

Record Distribution := mkDistribution {
  upTo25 : nat;
  upTo50 : nat;
  upTo75 : nat;
  upTo100 : nat
}.

Record ViewStats := mkViewStats {
  totalViews : nat;
  uniqueViewers : nat;
  averageWatchTime : Average;
  averageCompletion : Average;
  completionDistribution : Distribution
}.

Definition VideoView_findByVideo (video : ObjectId) : M (list VideoView) :=
  gets (fun db => List.filter (fun v => (view_video v =? video)%N) (videoViews db)).

Definition countWhere {A} (p : A -> bool) (l : list A) : nat :=
  length (List.filter p l).

Definition getViewStats (user : User) (videoId : ObjectId)
  : Db -> Response ViewStats * Db :=
  try_catch
    (await video := Video_findById videoId in
     match video with
     | None => ret (mkResponse 404 (Failure (Text "Video not found")))
     | Some video =>
         if negb (video_teacher video =? user_id user)%N
            && negb (Role_eqb (user_role user) admin)
         then ret (mkResponse 403
                     (Failure (Text "Not authorized to view these statistics")))
         else
           await views := VideoView_findByVideo videoId in
           let totalViews := length views in
           let averageWatchTime :=
             average (fold_left (fun acc view => (acc + view_watchTime view)%Z) views 0%Z)
                     totalViews in
           let averageCompletion :=
             average (fold_left (fun acc view => (acc + view_completionPercentage view)%Z)
                                views 0%Z)
                     totalViews in
           let uniqueViewers :=
             size (list_to_set (List.map view_user views) : gset N) in
           let completionDistribution :=
             mkDistribution
               (countWhere (fun v => (view_completionPercentage v <=? 25)%Z) views)
               (countWhere (fun v => (25 <? view_completionPercentage v)%Z
                                     && (view_completionPercentage v <=? 50)%Z) views)
               (countWhere (fun v => (50 <? view_completionPercentage v)%Z
                                     && (view_completionPercentage v <=? 75)%Z) views)
               (countWhere (fun v => (75 <? view_completionPercentage v)%Z) views) in
           ret (mkResponse 200
                  (Success (mkViewStats totalViews uniqueViewers averageWatchTime
                                        averageCompletion completionDistribution)))
     end)
    (fun error => mkResponse 500 (Failure (MessageOf error))).

(** [clearWatchHistory]: [VideoView.deleteMany({ user })] *)
Definition clearWatchHistory (user : User) : Db -> Response unit * Db :=
  try_catch
    (await _ := modify (set_videoViews
       (List.filter (fun v => negb (view_user v =? user_id user)%N))) in
     ret (mkResponse 200 (SuccessMessage "Watch history cleared")))
    (fun error => mkResponse 500 (Failure (MessageOf error))).

(** *** controllers/noteController.js *)

Definition Note_findById (id : ObjectId) : M (option Note) :=
  gets (fun db => findById note_id id (notes db)).

(** [getNote]; the answer carries the title of the note's video when that
    video exists ([populate('video', ...)]; its thumbnail is left out). *)
Definition getNote (user : User) (id : ObjectId)
  : Db -> Response (Note * option string) * Db :=
  try_catch
    (await found := Note_findById id in
     match found with
     | None => ret (mkResponse 404 (Failure (Text "Note not found")))
     | Some note =>
         if negb (note_student note =? user_id user)%N then
           ret (mkResponse 403 (Failure (Text "Not authorized to access this note")))
         else
           await video := gets (fun db => note_video note ≫= fun v => videos db !! v) in
           ret (mkResponse 200 (Success (note, video_title <$> video)))
     end)
    (fun error => mkResponse 500 (Failure (MessageOf error))).

Definition deleteNote (user : User) (id : ObjectId) : Db -> Response unit * Db :=
  try_catch
    (await found := Note_findById id in
     match found with
     | None => ret (mkResponse 404 (Failure (Text "Note not found")))
     | Some note =>
         if negb (note_student note =? user_id user)%N then
           ret (mkResponse 403 (Failure (Text "Not authorized to delete this note")))
         else
           await _ := modify (set_notes (deleteById note_id (note_id note))) in
           ret (mkResponse 200 (Success tt))
     end)
    (fun error => mkResponse 500 (Failure (MessageOf error))).

(** What [note.save()] validates: the content, and the title of a note
    without a video. *)
Definition Note_saveChecks (n : Note) : list (string * bool) :=
  [ ("title", bool_decide (is_Some (note_video n))
              || negb (String.eqb (note_title n) EmptyString));
    ("content", negb (String.eqb (note_content n) EmptyString)) ].

Definition Note_update (n : Note) : M unit :=
  await _ := validate "Note" (Note_saveChecks n) in
  modify (set_notes
    (List.map (fun x => if (note_id x =? note_id n)%N then n else x))).

Definition updateNote (user : User) (id : ObjectId) (content title : option string)
    (now : Z) : Db -> Response Note * Db :=
  try_catch
    (await found := Note_findById id in
     match found with
     | None => ret (mkResponse 404 (Failure (Text "Note not found")))
     | Some note =>
         if negb (note_student note =? user_id user)%N then
           ret (mkResponse 403 (Failure (Text "Not authorized to update this note")))
         else
           let note :=
             mkNote (note_id note)
               (if Js.truthy_string title then default EmptyString title
                else note_title note)
               (if Js.truthy_string content then default EmptyString content
                else note_content note)
               (note_student note) (note_video note) (note_timestamp note) now in
           await _ := Note_update note in
           ret (mkResponse 200 (Success note))
     end)
    (fun error => mkResponse 400 (Failure (MessageOf error))).

(** *** controllers/reportController.js *)

(** [{ success: true, count }] *)
Record CountReply := mkCountReply { reply_count : nat }.

(** [{ success: true, hasReported }] *)
Record HasReportedReply := mkHasReportedReply { reply_hasReported : bool }.

Definition getReportCount (commentId : ObjectId) : Db -> Response CountReply * Db :=
  try_catch
    (await count := gets (fun db =>
       length (List.filter (fun r => (report_comment r =? commentId)%N) (reports db))) in
     ret (mkResponse 200 (Success (mkCountReply count))))
    (fun error => mkResponse 500 (Failure (MessageOf error))).

Definition checkUserReport (user : User) (commentId : ObjectId)
  : Db -> Response HasReportedReply * Db :=
  try_catch
    (await report := Report_findOne commentId (user_id user) in
     ret (mkResponse 200
            (Success (mkHasReportedReply (bool_decide (is_Some report))))))
    (fun error => mkResponse 500 (Failure (MessageOf error))).

Definition getUserReport (user : User) (commentId : ObjectId)
  : Db -> Response Report * Db :=
  try_catch
    (await report := Report_findOne commentId (user_id user) in
     match report with
     | None => ret (mkResponse 404 (Failure (Text "Report not found")))
     | Some report => ret (mkResponse 200 (Success report))
     end)
    (fun error => mkResponse 500 (Failure (MessageOf error))).

(** *** controllers/commentController.js *)







Definition optionInIds (x : option ObjectId) (ids : list ObjectId) : bool :=
  match x with
  | Some x => existsb (N.eqb x) ids
  | None => false
  end.

(** [bulkAction]; [commentIds] is missing, or an array. *)
Definition bulkAction (commentIds : option (list ObjectId)) (user : User)
  : Db -> Response unit * Db :=
  try_catch
    (match commentIds with
     | Some (id :: ids) =>
         let commentIds := id :: ids in
         await _ := modify (set_comments (List.filter (fun c =>
           negb (existsb (N.eqb (comment_id c)) commentIds
                 || optionInIds (comment_parentComment c) commentIds)))) in
         ret (mkResponse 200 (SuccessMessage
           ("Successfully deleted " ++ pretty (length commentIds) ++ " comments")))
     | _ => ret (mkResponse 400 (Failure (Text "Please provide an array of comment IDs")))
     end)
    (fun error => mkResponse 500 (Failure (MessageOf error))).

(** [router.post('/bulk-action', authorize('admin'), bulkAction)] *)
Definition POST_bulkAction (user : User) (commentIds : option (list ObjectId))
  : Db -> Response unit * Db :=
  authorized [admin] user (bulkAction commentIds).

(** *** controllers/userController.js *)

Definition deleteUser (id : ObjectId) : Db -> Response unit * Db :=
  try_catch
    (await found := User_findById id in
     match found with
     | None => ret (mkResponse 404 (Failure (Text "User not found")))
     | Some user =>
         if Role_eqb (user_role user) admin then
           ret (mkResponse 403 (Failure (Text "Cannot delete admin user")))
         else
           await _ := modify (set_users (delete id)) in
           ret (mkResponse 200 (Success tt))
     end)
    (fun error => mkResponse 500 (Failure (MessageOf error))).

(** *** controllers/authController.js *)

(** [{ success: true, token, user }] *)
Record LoginReply := mkLoginReply {
  reply_token : string;
  reply_user : User
}.

(** [User.findOne({ email })] *)
Definition User_findOneByEmail (email : string) : M (option User) :=
  gets (fun db =>
    List.find (fun u => String.eqb (user_email u) email)
              (List.map snd (map_to_list (users db)))).

Section Login.

(** [user.matchPassword(entered)]: bcrypt's comparison with the stored hash,
    or nothing when it throws. *)
Variable matchPassword : User -> string -> option bool.

(** [generateToken(id)]: the signed token, or nothing when signing throws. *)
Variable generateToken : ObjectId -> option string.

Definition login (email password : option string) : Db -> Response LoginReply * Db :=
  try_catch
    (if negb (Js.truthy_string email && Js.truthy_string password) then
       ret (mkResponse 400 (Failure (Text "Please provide email and password")))
     else
       await found := User_findOneByEmail (default EmptyString email) in
       match found with
       | None => ret (mkResponse 401 (Failure (Text "Invalid credentials")))
       | Some user =>
           match matchPassword user (default EmptyString password) with
           | None => ret (mkResponse 500 (Failure (Text "Error comparing passwords")))
           | Some false => ret (mkResponse 401 (Failure (Text "Invalid credentials")))
           | Some true =>
               if negb (user_isApproved user) then
                 ret (mkResponse 403 (Failure (Text
                   "Your account is pending approval. Please wait for admin approval.")))
               else
                 match generateToken (user_id user) with
                 | None =>
                     ret (mkResponse 500 (Failure (Text "Error comparing passwords")))
                 | Some token =>
                     ret (mkResponse 200 (Success (mkLoginReply token user)))
                 end
           end
       end)
    (fun error =>
       mkResponse 500 (Failure (Text "An error occurred during login. Please try again."))).

End Login.

(** ** The visibility rule as the specification words it

    Visible to a student iff (approved) and (branch matches or is "All") and
    (year matches or is "All"), or the student is on the allow-list.  The
    approval flag is an argument: a video document has none. *)
Definition spec_canView (approved : bool) (p : User) (v : Video) : bool :=
  (approved
   && (bool_decide (Some (video_branch v) = user_branch p)
       || String.eqb (video_branch v) "All")
   && (bool_decide (Some (video_year v) = user_year p)
       || String.eqb (video_year v) "All"))
  || bool_decide (user_id p ∈ video_specialAccess v).

(** ** Observations on the database *)

(** The Like rows of one user on one video. *)
Definition likeRows (video user : ObjectId) (db : Db) : list Like :=
  List.filter (Like_matches video user) (likes db).

(** The view rows of one user on one video. *)
Definition viewRows (video user : ObjectId) (db : Db) : list VideoView :=
  List.filter (VideoView_matches video user) (videoViews db).

(** The view counter of a video. *)
Definition viewCount (video : ObjectId) (db : Db) : option Z :=
  video_views <$> videos db !! video.

(** Successive [recordView] requests, each with its user, body and time. *)
Definition recordViews (calls : list (User * ViewBody * Z)) (db : Db) : Db :=
  foldl (fun db c => snd (recordView c.1.1 c.1.2 c.2 db)) db calls.

(** The row [recordView] creates on a first view. *)
Definition firstView (user : User) (videoId : ObjectId) (req : ViewBody) (now : Z)
    (db : Db) : VideoView :=
  mkVideoView (nextId db) videoId (user_id user) now
    (Js.or_number (body_watchTime req) 0)
    (Js.or_number (body_completionPercentage req) 0)
    (Js.or_number (body_lastPosition req) 0).

(** The row [recordView] saves over an existing one. *)
Definition nextView (view : VideoView) (req : ViewBody) (now : Z) : VideoView :=
  mkVideoView (view_id view) (view_video view) (view_user view) now
    (Js.or_number (body_watchTime req) (view_watchTime view))
    (Js.or_number (body_completionPercentage req) (view_completionPercentage view))
    (Js.or_number (body_lastPosition req) (view_lastPosition view)).

(** The comment [t] itself or a reply to it. *)
Definition inTree (t : ObjectId) (c : Comment) : bool :=
  (comment_id c =? t)%N || isReplyTo t c.

(** The unique indexes, as properties of a database: no two Like rows, view
    rows or reports with the same pair. *)
Definition likesUnique (db : Db) : Prop :=
  NoDup (List.map (fun l => (like_video l, like_user l)) (likes db)).

Definition viewsUnique (db : Db) : Prop :=
  NoDup (List.map (fun v => (view_video v, view_user v)) (videoViews db)).

Definition reportsUnique (db : Db) : Prop :=
  NoDup (List.map (fun r => (report_comment r, report_user r)) (reports db)).

(** No report is by the author of the comment it names. *)
Definition noSelfReports (db : Db) : Prop :=
  forall r c,
    In r (reports db) ->
    findById comment_id (report_comment r) (comments db) = Some c ->
    comment_user c <> report_user r.

(** Every user document is stored under its own [_id]. *)
Definition usersKeyed (db : Db) : Prop :=
  forall id u, users db !! id = Some u -> user_id u = id.

(** The notes of one student on one video. *)
Definition noteRows (student video : ObjectId) (db : Db) : list Note :=
  List.filter (fun n => (note_student n =? student)%N
                        && match note_video n with
                           | Some v => (v =? video)%N
                           | None => false
                           end) (notes db).

(** The reports on one comment. *)
Definition reportsOn (comment : ObjectId) (db : Db) : list Report :=
  List.filter (fun r => (report_comment r =? comment)%N) (reports db).

(** The view collection as the handlers keep it: ids are distinct and were
    drawn from the id counter, and rows are unique per (video, user). *)
Definition viewsWellFormed (db : Db) : Prop :=
  NoDup (List.map view_id (videoViews db))
  /\ Forall (fun v => (view_id v < nextId db)%N) (videoViews db)
  /\ viewsUnique db.

(** The ids of the notes were drawn from the id counter. *)
Definition notesFresh (db : Db) : Prop :=
  Forall (fun n => (note_id n < nextId db)%N) (notes db).

(** The ids of the reports were drawn from the id counter. *)
Definition reportsFresh (db : Db) : Prop :=
  Forall (fun r => (report_id r < nextId db)%N) (reports db).


(** [m] keeps the property [I] of the database, whether it returns or
    throws. *)
Definition maintains {A} (I : Db -> Prop) (m : M A) : Prop :=
  forall db, I db -> I (snd (m db)).

(** [m] leaves the observation [f] of the database as it was. *)
Definition preserves {A B} (f : Db -> B) (m : M A) : Prop :=
  forall db, f (snd (m db)) = f db.

(** ** Sample data *)

Module Sample.

Definition alice := mkUser 1 "Alice" "alice@example.org" student (Some "CSE") (Some "2nd") true.
Definition bob := mkUser 2 "Bob" "bob@example.org" teacher None None true.
Definition carol := mkUser 3 "Carol" "carol@example.org" admin None None true.
Definition dave := mkUser 4 "Dave" "dave@example.org" teacher None None false.
Definition erin := mkUser 5 "Erin" "erin@example.org" student (Some "ECE") (Some "2nd") true.

(** Bob's lecture for CSE, second year. *)
Definition lecture := mkVideo 10 "Graphs" "CSE" "2nd" 2 [] 0.

(** The same lecture addressed to every branch. *)
Definition open_lecture := mkVideo 11 "Graphs" "All" "2nd" 2 [] 0.

Definition db : Db :=
  mkDb (list_to_map [(1, alice); (2, bob); (3, carol); (4, dave); (5, erin)]%N)
       (list_to_map [(10, lecture); (11, open_lecture)]%N)
       [] [] [] [] [] [] [] 100%N.

(** Alice's comment on the lecture with three replies, and a comment of
    Erin's outside that thread. *)
Definition thread : list Comment :=
  [ mkComment 20 "Why is it connected?" 1 10 None;
    mkComment 21 "See slide 4." 2 10 (Some 20%N);
    mkComment 22 "Thanks!" 1 10 (Some 20%N);
    mkComment 23 "Same question here." 5 10 (Some 20%N);
    mkComment 24 "Great lecture." 5 10 None ].

Definition db_thread : Db := set_comments (fun _ => thread) db.

(** Erin's report on Bob's reply, already reviewed. *)
Definition db_reviewed : Db :=
  set_reports (fun _ => [mkReport 30 21 5 "spam" None "reviewed"]) db_thread.

(** Bob's notice for CSE, second year, and the same notice addressed to
    every year of CSE. *)
Definition exam_notice (year : string) : NoticeBody :=
  mkNoticeBody (Some "Midterm") (Some "The midterm is on Monday.") (Some "Academic")
               (Some "CSE") (Some year) (Some "high") (Some "duration") None
               (Some "7 days").

(** An object store that accepts no upload. *)
Definition no_upload (path : string) : option UploadResult := None.

(** Alice has liked the lecture. *)
Definition db_liked : Db := set_likes (fun _ => [mkLike 80 10 1]) db.

(** A note of Alice's that belongs to no video. *)
Definition db_notes : Db :=
  set_notes (fun _ => [mkNote 70 "Reading list" "Diestel, chapter 1" 1 None 0 5]) db.

(** A token service that signs for Carol only, and knows her token. *)
Definition sign (id : ObjectId) : option string :=
  if (id =? 3)%N then Some "carol-token" else None.

Definition tokens (token : string) : option ObjectId :=
  if String.eqb token "carol-token" then Some 3%N else None.

(** Every user's password is "secret". *)
Definition check_password (user : User) (entered : string) : option bool :=
  Some (String.eqb entered "secret").

(** A token service that knows one token, issued to Dave. *)
Definition verify (token : string) : option ObjectId :=
  if String.eqb token "dave-token" then Some 4%N else None.

End Sample.

(** * Properties *)

(** ** Running handler bodies *)

Lemma bind_ret {A B} (a : A) (k : A -> M B) db : bind (ret a) k db = k a db.
Proof. reflexivity. Qed.

Lemma bind_gets {A B} (f : Db -> A) (k : A -> M B) db :
  bind (gets f) k db = k (f db) db.
Proof. reflexivity. Qed.

Lemma bind_modify {B} (f : Db -> Db) (k : unit -> M B) db :
  bind (modify f) k db = k tt (f db).
Proof. reflexivity. Qed.

Lemma validate_ok model checks db :
  forallb snd checks = true -> validate model checks db = (inr tt, db).
Proof.
  intros H. unfold validate.
  assert (List.filter (fun c : string * bool => negb (snd c)) checks = []) as ->; [|done].
  induction checks as [|c checks IH]; [done|].
  simpl in *. apply andb_true_iff in H as [-> H]. simpl. auto.
Qed.

Lemma existsb_N_eqb_In (x : N) (l : list N) :
  existsb (N.eqb x) l = true <-> In x l.
Proof.
  rewrite existsb_exists. split.
  - intros (y & Hy & E). apply N.eqb_eq in E. by subst.
  - intros H. exists x. split; [done|]. apply N.eqb_refl.
Qed.

Lemma existsb_N_eqb_In' (x : N) (l : list N) :
  existsb (fun y => (y =? x)%N) l = true <-> In x l.
Proof.
  rewrite existsb_exists. split.
  - intros (y & Hy & E). apply N.eqb_eq in E. by subst.
  - intros H. exists x. split; [done|]. apply N.eqb_refl.
Qed.

Lemma find_some_matches {A} (p : A -> bool) l x :
  List.find p l = Some x -> p x = true.
Proof. intros H. by apply List.find_some in H as [_ ?]. Qed.

(** ** Authentication middleware *)

Section AuthProperties.

Variable jwt_verify : string -> option ObjectId.
Variable D : Type.

Lemma protect_verified authorization token id db :
  bearerToken authorization = Some token ->
  token <> EmptyString ->
  jwt_verify token = Some id ->
  protect (D := D) jwt_verify authorization db =
    match users db !! id with
    | None => Reply (mkResponse 401 (Failure (Text "User not found")))
    | Some user => if user_isApproved user then Next user else pendingApproval
    end.
Proof.
  intros Htok Hne Hv. unfold protect. rewrite Htok. simpl.
  destruct (String.eqb_spec token EmptyString) as [->|_]; [done|]. simpl.
  rewrite Hv. destruct (users db !! id) as [u|]; [|done].
  by destruct (user_isApproved u).
Qed.

Lemma lookup_setApproved ids b (us : gmap N User) id :
  id ∈ ids ->
  foldr (fun i us => alter (withApproval b) i us) us ids !! id
  = withApproval b <$> us !! id.
Proof.
  induction ids as [|i ids IH]; intros Hin; [by apply elem_of_nil in Hin|].
  simpl. destruct (decide (i = id)) as [->|Hne].
  - rewrite lookup_alter_eq.
    destruct (decide (id ∈ ids)) as [Hin'|Hnin].
    + rewrite IH; [|done]. by destruct (us !! id).
    + clear IH Hin. induction ids as [|j ids IH]; [done|].
      apply not_elem_of_cons in Hnin as [Hj Hnin]. simpl.
      rewrite lookup_alter_ne; [|done]. auto.
  - rewrite lookup_alter_ne; [|done]. apply IH.
    apply elem_of_cons in Hin as [->|]; done.
Qed.

(** C10.  A request whose bearer token verifies is answered 403
    "pending approval" whenever the user read back from the store is not
    approved; hence once an approval is withdrawn, the tokens issued before
    stop passing the middleware. *)
Theorem protect_rejects_unapproved authorization token id db :
  bearerToken authorization = Some token ->
  token <> EmptyString ->
  jwt_verify token = Some id ->
  (forall user,
      users db !! id = Some user -> user_isApproved user = false ->
      protect (D := D) jwt_verify authorization db = pendingApproval)
  /\ (forall ids,
      is_Some (users db !! id) -> id ∈ ids ->
      protect (D := D) jwt_verify authorization
              (snd (User_setApproved ids false db))
      = pendingApproval).
Proof.
  intros Htok Hne Hv. split.
  - intros user Hu Ha. rewrite (protect_verified _ _ _ _ Htok Hne Hv), Hu.
    by rewrite Ha.
  - intros ids [user Hu] Hin.
    rewrite (protect_verified _ _ _ _ Htok Hne Hv). simpl.
    rewrite lookup_setApproved; [|done]. by rewrite Hu.
Qed.

End AuthProperties.

Lemma protect_rejects_unapproved_witness :
  protect (D := unit) Sample.verify (Some "Bearer dave-token") Sample.db
  = pendingApproval.
Proof.
  apply (proj1 (protect_rejects_unapproved Sample.verify unit
                  (Some "Bearer dave-token") "dave-token" 4%N Sample.db
                  eq_refl ltac:(discriminate) eq_refl) Sample.dave);
    reflexivity.
Defined.

(** ** Access decisions *)

Lemma getVideo_hasAccess_iff user video :
  getVideo_hasAccess user video = true <->
  (video_branch video = Js.String_ (user_branch user)
   /\ video_year video = Js.String_ (user_year user))
  \/ In (user_id user) (video_specialAccess video).
Proof.
  unfold getVideo_hasAccess.
  rewrite orb_true_iff, andb_true_iff, !String.eqb_eq, existsb_N_eqb_In'.
  tauto.
Qed.

Lemma getVideo_status user id video db :
  user_role user = student ->
  videos db !! id = Some video ->
  status (fst (getVideo (Some user) id db))
  = if getVideo_hasAccess user video then 200 else 403.
Proof.
  intros Hrole Hv. unfold getVideo, try_catch, Video_findById, Like_countDocuments.
  rewrite bind_gets, bind_gets, Hv, Hrole. simpl.
  by destruct (getVideo_hasAccess user video).
Qed.

(** C1, as the code has it.  For a student whose branch is [b] and year is
    [y], [getVideo] grants access exactly when the video's branch is [b] and
    its year is [y], or the student's id is in [specialAccess]; either
    alone suffices, and the answer is 200 then and 403 otherwise.  No
    approval flag and no "All" wildcard take part. *)
Theorem getVideo_student_access user b y id video db :
  user_role user = student ->
  user_branch user = Some b ->
  user_year user = Some y ->
  videos db !! id = Some video ->
  (getVideo_hasAccess user video = true <->
     (video_branch video = b /\ video_year video = y)
     \/ In (user_id user) (video_specialAccess video))
  /\ ((video_branch video = b /\ video_year video = y) ->
      status (fst (getVideo (Some user) id db)) = 200)
  /\ (In (user_id user) (video_specialAccess video) ->
      status (fst (getVideo (Some user) id db)) = 200)
  /\ (getVideo_hasAccess user video = false ->
      fst (getVideo (Some user) id db)
      = mkResponse 403 (Failure (Text "You do not have access to this video"))).
Proof.
  intros Hrole Hb Hy Hv.
  pose proof (getVideo_hasAccess_iff user video) as Hiff.
  rewrite Hb, Hy in Hiff. simpl in Hiff.
  pose proof (getVideo_status user id video db Hrole Hv) as Hst.
  repeat split.
  - apply Hiff.
  - apply Hiff.
  - intros H. rewrite Hst. assert (getVideo_hasAccess user video = true) as ->; [|done].
    apply Hiff. by left.
  - intros H. rewrite Hst. assert (getVideo_hasAccess user video = true) as ->; [|done].
    apply Hiff. by right.
  - intros H. unfold getVideo, try_catch, Video_findById, Like_countDocuments.
    rewrite bind_gets, bind_gets, Hv, Hrole. simpl. by rewrite H.
Qed.

Lemma getVideo_student_access_witness :
  status (fst (getVideo (Some Sample.alice) 10%N Sample.db)) = 200.
Proof.
  apply (proj1 (proj2 (getVideo_student_access Sample.alice "CSE" "2nd" 10%N
                         Sample.lecture Sample.db eq_refl eq_refl eq_refl eq_refl)));
    split; reflexivity.
Defined.

(** C1 fails on the code as the specification words it.  With the approval
    flag set, the rule would show a video addressed to branch "All" to a
    second-year CSE student, and [getVideo] answers 403; with the flag
    clear, the rule would hide the CSE second-year lecture from her, and
    [getVideo] answers 200. *)
Lemma getVideo_access_differs_from_spec :
  (spec_canView true Sample.alice Sample.open_lecture = true
   /\ getVideo_hasAccess Sample.alice Sample.open_lecture = false
   /\ status (fst (getVideo (Some Sample.alice) 11%N Sample.db)) = 403)
  /\ (spec_canView false Sample.alice Sample.lecture = false
      /\ getVideo_hasAccess Sample.alice Sample.lecture = true
      /\ status (fst (getVideo (Some Sample.alice) 10%N Sample.db)) = 200).
Proof. repeat split; reflexivity. Qed.

(** In [toggleLike] the cohort disjunct can never hold, because it is
    guarded by [video.isApproved]: only the allow-list grants access. *)
Lemma toggleLike_hasAccess_allow_list user video :
  Js.truthy (toggleLike_hasAccess user video) = true <->
  In (user_id user) (video_specialAccess video).
Proof.
  unfold toggleLike_hasAccess, video_isApproved. simpl.
  apply existsb_N_eqb_In.
Qed.

(** C2.  The access check of [createNote] is true for every user and every
    video, and [createNote] never answers 403. *)
Theorem createNote_access_always_granted :
  (forall user video, createNote_hasAccess user video = Js.boolean true)
  /\ (forall user req now db, status (fst (createNote user req now db)) <> 403).
Proof.
  assert (Hacc : forall user video, createNote_hasAccess user video = Js.boolean true).
  { intros user video. unfold createNote_hasAccess, video_isApproved. simpl.
    by destruct (existsb _ _). }
  split; [exact Hacc|].
  intros user req now db. unfold createNote, try_catch.
  destruct (note_body_videoId req) as [videoId|].
  - unfold Video_findById. rewrite bind_gets.
    destruct (videos db !! videoId) as [video|]; [|simpl; discriminate].
    rewrite Hacc. simpl.
    unfold Note_findOne. rewrite bind_gets.
    destruct (List.find _ (notes db)) as [note|].
    + unfold Note_save, bind, validate, Note_checks. simpl.
      destruct (negb (required (note_body_content req))); simpl; discriminate.
    + unfold Note_create, bind, newId, validate, Note_checks. simpl.
      destruct (negb (required (note_body_content req))); simpl; discriminate.
  - destruct (negb (Js.truthy_string (note_body_title req))); [simpl; discriminate|].
    unfold Note_create, bind, newId, validate, Note_checks. simpl.
    destruct (negb (required (note_body_content req))); simpl; discriminate.
Qed.

(** ** Likes *)

Lemma find_app_new {A} (p : A -> bool) l x :
  List.find p l = None -> p x = true -> List.find p (l ++ [x])%list = Some x.
Proof.
  intros Hl Hx. induction l as [|y l IH]; simpl in *.
  - by rewrite Hx.
  - destruct (p y); [done|]. auto.
Qed.

Lemma find_app_other {A} (p : A -> bool) l x :
  p x = false -> List.find p (l ++ [x])%list = List.find p l.
Proof.
  intros Hx. induction l as [|y l IH]; simpl.
  - by rewrite Hx.
  - by destruct (p y).
Qed.

Lemma find_none_filter {A} (p q : A -> bool) l :
  List.find p l = None -> List.find p (List.filter q l) = None.
Proof.
  induction l as [|y l IH]; simpl; [done|].
  destruct (p y) eqn:Hp; [done|]. intros H.
  destruct (q y); simpl; [rewrite Hp|]; auto.
Qed.

Lemma filter_none {A} (p : A -> bool) l :
  List.find p l = None -> List.filter p l = [].
Proof.
  induction l as [|y l IH]; simpl; [done|].
  destruct (p y); [done|]. auto.
Qed.

Lemma deleteById_app_new {A} (idOf : A -> ObjectId) i l x :
  idOf x = i ->
  deleteById idOf i (l ++ [x])%list = deleteById idOf i l.
Proof.
  intros <-. unfold deleteById. rewrite List.filter_app. simpl.
  rewrite N.eqb_refl. simpl. apply app_nil_r.
Qed.

Lemma Like_create_new video user db :
  List.find (Like_matches video user) (likes db) = None ->
  Like_create video user db
  = (inr (mkLike (nextId db) video user),
     set_likes (fun ls => (ls ++ [mkLike (nextId db) video user])%list)
               (snd (fresh db))).
Proof.
  intros H. unfold Like_create, Like_findOne. rewrite bind_gets, H. reflexivity.
Qed.

Lemma Like_matches_new video user i :
  Like_matches video user (mkLike i video user) = true.
Proof. unfold Like_matches. simpl. by rewrite !N.eqb_refl. Qed.

(** The gate of [toggleLike] lets through everyone but the students who
    are not on the allow-list. *)
Lemma toggleLike_gate_open user video :
  (user_role user = student -> In (user_id user) (video_specialAccess video)) ->
  Role_eqb (user_role user) student
  && negb (Js.truthy (toggleLike_hasAccess user video)) = false.
Proof.
  intros Hacc. destruct (user_role user) eqn:Hr; try done. simpl.
  apply negb_false_iff, toggleLike_hasAccess_allow_list. auto.
Qed.

(** What [toggleLike] does once the video is found and the caller is let
    through. *)
Lemma toggleLike_unlike user id video like db :
  videos db !! id = Some video ->
  (user_role user = student -> In (user_id user) (video_specialAccess video)) ->
  List.find (Like_matches id (user_id user)) (likes db) = Some like ->
  toggleLike user id db
  = (mkResponse 200 (Success (mkLikeState false)),
     set_likes (deleteById like_id (like_id like)) db).
Proof.
  intros Hv Hacc Hl. unfold toggleLike, try_catch, Video_findById.
  rewrite bind_gets, Hv.
  rewrite (toggleLike_gate_open _ _ Hacc).
  unfold Like_findOne. rewrite bind_gets, Hl. reflexivity.
Qed.

Lemma toggleLike_like user id video db :
  videos db !! id = Some video ->
  (user_role user = student -> In (user_id user) (video_specialAccess video)) ->
  List.find (Like_matches id (user_id user)) (likes db) = None ->
  let like := mkLike (nextId db) id (user_id user) in
  let db' := set_likes (fun ls => (ls ++ [like])%list) (snd (fresh db)) in
  toggleLike user id db
  = if (video_teacher video =? user_id user)%N
    then (mkResponse 200 (Success (mkLikeState true)), db')
    else (mkResponse 400
            (Failure (MessageOf (ValidationError "Notification" ["type"]))), db').
Proof.
  intros Hv Hacc Hl. unfold toggleLike, try_catch, Video_findById.
  rewrite bind_gets, Hv.
  rewrite (toggleLike_gate_open _ _ Hacc).
  unfold Like_findOne at 1. rewrite bind_gets, Hl.
  unfold bind at 1. rewrite Like_create_new; [|done].
  destruct (video_teacher video =? user_id user)%N; simpl; [done|].
  unfold bind, Notification_create, validate. simpl.
  assert ((user_name user ++ " liked your video " ++ quote
           ++ video_title video ++ quote =? EmptyString)%string = false) as ->; [|done].
  apply String.eqb_neq. by destruct (user_name user).
Qed.

(** The owner of a video is not notified of their own like, and for them
    [toggleLike] alternates as the specification says. *)
Lemma toggleLike_alternates_for_owner user id video db :
  videos db !! id = Some video ->
  user_role user <> student ->
  video_teacher video = user_id user ->
  likeRows id (user_id user) db = [] ->
  let r1 := toggleLike user id db in
  let r2 := toggleLike user id (snd r1) in
  let r3 := toggleLike user id (snd r2) in
  fst r1 = mkResponse 200 (Success (mkLikeState true))
  /\ length (likeRows id (user_id user) (snd r1)) = 1
  /\ fst r2 = mkResponse 200 (Success (mkLikeState false))
  /\ length (likeRows id (user_id user) (snd r2)) = 0
  /\ fst r3 = mkResponse 200 (Success (mkLikeState true))
  /\ length (likeRows id (user_id user) (snd r3)) = 1.
Proof.
  intros Hv Hrole Hown Hrows.
  assert (Hnone : List.find (Like_matches id (user_id user)) (likes db) = None).
  { destruct (List.find _ (likes db)) as [l|] eqn:Hf; [|done].
    apply List.find_some in Hf as [Hin Hm].
    assert (In l (likeRows id (user_id user) db)) as Hin'
      by (apply List.filter_In; done).
    rewrite Hrows in Hin'. destruct Hin'. }
  assert (Hacc : user_role user = student ->
                 In (user_id user) (video_specialAccess video)) by done.
  pose proof (toggleLike_like user id video db Hv Hacc Hnone) as H1.
  rewrite Hown, N.eqb_refl in H1. simpl in H1.
  set (like := mkLike (nextId db) id (user_id user)) in *.
  intros r1. subst r1. rewrite H1. simpl.
  set (db1 := set_likes _ _) in *.
  assert (Hf1 : List.find (Like_matches id (user_id user)) (likes db1) = Some like).
  { apply find_app_new; [done|apply Like_matches_new]. }
  pose proof (toggleLike_unlike user id video like db1 Hv Hacc Hf1) as H2.
  rewrite H2. simpl.
  set (db2 := set_likes _ db1) in *.
  assert (Hf2 : List.find (Like_matches id (user_id user)) (likes db2) = None).
  { simpl. rewrite (deleteById_app_new like_id (nextId db) (likes db) like eq_refl).
    by apply find_none_filter. }
  pose proof (toggleLike_like user id video db2 Hv Hacc Hf2) as H3.
  rewrite Hown, N.eqb_refl in H3. simpl in H3. rewrite H3. simpl.
  unfold likeRows. simpl.
  rewrite !List.filter_app. simpl. rewrite !Like_matches_new. simpl.
  rewrite (deleteById_app_new like_id (nextId db) (likes db) like eq_refl).
  unfold deleteById.
  rewrite !(filter_none _ _ Hnone), !(filter_none _ _ (find_none_filter _ _ _ Hnone)).
  subst like. by rewrite Like_matches_new.
Qed.

(** C3 fails on the code.  Carol, an admin, toggles her like on Bob's
    lecture three times, starting without a Like row.  The first call stores
    the row and then asks for a notification of type "like", which the
    Notification model rejects: the answer is 400, not liked: true.  The
    second call answers liked: false and removes the row; the third fails
    like the first. *)
Theorem toggleLike_first_call_answers_400 :
  let failed :=
    mkResponse 400 (Failure (MessageOf (ValidationError "Notification" ["type"]))) in
  let r1 := toggleLike Sample.carol 10%N Sample.db in
  let r2 := toggleLike Sample.carol 10%N (snd r1) in
  let r3 := toggleLike Sample.carol 10%N (snd r2) in
  likeRows 10%N 3%N Sample.db = []
  /\ fst r1 = failed
  /\ likeRows 10%N 3%N (snd r1) = [mkLike 100 10 3]
  /\ notifications (snd r1) = []
  /\ fst r2 = mkResponse 200 (Success (mkLikeState false))
  /\ likeRows 10%N 3%N (snd r2) = []
  /\ fst r3 = failed
  /\ likeRows 10%N 3%N (snd r3) = [mkLike 101 10 3].
Proof. repeat split; reflexivity. Qed.

(** The sibling [likeVideo] of the video controller keeps the notification
    failure apart and answers liked: true on the same input. *)
Lemma likeVideo_first_call_answers_liked :
  let r1 := likeVideo Sample.carol 10%N Sample.db in
  let r2 := likeVideo Sample.carol 10%N (snd r1) in
  let r3 := likeVideo Sample.carol 10%N (snd r2) in
  fst r1 = mkResponse 200 (Success (mkLikeState true))
  /\ likeRows 10%N 3%N (snd r1) = [mkLike 100 10 3]
  /\ fst r2 = mkResponse 200 (Success (mkLikeState false))
  /\ likeRows 10%N 3%N (snd r2) = []
  /\ fst r3 = mkResponse 200 (Success (mkLikeState true)).
Proof. repeat split; reflexivity. Qed.

(** ** Views *)

Lemma recordView_first user req now db videoId :
  body_videoId req = Some videoId ->
  List.find (VideoView_matches videoId (user_id user)) (videoViews db) = None ->
  recordView user req now db
  = (mkResponse 200 (Success (firstView user videoId req now db)),
     snd (Video_incViews videoId
            (set_videoViews
               (fun vs => (vs ++ [firstView user videoId req now db])%list)
               (snd (fresh db))))).
Proof.
  intros Hid Hnone. unfold recordView, try_catch. rewrite Hid.
  unfold VideoView_findOne at 1. rewrite bind_gets, Hnone.
  unfold VideoView_create, VideoView_findOne, bind at 1. rewrite bind_gets, Hnone.
  reflexivity.
Qed.

Lemma recordView_again user req now db videoId view :
  body_videoId req = Some videoId ->
  List.find (VideoView_matches videoId (user_id user)) (videoViews db) = Some view ->
  recordView user req now db
  = (mkResponse 200 (Success (nextView view req now)),
     set_videoViews
       (List.map (fun x => if (view_id x =? view_id view)%N
                           then nextView view req now else x)) db).
Proof.
  intros Hid Hsome. unfold recordView, try_catch. rewrite Hid.
  unfold VideoView_findOne. rewrite bind_gets, Hsome. reflexivity.
Qed.

Lemma find_map_replace {A} (p : A -> bool) (idOf : A -> ObjectId) l x x' :
  List.find p l = Some x -> p x' = true ->
  List.find p (List.map (fun y => if (idOf y =? idOf x)%N then x' else y) l) = Some x'.
Proof.
  intros Hf Hx'. induction l as [|y l IH]; simpl in *; [done|].
  destruct (p y) eqn:Hp.
  - injection Hf as ->. by rewrite N.eqb_refl, Hx'.
  - destruct (idOf y =? idOf x)%N; [by rewrite Hx'|]. rewrite Hp. auto.
Qed.

Lemma find_none_rows {A} (p : A -> bool) l :
  List.filter p l = [] -> List.find p l = None.
Proof.
  induction l as [|y l IH]; simpl; [done|].
  destruct (p y); [done|]. auto.
Qed.

Lemma find_some_rows {A} (p : A -> bool) l :
  List.filter p l <> [] -> exists x, List.find p l = Some x.
Proof.
  induction l as [|y l IH]; simpl; [done|].
  destruct (p y); eauto.
Qed.

Lemma viewCount_first user req now db videoId video :
  body_videoId req = Some videoId ->
  videos db !! videoId = Some video ->
  viewRows videoId (user_id user) db = [] ->
  viewCount videoId (snd (recordView user req now db)) = Some (video_views video + 1)%Z.
Proof.
  intros Hid Hv Hrows.
  rewrite (recordView_first _ _ _ _ _ Hid (find_none_rows _ _ Hrows)).
  unfold viewCount. simpl. by rewrite lookup_alter_eq, Hv.
Qed.

Lemma viewCount_again user req now db videoId :
  body_videoId req = Some videoId ->
  viewRows videoId (user_id user) db <> [] ->
  viewCount videoId (snd (recordView user req now db)) = viewCount videoId db.
Proof.
  intros Hid Hrows. destruct (find_some_rows _ _ Hrows) as [view Hview].
  by rewrite (recordView_again _ _ _ _ _ _ Hid Hview).
Qed.

Lemma viewRows_after user req now db videoId :
  body_videoId req = Some videoId ->
  viewRows videoId (user_id user) (snd (recordView user req now db)) <> [].
Proof.
  intros Hid.
  assert (forall db', (exists v, List.find (VideoView_matches videoId (user_id user))
                                   (videoViews db') = Some v) ->
                      viewRows videoId (user_id user) db' <> []) as Hrows.
  { intros db' [v Hv] Hnil. apply find_none_rows in Hnil. congruence. }
  apply Hrows.
  destruct (List.find (VideoView_matches videoId (user_id user)) (videoViews db))
    as [view|] eqn:Hf.
  - rewrite (recordView_again _ _ _ _ _ _ Hid Hf). simpl. eexists.
    apply find_map_replace; [done|].
    apply find_some_matches in Hf. exact Hf.
  - rewrite (recordView_first _ _ _ _ _ Hid Hf). simpl. eexists.
    apply find_app_new; [done|].
    unfold VideoView_matches, firstView. simpl. by rewrite !N.eqb_refl.
Qed.

Lemma recordViews_cons user req now calls db :
  recordViews ((user, req, now) :: calls) db
  = recordViews calls (snd (recordView user req now db)).
Proof. reflexivity. Qed.

Lemma recordViews_count videoId calls : forall db video,
  videos db !! videoId = Some video ->
  Forall (fun c => body_videoId c.1.2 = Some videoId) calls ->
  NoDup (List.map (fun c => user_id c.1.1) calls) ->
  Forall (fun c => viewRows videoId (user_id c.1.1) db = []) calls ->
  viewCount videoId (recordViews calls db)
  = Some (video_views video + Z.of_nat (length calls))%Z.
Proof.
  induction calls as [|[[user req] now] calls IH]; intros db video Hv Hids Hnd Hrows.
  - unfold viewCount. simpl. rewrite Hv. simpl. f_equal. lia.
  - apply Forall_cons in Hids as [Hid Hids]. apply Forall_cons in Hrows as [Hrow Hrows].
    simpl in Hid, Hrow, Hnd. apply NoDup_cons in Hnd as [Hnotin Hnd].
    rewrite recordViews_cons.
    pose proof (recordView_first user req now db videoId Hid (find_none_rows _ _ Hrow))
      as Hfirst.
    rewrite Hfirst. simpl.
    set (db1 := set_videos _ _).
    assert (Hv1 : videos db1 !! videoId
                  = Some (mkVideo (video_id video) (video_title video)
                            (video_branch video) (video_year video)
                            (video_teacher video) (video_specialAccess video)
                            (video_views video + 1)%Z)).
    { subst db1. simpl. by rewrite lookup_alter_eq, Hv. }
    rewrite (IH db1 _ Hv1 Hids Hnd).
    + simpl. f_equal. lia.
    + apply Forall_forall. intros c Hc.
      pose proof (proj1 (Forall_forall _ _) Hrows c Hc) as Hc0. simpl in Hc0.
      unfold viewRows. subst db1. simpl. rewrite List.filter_app. simpl.
      unfold viewRows in Hc0. rewrite Hc0. simpl.
      assert (VideoView_matches videoId (user_id c.1.1)
                (firstView user videoId req now db) = false) as ->; [|done].
      unfold VideoView_matches, firstView. simpl.
      apply andb_false_iff. right. apply N.eqb_neq. intros Heq.
      apply Hnotin. apply list_elem_of_In, in_map_iff. exists c. split; [done|].
      by apply list_elem_of_In.
Qed.

(** C4.  [recordView] raises the video's view counter by exactly one when
    the user has no view row for the video, and leaves it alone when the
    user has one; after any call the user has a row.  Hence a second call
    by the same user does not change the counter, and calls by [n] distinct
    users without rows raise it by [n]. *)
Theorem recordView_counts_first_views user req now db videoId video :
  body_videoId req = Some videoId ->
  videos db !! videoId = Some video ->
  (viewRows videoId (user_id user) db = [] ->
   viewCount videoId (snd (recordView user req now db))
   = Some (video_views video + 1)%Z)
  /\ (viewRows videoId (user_id user) db <> [] ->
      viewCount videoId (snd (recordView user req now db))
      = Some (video_views video))
  /\ (forall req' now',
        body_videoId req' = Some videoId ->
        let db1 := snd (recordView user req now db) in
        viewCount videoId (snd (recordView user req' now' db1))
        = viewCount videoId db1)
  /\ (forall calls,
        Forall (fun c => body_videoId c.1.2 = Some videoId) calls ->
        NoDup (List.map (fun c => user_id c.1.1) calls) ->
        Forall (fun c => viewRows videoId (user_id c.1.1) db = []) calls ->
        viewCount videoId (recordViews calls db)
        = Some (video_views video + Z.of_nat (length calls))%Z).
Proof.
  intros Hid Hv. repeat split.
  - by apply viewCount_first.
  - intros Hrows. rewrite viewCount_again; [|done..]. unfold viewCount. by rewrite Hv.
  - intros req' now' Hid' db1. apply viewCount_again; [done|].
    by apply viewRows_after.
  - intros calls. by apply recordViews_count.
Qed.

Lemma recordView_counts_first_views_witness :
  viewCount 10%N (snd (recordView Sample.alice (mkViewBody (Some 10%N) None None None)
                         7 Sample.db))
  = Some 1%Z.
Proof.
  apply (proj1 (recordView_counts_first_views Sample.alice
                  (mkViewBody (Some 10%N) None None None) 7 Sample.db 10%N
                  Sample.lecture eq_refl eq_refl)).
  reflexivity.
Defined.

Lemma or_number_falsy n old :
  Js.truthy_number n = false -> Js.or_number n old = old.
Proof.
  destruct n as [n|]; simpl; [|done].
  intros H. apply negb_false_iff in H. by rewrite H.
Qed.

Lemma or_number_truthy n old :
  n <> 0%Z -> Js.or_number (Some n) old = n.
Proof. intros H. simpl. by apply Z.eqb_neq in H as ->. Qed.

(** C5.  When the user already has a view row, [recordView] keeps each of
    watchTime, completionPercentage and lastPosition whose input is zero or
    unset, replaces each whose input is a non-zero number, sets watchedAt to
    the current time, and changes nothing else of the row nor any video. *)
Theorem recordView_keeps_unset_metrics user req now db videoId view :
  body_videoId req = Some videoId ->
  List.find (VideoView_matches videoId (user_id user)) (videoViews db) = Some view ->
  let r := recordView user req now db in
  exists view',
    fst r = mkResponse 200 (Success view')
    /\ List.find (VideoView_matches videoId (user_id user)) (videoViews (snd r))
       = Some view'
    /\ view_watchedAt view' = now
    /\ (view_id view', view_video view', view_user view')
       = (view_id view, view_video view, view_user view)
    /\ (Js.truthy_number (body_watchTime req) = false ->
        view_watchTime view' = view_watchTime view)
    /\ (Js.truthy_number (body_completionPercentage req) = false ->
        view_completionPercentage view' = view_completionPercentage view)
    /\ (Js.truthy_number (body_lastPosition req) = false ->
        view_lastPosition view' = view_lastPosition view)
    /\ (forall n, body_watchTime req = Some n -> n <> 0%Z -> view_watchTime view' = n)
    /\ (forall n, body_completionPercentage req = Some n -> n <> 0%Z ->
                  view_completionPercentage view' = n)
    /\ (forall n, body_lastPosition req = Some n -> n <> 0%Z ->
                  view_lastPosition view' = n)
    /\ videos (snd r) = videos db.
Proof.
  intros Hid Hview r. subst r.
  rewrite (recordView_again _ _ _ _ _ _ Hid Hview).
  exists (nextView view req now). simpl.
  split; [done|]. split.
  { apply find_map_replace; [done|].
    apply find_some_matches in Hview. exact Hview. }
  repeat split; try (intros H; by apply or_number_falsy).
  all: intros n -> Hn; by apply or_number_truthy.
Qed.

Lemma recordView_keeps_unset_metrics_witness :
  let seen := mkVideoView 50 10 1 3 120 80 95 in
  let db := set_videoViews (fun _ => [seen]) Sample.db in
  exists view',
    fst (recordView Sample.alice (mkViewBody (Some 10%N) (Some 0%Z) None (Some 40%Z)) 9 db)
    = mkResponse 200 (Success view')
    /\ view_watchTime view' = 120%Z
    /\ view_completionPercentage view' = 80%Z
    /\ view_lastPosition view' = 40%Z
    /\ view_watchedAt view' = 9%Z.
Proof.
  intros seen db.
  destruct (recordView_keeps_unset_metrics Sample.alice
              (mkViewBody (Some 10%N) (Some 0%Z) None (Some 40%Z)) 9 db 10%N seen
              eq_refl eq_refl)
    as (view' & Hr & _ & Hat & _ & Hwt & Hcp & _ & _ & _ & Hlp & _).
  exists view'. split; [exact Hr|].
  split; [apply Hwt; reflexivity|].
  split; [apply Hcp; reflexivity|].
  split; [apply (Hlp 40%Z); [reflexivity|discriminate]|].
  exact Hat.
Defined.

(** ** Comments *)

Lemma findById_id {A} (idOf : A -> ObjectId) id l x :
  findById idOf id l = Some x -> idOf x = id.
Proof. intros H. apply find_some_matches in H. by apply N.eqb_eq. Qed.

Lemma deleteById_replies t l :
  deleteById comment_id t (List.filter (fun c => negb (isReplyTo t c)) l)
  = List.filter (fun c => negb (inTree t c)) l.
Proof.
  unfold deleteById, inTree.
  induction l as [|c l IH]; simpl; [done|].
  destruct (isReplyTo t c); simpl.
  - rewrite orb_true_r. simpl. exact IH.
  - rewrite orb_false_r. destruct (comment_id c =? t)%N; simpl; by rewrite IH.
Qed.

Lemma filter_complement_empty {A} (p : A -> bool) l :
  length (List.filter p (List.filter (fun x => negb (p x)) l)) = 0.
Proof.
  induction l as [|x l IH]; simpl; [done|].
  destruct (p x) eqn:Hp; simpl; [done|]. by rewrite Hp.
Qed.

Lemma deleteComment_run user id comment db :
  findById comment_id id (comments db) = Some comment ->
  deleteComment user id db
  = if negb (comment_user comment =? user_id user)%N
       && negb (Role_eqb (user_role user) admin)
    then (mkResponse 403 (Failure (Text "Not authorized")), db)
    else (mkResponse 200 (SuccessMessage "Comment deleted"),
          set_comments (deleteById comment_id id)
            (match comment_parentComment comment with
             | None => set_comments
                         (List.filter (fun c => negb (isReplyTo (comment_id comment) c))) db
             | Some _ => db
             end)).
Proof.
  intros Hf. unfold deleteComment, try_catch, Comment_findById.
  rewrite bind_gets, Hf.
  destruct (negb _ && negb _); [done|].
  by destruct (comment_parentComment comment).
Qed.

(** C6.  For a top-level comment [t], [deleteComment] by its author or by
    an admin answers 200 and leaves exactly the comments that are neither
    [t] nor a reply to [t]; so no row of that tree remains.  A caller who is
    neither the author nor an admin gets 403 and nothing is deleted. *)
Theorem deleteComment_cascades user t comment db :
  findById comment_id t (comments db) = Some comment ->
  comment_parentComment comment = None ->
  (comment_user comment = user_id user \/ user_role user = admin ->
   let r := deleteComment user t db in
   fst r = mkResponse 200 (SuccessMessage "Comment deleted")
   /\ comments (snd r) = List.filter (fun c => negb (inTree t c)) (comments db)
   /\ (forall c, In c (comments (snd r)) ->
                 comment_id c <> t /\ comment_parentComment c <> Some t)
   /\ length (List.filter (inTree t) (comments (snd r))) = 0)
  /\ (comment_user comment <> user_id user -> user_role user <> admin ->
      deleteComment user t db = (mkResponse 403 (Failure (Text "Not authorized")), db)).
Proof.
  intros Hf Htop. rewrite (deleteComment_run _ _ _ _ Hf), Htop.
  pose proof (findById_id _ _ _ _ Hf) as Hid.
  split.
  - intros Hauth.
    assert (negb (comment_user comment =? user_id user)%N
            && negb (Role_eqb (user_role user) admin) = false) as ->.
    { destruct Hauth as [->| ->]; [by rewrite N.eqb_refl|]. apply andb_false_r. }
    simpl.
    rewrite Hid, deleteById_replies. repeat split.
    + apply List.filter_In in H as [_ H]. unfold inTree in H.
      apply negb_true_iff, orb_false_iff in H as [H _]. by apply N.eqb_neq.
    + apply List.filter_In in H as [_ H]. unfold inTree in H.
      apply negb_true_iff, orb_false_iff in H as [_ H].
      unfold isReplyTo in H. intros Hp. rewrite Hp, N.eqb_refl in H. done.
    + apply filter_complement_empty.
  - intros Hne Hrole.
    assert (negb (comment_user comment =? user_id user)%N
            && negb (Role_eqb (user_role user) admin) = true) as ->; [|done].
    apply andb_true_iff. split.
    + by apply negb_true_iff, N.eqb_neq.
    + by destruct (user_role user).
Qed.

Lemma deleteComment_cascades_witness :
  length (List.filter (inTree 20%N)
            (comments (snd (deleteComment Sample.alice 20%N Sample.db_thread)))) = 0.
Proof.
  apply (proj1 (deleteComment_cascades Sample.alice 20%N
                  (mkComment 20 "Why is it connected?" 1 10 None) Sample.db_thread
                  eq_refl eq_refl)).
  left. reflexivity.
Defined.

(** A top-level comment with three replies: the four rows go, the comment
    outside the thread stays. *)
Example deleteComment_three_replies :
  length (List.filter (inTree 20%N) (comments Sample.db_thread)) = 4
  /\ comments (snd (deleteComment Sample.alice 20%N Sample.db_thread))
     = [mkComment 24 "Great lecture." 5 10 None].
Proof. split; reflexivity. Qed.

(** ** Reports *)

Lemma find_map_same {A} (p : A -> bool) (f : A -> A) l x :
  (forall y, p (f y) = p y) ->
  List.find p l = Some x -> List.find p (List.map f l) = Some (f x).
Proof.
  intros Hp. induction l as [|y l IH]; simpl; [done|].
  rewrite Hp. destruct (p y); [|done]. by intros [= ->].
Qed.

Lemma findById_deleteById {A} (idOf : A -> ObjectId) id l :
  findById idOf id (deleteById idOf id l) = None.
Proof.
  unfold findById, deleteById. induction l as [|y l IH]; simpl; [done|].
  destruct (idOf y =? id)%N eqn:E; simpl; [done|]. by rewrite E.
Qed.

Lemma updateReportStatus_run id s user r db :
  isIn s Report_statuses = true ->
  findById report_id id (reports db) = Some r ->
  updateReportStatus id (Some s) user db
  = (mkResponse 200 (Success (Report_withStatus s r)),
     set_reports
       (List.map (fun x => if (report_id x =? id)%N then Report_withStatus s x else x))
       db).
Proof.
  intros Hs Hf. unfold updateReportStatus, try_catch. rewrite Hs. simpl.
  unfold Report_findByIdAndUpdate. unfold bind at 1 2.
  rewrite validate_ok; [|cbn [forallb snd]; by rewrite Hs].
  rewrite bind_gets, Hf. reflexivity.
Qed.

Lemma cancelReport_run user commentId r db :
  List.find (Report_matches commentId (user_id user)) (reports db) = Some r ->
  cancelReport user commentId db
  = (mkResponse 200 (SuccessMessage "Report successfully canceled"),
     set_reports (deleteById report_id (report_id r)) db).
Proof.
  intros Hf. unfold cancelReport, try_catch, Report_findOne.
  rewrite bind_gets, Hf. reflexivity.
Qed.

(** C7, as the code has it.  On the admin-only route an admin sets the
    status of an existing report to any of pending, reviewed and ignored,
    whatever its current status; anyone else gets 403 and the report is
    untouched.  The reporter's cancellation deletes the report whatever its
    status. *)
Theorem report_status_set_by_admin id s r db :
  findById report_id id (reports db) = Some r ->
  In s Report_statuses ->
  (forall user, user_role user = admin ->
     let res := PUT_report user id (Some s) db in
     fst res = mkResponse 200 (Success (Report_withStatus s r))
     /\ findById report_id id (reports (snd res)) = Some (Report_withStatus s r))
  /\ (forall user, user_role user <> admin ->
        PUT_report user id (Some s) db
        = (mkResponse 403 (Failure (Text
             ("User role " ++ Role_name (user_role user)
              ++ " is not authorized to access this route"))), db))
  /\ (forall reporter,
        report_user r = user_id reporter ->
        List.find (Report_matches (report_comment r) (user_id reporter)) (reports db)
          = Some r ->
        let res := cancelReport reporter (report_comment r) db in
        fst res = mkResponse 200 (SuccessMessage "Report successfully canceled")
        /\ findById report_id (report_id r) (reports (snd res)) = None
        /\ reports (snd res) = deleteById report_id (report_id r) (reports db)).
Proof.
  intros Hf Hs.
  assert (Hs' : isIn s Report_statuses = true).
  { unfold isIn. apply existsb_exists. exists s. split; [done|]. apply String.eqb_refl. }
  repeat split.
  - unfold PUT_report, authorized, authorize. rewrite H. simpl.
    by rewrite (updateReportStatus_run _ _ _ _ _ Hs' Hf).
  - unfold PUT_report, authorized, authorize. rewrite H. simpl.
    rewrite (updateReportStatus_run _ _ _ _ _ Hs' Hf). simpl.
    pose proof (findById_id _ _ _ _ Hf) as Hid. unfold findById in *.
    rewrite (find_map_same _ (fun x => if (report_id x =? id)%N
                                       then Report_withStatus s x else x) _ r).
    + by rewrite Hid, N.eqb_refl.
    + intros y. by destruct (report_id y =? id)%N eqn:E; simpl; rewrite E.
    + done.
  - intros user Hrole. unfold PUT_report, authorized, authorize.
    by destruct (user_role user).
  - by rewrite (cancelReport_run _ _ _ _ H0).
  - rewrite (cancelReport_run _ _ _ _ H0). simpl. apply findById_deleteById.
  - by rewrite (cancelReport_run _ _ _ _ H0).
Qed.

Lemma report_status_set_by_admin_witness :
  findById report_id 30%N
    (reports (snd (PUT_report Sample.carol 30%N (Some "ignored") Sample.db_reviewed)))
  = Some (mkReport 30 21 5 "spam" None "ignored").
Proof.
  apply (proj1 (report_status_set_by_admin 30%N "ignored"
                  (mkReport 30 21 5 "spam" None "reviewed") Sample.db_reviewed
                  eq_refl ltac:(simpl; tauto)) Sample.carol eq_refl).
Defined.

(** C7 fails on the code as stated: an admin moves a reviewed report back
    to pending. *)
Lemma report_leaves_reviewed :
  report_status <$> findById report_id 30%N (reports Sample.db_reviewed)
  = Some "reviewed"
  /\ fst (PUT_report Sample.carol 30%N (Some "pending") Sample.db_reviewed)
     = mkResponse 200 (Success (mkReport 30 21 5 "spam" None "pending"))
  /\ report_status <$>
       findById report_id 30%N
         (reports (snd (PUT_report Sample.carol 30%N (Some "pending") Sample.db_reviewed)))
     = Some "pending".
Proof. repeat split; reflexivity. Qed.

(** C8.  When the request names a comment and a reason and the comment
    exists, [createReport] answers 400 "You cannot report your own comment"
    if the caller wrote the comment, and otherwise 400 "You have already
    reported this comment" if the caller has a report on it; in both cases
    the database is left as it was. *)
Theorem createReport_rejects_self_and_duplicate user req commentId reason comment db :
  body_commentId req = Some commentId ->
  body_reason req = Some reason ->
  reason <> EmptyString ->
  findById comment_id commentId (comments db) = Some comment ->
  (comment_user comment = user_id user ->
   createReport user req db
   = (mkResponse 400 (Failure (Text "You cannot report your own comment")), db))
  /\ (forall r,
        List.find (Report_matches commentId (user_id user)) (reports db) = Some r ->
        createReport user req db
        = (mkResponse 400 (Failure (Text
             (if (comment_user comment =? user_id user)%N
              then "You cannot report your own comment"
              else "You have already reported this comment"))), db)).
Proof.
  intros Hc Hr Hne Hf.
  assert (Hrun : createReport user req db
                 = if (comment_user comment =? user_id user)%N
                   then (mkResponse 400
                           (Failure (Text "You cannot report your own comment")), db)
                   else match List.find (Report_matches commentId (user_id user))
                                        (reports db) with
                        | Some _ =>
                            (mkResponse 400
                               (Failure (Text "You have already reported this comment")),
                             db)
                        | None =>
                            try_catch
                              (await report := Report_create commentId (user_id user) reason
                                 (if String.eqb reason "other"
                                  then body_details req else None) in
                               ret (mkResponse 201 (Success report)))
                              (fun error => mkResponse 500 (Failure (MessageOf error))) db
                        end).
  { unfold createReport, try_catch. rewrite Hc, Hr. simpl.
    apply String.eqb_neq in Hne. rewrite Hne. simpl.
    unfold Comment_findById. rewrite bind_gets, Hf.
    destruct (comment_user comment =? user_id user)%N; [done|].
    unfold Report_findOne at 1. rewrite bind_gets.
    by destruct (List.find _ (reports db)). }
  split.
  - intros Hself. rewrite Hrun, Hself, N.eqb_refl. done.
  - intros r Hdup. rewrite Hrun, Hdup.
    by destruct (comment_user comment =? user_id user)%N.
Qed.

Lemma createReport_rejects_self_and_duplicate_witness :
  createReport Sample.erin (mkReportBody (Some 21%N) (Some "harassment") None)
               Sample.db_reviewed
  = (mkResponse 400 (Failure (Text "You have already reported this comment")),
     Sample.db_reviewed).
Proof.
  apply (proj2 (createReport_rejects_self_and_duplicate Sample.erin
                  (mkReportBody (Some 21%N) (Some "harassment") None) 21%N "harassment"
                  (mkComment 21 "See slide 4." 2 10 (Some 20%N)) Sample.db_reviewed
                  eq_refl eq_refl ltac:(discriminate) eq_refl)
               (mkReport 30 21 5 "spam" None "reviewed") eq_refl).
Defined.

(** Self-report on the sample thread: Alice reports her own comment. *)
Example createReport_own_comment :
  createReport Sample.alice (mkReportBody (Some 20%N) (Some "spam") None) Sample.db_thread
  = (mkResponse 400 (Failure (Text "You cannot report your own comment")),
     Sample.db_thread).
Proof. reflexivity. Qed.

(** ** Notices *)

Lemma preserves_ret {A B} (f : Db -> B) (a : A) : preserves f (ret a).
Proof. by intros db. Qed.

Lemma preserves_throw {A B} (f : Db -> B) e : preserves f (throw (A := A) e).
Proof. by intros db. Qed.

Lemma preserves_gets {A B} (f : Db -> B) (g : Db -> A) : preserves f (gets g).
Proof. by intros db. Qed.

Lemma preserves_bind {A C B} (f : Db -> B) (m : M A) (k : A -> M C) :
  preserves f m -> (forall a, preserves f (k a)) -> preserves f (bind m k).
Proof.
  intros Hm Hk db. unfold bind. specialize (Hm db).
  destruct (m db) as [[e|a] db']; simpl in *; [done|].
  by rewrite Hk.
Qed.

Lemma preserves_validate {B} (f : Db -> B) model checks :
  preserves f (validate model checks).
Proof.
  unfold validate. destruct (List.filter _ checks);
    [apply preserves_ret|apply preserves_throw].
Qed.

Lemma preserves_uploadAll {B} (f : Db -> B) upload files :
  preserves f (uploadAll upload files).
Proof.
  induction files as [|file files IH]; simpl; [apply preserves_ret|].
  destruct (upload file); [|apply preserves_throw].
  apply preserves_bind; [done|]. intros rs. apply preserves_ret.
Qed.

Lemma try_catch_snd {D} (m : M (Response D)) h db :
  snd (try_catch m h db) = snd (m db).
Proof. unfold try_catch. by destruct (m db) as [[e|r] db']. Qed.

Create HintDb preserves.

#[local] Hint Resolve preserves_ret preserves_throw preserves_gets
  preserves_validate preserves_uploadAll : preserves.

Lemma Notice_create_keeps_notifications
    title content category branch year priority expirationType expirationDate
    expirationDuration teacher :
  preserves notifications
    (Notice_create title content category branch year priority expirationType
                   expirationDate expirationDuration teacher).
Proof.
  unfold Notice_create.
  apply preserves_bind; [by intros db|]. intros id.
  apply preserves_bind; [auto with preserves|]. intros _.
  apply preserves_bind; [by intros db|]. auto with preserves.
Qed.

Lemma Notice_save_keeps_notifications n : preserves notifications (Notice_save n).
Proof.
  unfold Notice_save. apply preserves_bind; [auto with preserves|].
  by intros _ db.
Qed.

(** [createNotice] never writes to the notification collection. *)
Lemma createNotice_keeps_notifications upload user req files db :
  notifications (snd (createNotice upload user req files db)) = notifications db.
Proof.
  unfold createNotice. rewrite try_catch_snd. cbv zeta.
  match goal with
  | |- notifications (snd (?m db)) = _ => revert db; change (preserves notifications m)
  end.
  destruct (negb _); [auto with preserves|].
  destruct (_ || _); [auto with preserves|].
  apply preserves_bind; [apply Notice_create_keeps_notifications|]. intros notice.
  destruct files; [auto with preserves|].
  apply preserves_bind; [auto with preserves|]. intros rs.
  apply preserves_bind; [apply Notice_save_keeps_notifications|].
  auto with preserves.
Qed.

(** C9 fails on the code.  Bob posts a notice for CSE, second year, while
    Alice is an approved second-year CSE student: the notice is stored and
    answered 201, and no notification exists afterwards.  Addressed to year
    "All", the same notice is refused with 400 and nothing is stored. *)
Theorem createNotice_notifies_nobody :
  let r := createNotice Sample.no_upload Sample.bob (Sample.exam_notice "2nd") []
                        Sample.db in
  let r' := createNotice Sample.no_upload Sample.bob (Sample.exam_notice "All") []
                         Sample.db in
  Sample.db.(users) !! 1%N = Some Sample.alice
  /\ status (fst r) = 201
  /\ List.map notice_title (notices (snd r)) = ["Midterm"]
  /\ notifications (snd r) = []
  /\ fst r' = mkResponse 400 (ErrorOnly (Text "Please select specific branch and year"))
  /\ notices (snd r') = []
  /\ notifications (snd r') = [].
Proof. repeat split; reflexivity. Qed.

(** Had [createNotice] called its helper, the helper would have notified
    every student, whatever the notice's branch and year: it reads the
    cohort from [notice.targetAudience], which a notice does not have. *)
Lemma createNotifications_ignores_cohort :
  let notice := mkNotice 60 "Midterm" "The midterm is on Monday." "Academic" "CSE" "2nd"
                         "high" "duration" None (Some "7 days") [] 2 in
  Permutation
    (List.map notification_recipient
       (notifications (snd (createNotifications notice Sample.db))))
    [1%N; 5%N].
Proof. vm_compute. apply perm_swap. Qed.

(** * Further properties of the controllers *)

(** ** Likes, through both controllers *)

Lemma likeNotification_rejected user video db :
  Notification_create (likeNotification user video) db
  = (inl (ValidationError "Notification" ["type"]), db).
Proof.
  unfold Notification_create, bind, validate. simpl.
  assert ((user_name user ++ " liked your video " ++ quote
           ++ video_title video ++ quote =? EmptyString)%string = false) as ->; [|done].
  apply String.eqb_neq. by destruct (user_name user).
Qed.

Lemma likeVideo_like user id video db :
  videos db !! id = Some video ->
  List.find (Like_matches id (user_id user)) (likes db) = None ->
  likeVideo user id db
  = (mkResponse 200 (Success (mkLikeState true)),
     set_likes (fun ls => (ls ++ [mkLike (nextId db) id (user_id user)])%list)
               (snd (fresh db))).
Proof.
  intros Hv Hl. unfold likeVideo, try_catch, Video_findById.
  rewrite bind_gets, Hv. unfold Like_findOne at 1. rewrite bind_gets, Hl.
  rewrite Like_create_new; [|done].
  destruct (video_teacher video =? user_id user)%N; [done|].
  cbn [negb]. unfold bind at 1. unfold try_ignore.
  by rewrite likeNotification_rejected.
Qed.

Lemma likeVideo_unlike user id video like db :
  videos db !! id = Some video ->
  List.find (Like_matches id (user_id user)) (likes db) = Some like ->
  likeVideo user id db
  = (mkResponse 200 (Success (mkLikeState false)),
     set_likes (deleteById like_id (like_id like)) db).
Proof.
  intros Hv Hl. unfold likeVideo, try_catch, Video_findById.
  rewrite bind_gets, Hv. unfold Like_findOne. rewrite bind_gets, Hl. reflexivity.
Qed.

(** A handler that, where the videos are those of [db], adds the caller's
    row when there is none and deletes it when there is one, alternates
    from [db]. *)
Lemma toggle_alternates (f : Db -> Response LikeState * Db) id uid db :
  (forall db', videos db' = videos db ->
     List.find (Like_matches id uid) (likes db') = None ->
     f db' = (mkResponse 200 (Success (mkLikeState true)),
              set_likes (fun ls => (ls ++ [mkLike (nextId db') id uid])%list)
                        (snd (fresh db')))) ->
  (forall db' like, videos db' = videos db ->
     List.find (Like_matches id uid) (likes db') = Some like ->
     f db' = (mkResponse 200 (Success (mkLikeState false)),
              set_likes (deleteById like_id (like_id like)) db')) ->
  likeRows id uid db = [] ->
  let r1 := f db in
  let r2 := f (snd r1) in
  let r3 := f (snd r2) in
  fst r1 = mkResponse 200 (Success (mkLikeState true))
  /\ length (likeRows id uid (snd r1)) = 1
  /\ fst r2 = mkResponse 200 (Success (mkLikeState false))
  /\ length (likeRows id uid (snd r2)) = 0
  /\ fst r3 = mkResponse 200 (Success (mkLikeState true))
  /\ length (likeRows id uid (snd r3)) = 1.
Proof.
  intros Hlike Hunlike Hrows.
  pose proof (find_none_rows _ _ Hrows) as Hnone.
  intros r1. subst r1. rewrite (Hlike db eq_refl Hnone). simpl.
  set (like := mkLike (nextId db) id uid).
  set (db1 := set_likes _ _).
  assert (Hf1 : List.find (Like_matches id uid) (likes db1) = Some like).
  { apply find_app_new; [done|apply Like_matches_new]. }
  rewrite (Hunlike db1 like eq_refl Hf1). simpl.
  set (db2 := set_likes _ db1).
  assert (Hl2 : likes db2 = deleteById like_id (nextId db) (likes db)).
  { subst db2 db1. simpl.
    apply (deleteById_app_new like_id (nextId db) (likes db) like eq_refl). }
  assert (Hf2 : List.find (Like_matches id uid) (likes db2) = None).
  { rewrite Hl2. by apply find_none_filter. }
  rewrite (Hlike db2 eq_refl Hf2). simpl.
  repeat split.
  - unfold likeRows. simpl. rewrite List.filter_app.
    fold (likeRows id uid db). rewrite Hrows. simpl.
    subst like. by rewrite Like_matches_new.
  - unfold likeRows. by rewrite (filter_none _ _ Hf2).
  - unfold likeRows. simpl. rewrite List.filter_app.
    change (deleteById like_id (nextId db) (likes db ++ [like])%list) with (likes db2).
    rewrite (filter_none _ _ Hf2). simpl. by rewrite Like_matches_new.
Qed.

(** X1.  [likeVideo] of the video controller alternates for every user on
    every existing video: from no Like row, three calls answer liked true,
    false, true and leave one, no and one row. *)
Theorem likeVideo_alternates user id video db :
  videos db !! id = Some video ->
  likeRows id (user_id user) db = [] ->
  let r1 := likeVideo user id db in
  let r2 := likeVideo user id (snd r1) in
  let r3 := likeVideo user id (snd r2) in
  fst r1 = mkResponse 200 (Success (mkLikeState true))
  /\ length (likeRows id (user_id user) (snd r1)) = 1
  /\ fst r2 = mkResponse 200 (Success (mkLikeState false))
  /\ length (likeRows id (user_id user) (snd r2)) = 0
  /\ fst r3 = mkResponse 200 (Success (mkLikeState true))
  /\ length (likeRows id (user_id user) (snd r3)) = 1.
Proof.
  intros Hv. apply (toggle_alternates (likeVideo user id)).
  - intros db' Hvs Hnone. apply (likeVideo_like user id video); [|done].
    by rewrite Hvs.
  - intros db' like Hvs Hsome. apply (likeVideo_unlike user id video); [|done].
    by rewrite Hvs.
Qed.

Lemma likeVideo_alternates_witness :
  fst (likeVideo Sample.erin 10%N Sample.db)
  = mkResponse 200 (Success (mkLikeState true)).
Proof.
  apply (likeVideo_alternates Sample.erin 10%N Sample.lecture Sample.db
           eq_refl eq_refl).
Defined.

Lemma preserves_modify {B} (f : Db -> B) (g : Db -> Db) :
  (forall db, f (g db) = f db) -> preserves f (modify g).
Proof. intros H db. apply H. Qed.

Lemma preserves_newId {B} (f : Db -> B) :
  (forall db, f (snd (fresh db)) = f db) -> preserves f newId.
Proof. intros H db. apply H. Qed.

Lemma preserves_try_ignore {B} (f : Db -> B) m :
  preserves f m -> preserves f (try_ignore m).
Proof. intros H db. unfold try_ignore. specialize (H db). by destruct (m db). Qed.

Lemma Like_create_keeps_notifications video user :
  preserves notifications (Like_create video user).
Proof.
  unfold Like_create. apply preserves_bind; [apply preserves_gets|].
  intros [l|]; [apply preserves_throw|].
  apply preserves_bind; [by apply preserves_newId|]. intros i.
  apply preserves_bind; [by apply preserves_modify|]. intros _. apply preserves_ret.
Qed.

Lemma likeNotification_keeps_notifications user video :
  preserves notifications (Notification_create (likeNotification user video)).
Proof. intros db. by rewrite likeNotification_rejected. Qed.

(** X2.  Liking a video never stores a notification, through either
    controller: both ask for one of type "like", which the Notification
    model refuses. *)
Theorem liking_never_notifies user id db :
  notifications (snd (toggleLike user id db)) = notifications db
  /\ notifications (snd (likeVideo user id db)) = notifications db.
Proof.
  split.
  - unfold toggleLike. rewrite try_catch_snd. revert db.
    apply preserves_bind; [apply preserves_gets|]. intros [video|]; [|apply preserves_ret].
    destruct (_ && _); [apply preserves_ret|].
    apply preserves_bind; [apply preserves_gets|].
    intros [like|].
    + apply preserves_bind; [by apply preserves_modify|]. intros _. apply preserves_ret.
    + apply preserves_bind; [apply Like_create_keeps_notifications|]. intros _.
      apply preserves_bind; [|intros _; apply preserves_ret].
      destruct (negb _); [apply likeNotification_keeps_notifications|apply preserves_ret].
  - unfold likeVideo. rewrite try_catch_snd. revert db.
    apply preserves_bind; [apply preserves_gets|]. intros [video|]; [|apply preserves_ret].
    apply preserves_bind; [apply preserves_gets|].
    intros [like|].
    + apply preserves_bind; [by apply preserves_modify|]. intros _. apply preserves_ret.
    + intros db. pose proof (Like_create_keeps_notifications id (user_id user) db) as Hc.
      destruct (Like_create id (user_id user) db) as [[e|l] db']; simpl in *; [done|].
      rewrite <- Hc. generalize db'. clear Hc.
      apply preserves_bind; [|intros _; apply preserves_ret].
      apply preserves_try_ignore.
      destruct (negb _); [apply likeNotification_keeps_notifications|apply preserves_ret].
Qed.

Lemma removeFirst_none {A} (p : A -> bool) l :
  List.find p l = None -> removeFirst p l = l.
Proof.
  induction l as [|x l IH]; simpl; [done|].
  destruct (p x); [done|]. intros H. by rewrite IH.
Qed.

Lemma removeFirst_app_new {A} (p : A -> bool) l x :
  List.find p l = None -> p x = true -> removeFirst p (l ++ [x])%list = l.
Proof.
  intros Hl Hx. induction l as [|y l IH]; simpl in *.
  - by rewrite Hx.
  - destruct (p y); [done|]. by rewrite IH.
Qed.

Lemma LikeController_likeVideo_new user videoId video db :
  videos db !! videoId = Some video ->
  List.find (Like_matches videoId (user_id user)) (likes db) = None ->
  LikeController.likeVideo user (Some videoId) db
  = (mkResponse 201 (SuccessMessage "Video liked"),
     set_likes (fun ls => (ls ++ [mkLike (nextId db) videoId (user_id user)])%list)
               (snd (fresh db))).
Proof.
  intros Hv Hl. unfold LikeController.likeVideo, try_catch, Video_findById.
  rewrite bind_gets, Hv. unfold bind. by rewrite Like_create_new.
Qed.

Lemma LikeController_likeVideo_dup user videoId video like db :
  videos db !! videoId = Some video ->
  List.find (Like_matches videoId (user_id user)) (likes db) = Some like ->
  LikeController.likeVideo user (Some videoId) db
  = (mkResponse 400 (Failure (Text "Already liked")), db).
Proof.
  intros Hv Hl. unfold LikeController.likeVideo, try_catch, Video_findById.
  rewrite bind_gets, Hv. unfold bind, Like_create, Like_findOne, bind, gets.
  by rewrite Hl.
Qed.

(** X3.  [likeVideo] of the like controller on an existing video: a first
    like answers 201 and stores one row; a like when the caller already has
    a row answers 400 "Already liked" and changes nothing, so liking twice
    leaves exactly one row. *)
Theorem LikeController_likeVideo_twice user videoId video db :
  videos db !! videoId = Some video ->
  (forall like,
     List.find (Like_matches videoId (user_id user)) (likes db) = Some like ->
     LikeController.likeVideo user (Some videoId) db
     = (mkResponse 400 (Failure (Text "Already liked")), db))
  /\ (likeRows videoId (user_id user) db = [] ->
      let r1 := LikeController.likeVideo user (Some videoId) db in
      let r2 := LikeController.likeVideo user (Some videoId) (snd r1) in
      fst r1 = mkResponse 201 (SuccessMessage "Video liked")
      /\ likeRows videoId (user_id user) (snd r1)
         = [mkLike (nextId db) videoId (user_id user)]
      /\ r2 = (mkResponse 400 (Failure (Text "Already liked")), snd r1)).
Proof.
  intros Hv. split.
  - intros like. by apply (LikeController_likeVideo_dup _ _ video).
  - intros Hrows. pose proof (find_none_rows _ _ Hrows) as Hnone.
    rewrite (LikeController_likeVideo_new _ _ _ _ Hv Hnone). simpl.
    split; [done|]. split.
    + unfold likeRows. simpl. rewrite List.filter_app.
      fold (likeRows videoId (user_id user) db). rewrite Hrows. simpl.
      by rewrite Like_matches_new.
    + apply (LikeController_likeVideo_dup _ _ video
               (mkLike (nextId db) videoId (user_id user))); [done|].
      simpl. apply find_app_new; [done|apply Like_matches_new].
Qed.

Lemma LikeController_likeVideo_twice_witness :
  fst (LikeController.likeVideo Sample.alice (Some 10%N) Sample.db)
  = mkResponse 201 (SuccessMessage "Video liked").
Proof.
  apply (proj2 (LikeController_likeVideo_twice Sample.alice 10%N Sample.lecture
                  Sample.db eq_refl) eq_refl).
Defined.

(** X4.  In the like controller, a like followed by an unlike gives back the
    Like collection as it was; an unlike without a like answers 200 and
    changes nothing. *)
Theorem like_then_unlike_restores user videoId video db :
  videos db !! videoId = Some video ->
  List.find (Like_matches videoId (user_id user)) (likes db) = None ->
  let r1 := LikeController.likeVideo user (Some videoId) db in
  let r2 := LikeController.unlikeVideo user (Some videoId) (snd r1) in
  fst r2 = mkResponse 200 (SuccessMessage "Video unliked")
  /\ likes (snd r2) = likes db
  /\ LikeController.unlikeVideo user (Some videoId) db
     = (mkResponse 200 (SuccessMessage "Video unliked"), db).
Proof.
  intros Hv Hnone. rewrite (LikeController_likeVideo_new _ _ _ _ Hv Hnone). simpl.
  repeat split.
  - apply removeFirst_app_new; [done|apply Like_matches_new].
  - unfold LikeController.unlikeVideo, try_catch, LikeController.Like_findOneAndDelete.
    rewrite bind_modify. simpl. f_equal.
    destruct db. unfold set_likes. simpl in *. by rewrite removeFirst_none.
Qed.

Lemma like_then_unlike_restores_witness :
  likes (snd (LikeController.unlikeVideo Sample.alice (Some 10%N)
           (snd (LikeController.likeVideo Sample.alice (Some 10%N) Sample.db))))
  = likes Sample.db.
Proof.
  apply (like_then_unlike_restores Sample.alice 10%N Sample.lecture Sample.db
           eq_refl eq_refl).
Defined.

(** ** The unique indexes as invariants *)

Lemma maintains_ret {A} I (a : A) : maintains I (ret a).
Proof. by intros db. Qed.

Lemma maintains_throw {A} I e : maintains I (throw (A := A) e).
Proof. by intros db. Qed.

Lemma maintains_gets {A} I (g : Db -> A) : maintains I (gets g).
Proof. by intros db. Qed.

Lemma maintains_bind {A C} I (m : M A) (k : A -> M C) :
  maintains I m -> (forall a, maintains I (k a)) -> maintains I (bind m k).
Proof.
  intros Hm Hk db HI. unfold bind. specialize (Hm db HI).
  destruct (m db) as [[e|a] db']; simpl in *; [done|]. by apply Hk.
Qed.

Lemma maintains_validate I model checks : maintains I (validate model checks).
Proof.
  unfold validate. destruct (List.filter _ checks);
    [apply maintains_ret|apply maintains_throw].
Qed.

Lemma maintains_modify I (g : Db -> Db) :
  (forall db, I db -> I (g db)) -> maintains I (modify g).
Proof. intros H db. apply H. Qed.

Lemma maintains_try_catch {D} I (m : M (Response D)) h db :
  maintains I m -> I db -> I (snd (try_catch m h db)).
Proof. intros Hm HI. rewrite try_catch_snd. by apply Hm. Qed.

Lemma maintains_try_ignore I m : maintains I m -> maintains I (try_ignore m).
Proof. intros H db HI. unfold try_ignore. specialize (H db HI). by destruct (m db). Qed.

Lemma maintains_Video_findById I id : maintains I (Video_findById id).
Proof. apply maintains_gets. Qed.

Lemma maintains_Like_findOne I v u : maintains I (Like_findOne v u).
Proof. apply maintains_gets. Qed.

Lemma maintains_VideoView_findOne I v u : maintains I (VideoView_findOne v u).
Proof. apply maintains_gets. Qed.

Lemma maintains_Report_findOne I c u : maintains I (Report_findOne c u).
Proof. apply maintains_gets. Qed.

Lemma maintains_Comment_findById I id : maintains I (Comment_findById id).
Proof. apply maintains_gets. Qed.

Create HintDb maintains.

#[local] Hint Resolve maintains_ret maintains_throw maintains_gets
  maintains_validate maintains_Video_findById maintains_Like_findOne
  maintains_VideoView_findOne maintains_Report_findOne
  maintains_Comment_findById : maintains.

Lemma NoDup_map_filter {A B} (g : A -> B) (p : A -> bool) l :
  NoDup (List.map g l) -> NoDup (List.map g (List.filter p l)).
Proof.
  induction l as [|x l IH]; simpl; [done|].
  intros [Hx Hl]%NoDup_cons. destruct (p x); simpl; [|auto].
  apply NoDup_cons. split; [|auto].
  intros Hin. apply Hx. apply list_elem_of_In in Hin. apply list_elem_of_In.
  apply in_map_iff in Hin as (y & <- & Hy). apply List.filter_In in Hy as [Hy _].
  by apply in_map.
Qed.

Lemma In_removeFirst {A} (p : A -> bool) l x :
  In x (removeFirst p l) -> In x l.
Proof.
  induction l as [|y l IH]; simpl; [done|].
  destruct (p y); simpl; [auto|]. intros [->|H]; auto.
Qed.

Lemma NoDup_map_removeFirst {A B} (g : A -> B) (p : A -> bool) l :
  NoDup (List.map g l) -> NoDup (List.map g (removeFirst p l)).
Proof.
  induction l as [|x l IH]; simpl; [done|].
  intros [Hx Hl]%NoDup_cons. destruct (p x); simpl; [done|].
  apply NoDup_cons. split; [|auto].
  intros Hin. apply Hx. apply list_elem_of_In in Hin. apply list_elem_of_In.
  apply in_map_iff in Hin as (y & <- & Hy). apply In_removeFirst in Hy.
  by apply in_map.
Qed.

Lemma NoDup_map_snoc {A B} (g : A -> B) l x :
  NoDup (List.map g l) -> ~ In (g x) (List.map g l) ->
  NoDup (List.map g (l ++ [x])%list).
Proof.
  intros Hl Hx. rewrite List.map_app. simpl. apply NoDup_app. split; [done|].
  split; [|apply NoDup_singleton].
  intros y Hy Hy'. apply list_elem_of_singleton in Hy' as ->.
  by apply Hx, list_elem_of_In.
Qed.

Lemma NoDup_map_replace {A B} (g : A -> B) (idOf : A -> ObjectId) i x l :
  (forall y, In y l -> idOf y = i -> g y = g x) ->
  NoDup (List.map g l) ->
  NoDup (List.map g (List.map (fun y => if (idOf y =? i)%N then x else y) l)).
Proof.
  intros Hsame Hl.
  assert (List.map g (List.map (fun y => if (idOf y =? i)%N then x else y) l)
          = List.map g l) as ->; [|done].
  rewrite List.map_map. apply List.map_ext_in. intros y Hy.
  destruct (idOf y =? i)%N eqn:E; [|done].
  symmetry. apply Hsame; [done|]. by apply N.eqb_eq.
Qed.

Lemma Like_create_keeps_unique video user :
  maintains likesUnique (Like_create video user).
Proof.
  intros db HI. unfold Like_create, Like_findOne. rewrite bind_gets.
  destruct (List.find _ (likes db)) eqn:Hf; [done|]. simpl.
  unfold likesUnique. simpl.
  apply (NoDup_map_snoc (fun l => (like_video l, like_user l))); [done|].
  simpl. intros (l & Hl & Hin)%in_map_iff.
  pose proof (List.find_none _ _ Hf l Hin) as Hm.
  injection Hl as Hv Hu. unfold Like_matches in Hm.
  by rewrite Hv, Hu, !N.eqb_refl in Hm.
Qed.

Lemma Like_remove_keeps_unique l : maintains likesUnique (Like_remove l).
Proof.
  apply maintains_modify. intros db HI. unfold likesUnique. simpl.
  by apply NoDup_map_filter.
Qed.

Lemma likeNotification_keeps_unique user video :
  maintains likesUnique (Notification_create (likeNotification user video)).
Proof. intros db HI. by rewrite likeNotification_rejected. Qed.

(** X5.  No handler that writes Like rows ever leaves two rows of the same
    user on the same video: [toggleLike], both [likeVideo] and [unlikeVideo]
    keep the rows unique. *)
Theorem likes_stay_unique user id db :
  likesUnique db ->
  likesUnique (snd (toggleLike user id db))
  /\ likesUnique (snd (likeVideo user id db))
  /\ (forall videoId, likesUnique (snd (LikeController.likeVideo user videoId db)))
  /\ (forall videoId, likesUnique (snd (LikeController.unlikeVideo user videoId db))).
Proof.
  intros HI. repeat split.
  - unfold toggleLike. apply maintains_try_catch; [|done].
    apply maintains_bind; [auto with maintains|]. intros [video|]; [|auto with maintains].
    destruct (_ && _); [auto with maintains|].
    apply maintains_bind; [auto with maintains|]. intros [like|].
    + apply maintains_bind; [apply Like_remove_keeps_unique|]. auto with maintains.
    + apply maintains_bind; [apply Like_create_keeps_unique|]. intros _.
      apply maintains_bind; [|auto with maintains].
      destruct (negb _); [apply likeNotification_keeps_unique|auto with maintains].
  - unfold likeVideo. apply maintains_try_catch; [|done].
    apply maintains_bind; [auto with maintains|]. intros [video|]; [|auto with maintains].
    apply maintains_bind; [auto with maintains|]. intros [like|].
    + apply maintains_bind; [apply Like_remove_keeps_unique|]. auto with maintains.
    + intros db' HI'.
      pose proof (Like_create_keeps_unique id (user_id user) db' HI') as Hc.
      destruct (Like_create id (user_id user) db') as [[e|l] db'']; simpl in *; [done|].
      revert Hc. generalize db''.
      apply maintains_bind; [|auto with maintains].
      apply maintains_try_ignore.
      destruct (negb _); [apply likeNotification_keeps_unique|auto with maintains].
  - intros videoId. unfold LikeController.likeVideo. apply maintains_try_catch; [|done].
    destruct videoId as [videoId|]; [|auto with maintains].
    apply maintains_bind; [auto with maintains|]. intros [video|]; [|auto with maintains].
    apply maintains_bind; [apply Like_create_keeps_unique|]. auto with maintains.
  - intros videoId. unfold LikeController.unlikeVideo, LikeController.Like_findOneAndDelete.
    apply maintains_try_catch; [|done].
    destruct videoId as [videoId|]; [|auto with maintains].
    apply maintains_bind; [|auto with maintains].
    apply maintains_modify. intros db' HI'. unfold likesUnique. simpl.
    by apply NoDup_map_removeFirst.
Qed.

Lemma likes_stay_unique_witness :
  likesUnique (snd (toggleLike Sample.carol 10%N Sample.db)).
Proof.
  apply (likes_stay_unique Sample.carol 10%N Sample.db).
  apply NoDup_nil_2.
Defined.

(** ** View statistics and the watch history *)

Lemma buckets_partition (l : list VideoView) :
  countWhere (fun v => (view_completionPercentage v <=? 25)%Z) l
  + countWhere (fun v => (25 <? view_completionPercentage v)%Z
                         && (view_completionPercentage v <=? 50)%Z) l
  + countWhere (fun v => (50 <? view_completionPercentage v)%Z
                         && (view_completionPercentage v <=? 75)%Z) l
  + countWhere (fun v => (75 <? view_completionPercentage v)%Z) l
  = length l.
Proof.
  unfold countWhere. induction l as [|v l IH]; simpl; [done|].
  destruct (Z.leb_spec (view_completionPercentage v) 25),
           (Z.ltb_spec 25 (view_completionPercentage v)),
           (Z.leb_spec (view_completionPercentage v) 50),
           (Z.ltb_spec 50 (view_completionPercentage v)),
           (Z.leb_spec (view_completionPercentage v) 75),
           (Z.ltb_spec 75 (view_completionPercentage v)); simpl; lia.
Qed.

Lemma size_list_to_set_le (l : list N) :
  size (list_to_set l : gset N) <= length l.
Proof.
  induction l as [|x l IH].
  - rewrite list_to_set_nil, size_empty. done.
  - rewrite list_to_set_cons. cbn [length].
    destruct (decide (x ∈ (list_to_set l : gset N))) as [Hin|Hnin].
    + assert (Heq : {[x]} ∪ list_to_set l = (list_to_set l : gset N)).
      { apply subseteq_union_1_L. by apply singleton_subseteq_l. }
      rewrite Heq. lia.
    + rewrite size_union by set_solver. rewrite size_singleton. lia.
Qed.

Lemma viewers_of_video_NoDup video (l : list VideoView) :
  NoDup (List.map (fun v => (view_video v, view_user v)) l) ->
  NoDup (List.map view_user (List.filter (fun v => (view_video v =? video)%N) l)).
Proof.
  induction l as [|x l IH]; simpl; [intros; apply NoDup_nil_2|].
  intros [Hx Hl]%NoDup_cons.
  destruct (view_video x =? video)%N eqn:E; simpl; [|auto].
  apply NoDup_cons. split; [|auto].
  intros Hin. apply Hx. apply list_elem_of_In in Hin. apply list_elem_of_In.
  apply in_map_iff in Hin as (y & Hu & Hy). apply List.filter_In in Hy as [Hy Hv].
  apply in_map_iff. exists y. split; [|done].
  apply N.eqb_eq in E, Hv. by rewrite Hu, Hv, E.
Qed.

(** X6.  [getViewStats] answers the owner of the video and admins only.  In
    its answer every view row of the video falls in exactly one completion
    bucket, the number of unique viewers does not exceed the number of
    views and equals it when rows are unique per user, and an unviewed
    video has zero averages.  Nothing is written. *)
Theorem getViewStats_counts user videoId video db :
  videos db !! videoId = Some video ->
  (video_teacher video = user_id user \/ user_role user = admin ->
   exists stats,
     getViewStats user videoId db = (mkResponse 200 (Success stats), db)
     /\ totalViews stats
        = length (List.filter (fun v => (view_video v =? videoId)%N) (videoViews db))
     /\ upTo25 (completionDistribution stats) + upTo50 (completionDistribution stats)
        + upTo75 (completionDistribution stats) + upTo100 (completionDistribution stats)
        = totalViews stats
     /\ uniqueViewers stats <= totalViews stats
     /\ (viewsUnique db -> uniqueViewers stats = totalViews stats)
     /\ (totalViews stats = 0 ->
         averageWatchTime stats = Zero /\ averageCompletion stats = Zero))
  /\ (video_teacher video <> user_id user -> user_role user <> admin ->
      getViewStats user videoId db
      = (mkResponse 403 (Failure (Text "Not authorized to view these statistics")), db)).
Proof.
  intros Hv. unfold getViewStats, try_catch, Video_findById.
  rewrite bind_gets, Hv. split.
  - intros Hauth.
    assert (negb (video_teacher video =? user_id user)%N
            && negb (Role_eqb (user_role user) admin) = false) as ->.
    { destruct Hauth as [->| ->]; [by rewrite N.eqb_refl|]. apply andb_false_r. }
    unfold VideoView_findByVideo. rewrite bind_gets.
    set (views := List.filter _ (videoViews db)).
    eexists. split; [reflexivity|]. simpl.
    split; [done|]. split; [apply buckets_partition|].
    split; [rewrite <- (List.length_map view_user views); apply size_list_to_set_le|].
    split.
    + intros Huniq. rewrite <- (List.length_map view_user views).
      apply size_list_to_set. by apply viewers_of_video_NoDup.
    + intros Hzero. unfold average. by rewrite Hzero.
  - intros Hne Hrole.
    assert (negb (video_teacher video =? user_id user)%N
            && negb (Role_eqb (user_role user) admin) = true) as ->; [|done].
    apply andb_true_iff. split.
    + by apply negb_true_iff, N.eqb_neq.
    + by destruct (user_role user).
Qed.

Lemma getViewStats_counts_witness :
  fst (getViewStats Sample.erin 10%N Sample.db)
  = mkResponse 403 (Failure (Text "Not authorized to view these statistics")).
Proof.
  rewrite (proj2 (getViewStats_counts Sample.erin 10%N Sample.lecture Sample.db eq_refl));
    [reflexivity|discriminate|discriminate].
Defined.

Lemma clearWatchHistory_run user db :
  clearWatchHistory user db
  = (mkResponse 200 (SuccessMessage "Watch history cleared"),
     set_videoViews (List.filter (fun v => negb (view_user v =? user_id user)%N)) db).
Proof. reflexivity. Qed.

Lemma filter_filter_none {A} (p q : A -> bool) l :
  (forall x, p x = true -> q x = false) ->
  List.filter p (List.filter q l) = [].
Proof.
  intros H. induction l as [|x l IH]; simpl; [done|].
  destruct (q x) eqn:Hq; simpl; [|done].
  destruct (p x) eqn:Hp; [|done]. apply H in Hp. congruence.
Qed.

(** X7.  [clearWatchHistory] deletes the caller's view rows and nothing
    else, and no view counter goes down; so when the same user views the
    video again the counter rises a second time. *)
Theorem clearWatchHistory_then_view_counts_again user req now req' now'
    videoId video db :
  body_videoId req = Some videoId ->
  body_videoId req' = Some videoId ->
  videos db !! videoId = Some video ->
  viewRows videoId (user_id user) db = [] ->
  let db1 := snd (recordView user req now db) in
  let db2 := snd (clearWatchHistory user db1) in
  let db3 := snd (recordView user req' now' db2) in
  viewCount videoId db1 = Some (video_views video + 1)%Z
  /\ videos db2 = videos db1
  /\ videoViews db2
     = List.filter (fun v => negb (view_user v =? user_id user)%N) (videoViews db1)
  /\ viewCount videoId db3 = Some (video_views video + 2)%Z.
Proof.
  intros Hid Hid' Hv Hrows db1 db2 db3.
  pose proof (viewCount_first user req now db videoId video Hid Hv Hrows) as H1.
  fold db1 in H1. split; [done|]. split; [done|]. split; [done|].
  unfold viewCount in H1.
  destruct (videos db1 !! videoId) as [video1|] eqn:Hv1; [|done].
  simpl in H1. injection H1 as H1.
  assert (Hv2 : videos db2 !! videoId = Some video1) by done.
  assert (Hrows2 : viewRows videoId (user_id user) db2 = []).
  { unfold viewRows. subst db2. rewrite clearWatchHistory_run. simpl.
    apply filter_filter_none. intros x Hx. unfold VideoView_matches in Hx.
    apply andb_true_iff in Hx as [_ Hx]. by rewrite Hx. }
  subst db3.
  rewrite (viewCount_first user req' now' db2 videoId video1 Hid' Hv2 Hrows2).
  f_equal. lia.
Qed.

Lemma clearWatchHistory_then_view_counts_again_witness :
  viewCount 10%N
    (snd (recordView Sample.alice (mkViewBody (Some 10%N) None None None) 9
       (snd (clearWatchHistory Sample.alice
          (snd (recordView Sample.alice (mkViewBody (Some 10%N) None None None) 7
                  Sample.db))))))
  = Some 2%Z.
Proof.
  apply (clearWatchHistory_then_view_counts_again Sample.alice
           (mkViewBody (Some 10%N) None None None) 7
           (mkViewBody (Some 10%N) None None None) 9 10%N Sample.lecture Sample.db
           eq_refl eq_refl eq_refl eq_refl).
Defined.

Lemma NoDup_map_inj_on {A} (idOf : A -> ObjectId) l x y :
  NoDup (List.map idOf l) -> In x l -> In y l -> idOf x = idOf y -> x = y.
Proof.
  induction l as [|z l IH]; simpl; [done|].
  intros [Hz Hl]%NoDup_cons [->|Hx] [->|Hy] Heq; auto.
  - exfalso. apply Hz. rewrite Heq. by apply list_elem_of_In, in_map.
  - exfalso. apply Hz. rewrite <- Heq. by apply list_elem_of_In, in_map.
Qed.

(** X8.  [recordView] and [clearWatchHistory] keep the view collection well
    formed: distinct ids below the id counter and at most one row per
    (video, user). *)
Theorem views_stay_well_formed user req now db :
  viewsWellFormed db ->
  viewsWellFormed (snd (recordView user req now db))
  /\ viewsWellFormed (snd (clearWatchHistory user db)).
Proof.
  intros (Hids & Hlt & Huniq). split.
  - destruct (body_videoId req) as [videoId|] eqn:Hid;
      [|unfold recordView, try_catch; rewrite Hid; done].
    destruct (List.find (VideoView_matches videoId (user_id user)) (videoViews db))
      as [view|] eqn:Hf.
    + rewrite (recordView_again _ _ _ _ _ _ Hid Hf).
      apply List.find_some in Hf as [Hin Hm].
      set (f := fun x => if (view_id x =? view_id view)%N
                         then nextView view req now else x).
      unfold viewsWellFormed, viewsUnique. simpl. fold f. repeat split.
      * assert (List.map view_id (List.map f (videoViews db))
                = List.map view_id (videoViews db)) as ->; [|done].
        rewrite List.map_map. apply List.map_ext_in. intros y Hy.
        unfold f. by destruct (view_id y =? view_id view)%N eqn:E;
          [apply N.eqb_eq in E|].
      * apply Forall_forall. intros y Hy. apply list_elem_of_In in Hy.
        apply in_map_iff in Hy as (z & <- & Hz). unfold f.
        destruct (view_id z =? view_id view)%N; simpl.
        -- by apply (proj1 (Forall_forall _ _) Hlt view), list_elem_of_In.
        -- by apply (proj1 (Forall_forall _ _) Hlt z), list_elem_of_In.
      * assert (List.map (fun v => (view_video v, view_user v))
                         (List.map f (videoViews db))
                = List.map (fun v => (view_video v, view_user v)) (videoViews db))
          as ->; [|done].
        rewrite List.map_map. apply List.map_ext_in. intros y Hy.
        unfold f. destruct (view_id y =? view_id view)%N eqn:E; [|done].
        apply N.eqb_eq in E.
        by rewrite (NoDup_map_inj_on view_id _ y view Hids Hy Hin E).
    + rewrite (recordView_first _ _ _ _ _ Hid Hf).
      unfold viewsWellFormed, viewsUnique. simpl. repeat split.
      * apply NoDup_map_snoc; [done|]. simpl.
        intros (y & Hy & Hin)%in_map_iff.
        pose proof (proj1 (Forall_forall _ _) Hlt y
                      (proj2 (list_elem_of_In _ _) Hin)) as Hlty.
        simpl in Hlty. lia.
      * apply Forall_app. split.
        -- eapply Forall_impl; [exact Hlt|]. simpl. intros; lia.
        -- apply Forall_singleton. simpl. lia.
      * apply (NoDup_map_snoc (fun v => (view_video v, view_user v))); [done|].
        simpl. intros (y & Hy & Hin)%in_map_iff.
        pose proof (List.find_none _ _ Hf y Hin) as Hm.
        injection Hy as Hv Hu. unfold VideoView_matches in Hm.
        by rewrite Hv, Hu, !N.eqb_refl in Hm.
  - rewrite clearWatchHistory_run. unfold viewsWellFormed, viewsUnique. simpl.
    repeat split.
    + by apply NoDup_map_filter.
    + apply Forall_forall. intros y Hy. apply list_elem_of_In, List.filter_In in Hy as [Hy _].
      by apply (proj1 (Forall_forall _ _) Hlt y), list_elem_of_In.
    + by apply NoDup_map_filter.
Qed.

Lemma views_stay_well_formed_witness :
  viewsWellFormed
    (snd (recordView Sample.alice (mkViewBody (Some 10%N) None None None) 7 Sample.db)).
Proof.
  apply (views_stay_well_formed Sample.alice (mkViewBody (Some 10%N) None None None) 7
           Sample.db).
  repeat split; simpl; try apply NoDup_nil_2. apply Forall_nil_2.
Defined.

(** ** Notes *)

Lemma createNote_hasAccess_true user video :
  Js.truthy (createNote_hasAccess user video) = true.
Proof.
  unfold createNote_hasAccess, video_isApproved. simpl. by destruct (existsb _ _).
Qed.

Lemma createNote_new user c videoId ts title now video db :
  c <> EmptyString ->
  videos db !! videoId = Some video ->
  noteRows (user_id user) videoId db = [] ->
  let note := mkNote (nextId db) "Untitled Note" c (user_id user) (Some videoId)
                     (Js.or_number ts 0) now in
  createNote user (mkNoteBody (Some c) (Some videoId) ts title) now db
  = (mkResponse 201 (Success note),
     set_notes (fun ns => (ns ++ [note])%list) (snd (fresh db))).
Proof.
  intros Hc Hv Hrows. unfold createNote, try_catch. simpl.
  unfold Video_findById. rewrite bind_gets, Hv, createNote_hasAccess_true. simpl.
  unfold Note_findOne. rewrite bind_gets.
  rewrite (find_none_rows _ _ Hrows).
  unfold Note_create, bind, newId, validate, Note_checks. simpl.
  apply String.eqb_neq in Hc. by rewrite Hc.
Qed.

Lemma createNote_again user c videoId ts title now video note db :
  c <> EmptyString ->
  videos db !! videoId = Some video ->
  Note_findOne (user_id user) videoId db = (inr (Some note), db) ->
  let note' := withContent note (Some c) (Js.or_number ts (note_timestamp note)) now in
  createNote user (mkNoteBody (Some c) (Some videoId) ts title) now db
  = (mkResponse 201 (Success note'),
     set_notes (List.map (fun x => if (note_id x =? note_id note)%N then note' else x))
               db).
Proof.
  intros Hc Hv Hf. unfold createNote, try_catch. simpl.
  unfold Video_findById. rewrite bind_gets, Hv, createNote_hasAccess_true. simpl.
  unfold bind at 1. rewrite Hf.
  unfold Note_save, bind, validate, Note_checks. simpl.
  apply String.eqb_neq in Hc. by rewrite Hc.
Qed.

(** X9.  [createNote] keeps one note per student and video: the first
    request with a content stores a note, and a second request by the same
    student for the same video rewrites that note (same id, new content, the
    old timestamp unless a non-zero one is sent) instead of adding one. *)
Theorem createNote_one_note_per_video user c c' videoId ts ts' title title' now now'
    video db :
  c <> EmptyString -> c' <> EmptyString ->
  videos db !! videoId = Some video ->
  notesFresh db ->
  noteRows (user_id user) videoId db = [] ->
  let r1 := createNote user (mkNoteBody (Some c) (Some videoId) ts title) now db in
  let r2 := createNote user (mkNoteBody (Some c') (Some videoId) ts' title') now'
                       (snd r1) in
  status (fst r1) = 201
  /\ length (noteRows (user_id user) videoId (snd r1)) = 1
  /\ status (fst r2) = 201
  /\ noteRows (user_id user) videoId (snd r2)
     = [mkNote (nextId db) "Untitled Note" c' (user_id user) (Some videoId)
               (Js.or_number ts' (Js.or_number ts 0)) now']
  /\ length (notes (snd r2)) = S (length (notes db)).
Proof.
  intros Hc Hc' Hv Hfresh Hrows.
  rewrite (createNote_new user c videoId ts title now video db Hc Hv Hrows). simpl.
  set (note := mkNote (nextId db) "Untitled Note" c (user_id user) (Some videoId)
                      (Js.or_number ts 0) now).
  set (db1 := set_notes _ _).
  assert (Hm : (note_student note =? user_id user)%N
               && match note_video note with
                  | Some v => (v =? videoId)%N
                  | None => false
                  end = true) by (simpl; by rewrite !N.eqb_refl).
  assert (Hf1 : Note_findOne (user_id user) videoId db1 = (inr (Some note), db1)).
  { unfold Note_findOne, gets. f_equal. f_equal. subst db1. simpl.
    apply find_app_new; [|exact Hm]. by apply find_none_rows. }
  rewrite (createNote_again user c' videoId ts' title' now' video note db1 Hc' Hv Hf1).
  simpl. split; [done|]. split.
  { unfold noteRows. simpl. rewrite List.filter_app.
    fold (noteRows (user_id user) videoId db). rewrite Hrows. simpl.
    by rewrite !N.eqb_refl. }
  split; [done|]. split.
  - unfold noteRows. simpl. rewrite List.map_app, List.filter_app. simpl.
    rewrite !N.eqb_refl. simpl. rewrite !N.eqb_refl. simpl.
    assert (List.map (fun x => if (note_id x =? nextId db)%N
                               then withContent note (Some c')
                                      (Js.or_number ts' (Js.or_number ts 0)) now'
                               else x) (notes db) = notes db) as ->.
    { rewrite <- (List.map_id (notes db)) at 2. apply List.map_ext_in.
      intros y Hy. pose proof (proj1 (Forall_forall _ _) Hfresh y
                                 (proj2 (list_elem_of_In _ _) Hy)) as Hlt.
      simpl in Hlt. by apply N.lt_neq, N.eqb_neq in Hlt as ->. }
    fold (noteRows (user_id user) videoId db). by rewrite Hrows.
  - rewrite List.length_map, List.length_app. simpl. lia.
Qed.

Lemma createNote_one_note_per_video_witness :
  noteRows 1%N 10%N
    (snd (createNote Sample.alice (mkNoteBody (Some "Euler paths") (Some 10%N) None None) 8
       (snd (createNote Sample.alice
               (mkNoteBody (Some "Euler") (Some 10%N) (Some 95%Z) None) 7 Sample.db))))
  = [mkNote 100 "Untitled Note" "Euler paths" 1 (Some 10%N) 95 8].
Proof.
  apply (createNote_one_note_per_video Sample.alice "Euler" "Euler paths" 10%N
           (Some 95%Z) None None None 7 8 Sample.lecture Sample.db
           ltac:(discriminate) ltac:(discriminate) eq_refl
           ltac:(apply Forall_nil_2) eq_refl).
Defined.

(** X10.  Notes are private to their student: anyone else is answered 403
    by [getNote], [deleteNote] and [updateNote], and nothing is written. *)
Theorem notes_are_private user id note db :
  findById note_id id (notes db) = Some note ->
  note_student note <> user_id user ->
  getNote user id db
  = (mkResponse 403 (Failure (Text "Not authorized to access this note")), db)
  /\ deleteNote user id db
     = (mkResponse 403 (Failure (Text "Not authorized to delete this note")), db)
  /\ (forall content title now,
        updateNote user id content title now db
        = (mkResponse 403 (Failure (Text "Not authorized to update this note")), db)).
Proof.
  intros Hf Hne. apply N.eqb_neq in Hne.
  repeat split; intros;
    unfold getNote, deleteNote, updateNote, try_catch, Note_findById;
    by rewrite bind_gets, Hf, Hne.
Qed.

Lemma notes_are_private_witness :
  deleteNote Sample.erin 70%N Sample.db_notes
  = (mkResponse 403 (Failure (Text "Not authorized to delete this note")),
     Sample.db_notes).
Proof.
  apply (notes_are_private Sample.erin 70%N
           (mkNote 70 "Reading list" "Diestel, chapter 1" 1 None 0 5)
           Sample.db_notes eq_refl ltac:(discriminate)).
Defined.

(** X11.  For its student, [updateNote] on a valid stored note replaces the
    content and the title only where a non-empty one is sent, sets
    updatedAt, and never changes the note's id, student, video or
    timestamp; [deleteNote] removes the note and no other. *)
Theorem updateNote_keeps_unsent_fields user id note content title now db :
  findById note_id id (notes db) = Some note ->
  note_student note = user_id user ->
  note_content note <> EmptyString ->
  (note_video note = None -> note_title note <> EmptyString) ->
  (exists note',
     fst (updateNote user id content title now db) = mkResponse 200 (Success note')
     /\ findById note_id id (notes (snd (updateNote user id content title now db)))
        = Some note'
     /\ (note_id note', note_student note', note_video note', note_timestamp note')
        = (note_id note, note_student note, note_video note, note_timestamp note)
     /\ note_updatedAt note' = now
     /\ (Js.truthy_string content = false -> note_content note' = note_content note)
     /\ (Js.truthy_string title = false -> note_title note' = note_title note)
     /\ (forall c, content = Some c -> c <> EmptyString -> note_content note' = c)
     /\ (forall t, title = Some t -> t <> EmptyString -> note_title note' = t))
  /\ deleteNote user id db
     = (mkResponse 200 (Success tt), set_notes (deleteById note_id id) db).
Proof.
  intros Hf Hown Hcontent Htitle.
  pose proof (findById_id _ _ _ _ Hf) as Hid.
  assert (Hgate : negb (note_student note =? user_id user)%N = false)
    by (by rewrite Hown, N.eqb_refl).
  split.
  - set (note' := mkNote (note_id note)
               (if Js.truthy_string title then default EmptyString title
                else note_title note)
               (if Js.truthy_string content then default EmptyString content
                else note_content note)
               (note_student note) (note_video note) (note_timestamp note) now).
    assert (Hvalid : forallb snd (Note_saveChecks note') = true).
    { unfold Note_saveChecks. cbn [forallb snd note_video note_title note_content note'].
      apply andb_true_iff. split; [|apply andb_true_iff; split; [|done]].
      - destruct (note_video note) as [v|] eqn:Hvid; [done|]. simpl.
        apply negb_true_iff, String.eqb_neq.
        destruct title as [t|]; simpl; [|auto].
        destruct (String.eqb_spec t EmptyString); simpl; auto.
      - apply negb_true_iff, String.eqb_neq.
        destruct content as [c|]; simpl; [|auto].
        destruct (String.eqb_spec c EmptyString); simpl; auto. }
    assert (Hrun : updateNote user id content title now db
                   = (mkResponse 200 (Success note'),
                      set_notes (List.map (fun x => if (note_id x =? note_id note')%N
                                                    then note' else x)) db)).
    { unfold updateNote, try_catch, Note_findById. rewrite bind_gets, Hf, Hgate.
      fold note'. unfold Note_update, bind. by rewrite (validate_ok _ _ _ Hvalid). }
    exists note'. rewrite Hrun. simpl.
    split; [done|]. split.
    { unfold findById in *.
      rewrite (find_map_replace _ note_id (notes db) note note' Hf); [done|].
      simpl. by rewrite Hid, N.eqb_refl. }
    repeat split.
    + by intros ->.
    + by intros ->.
    + intros c -> Hc. simpl. by apply String.eqb_neq in Hc as ->.
    + intros t -> Ht. simpl. by apply String.eqb_neq in Ht as ->.
  - unfold deleteNote, try_catch, Note_findById. rewrite bind_gets, Hf, Hgate.
    by rewrite Hid.
Qed.

Lemma updateNote_keeps_unsent_fields_witness :
  exists note',
    fst (updateNote Sample.alice 70%N (Some EmptyString) (Some "Books") 9 Sample.db_notes)
    = mkResponse 200 (Success note')
    /\ note_content note' = "Diestel, chapter 1"
    /\ note_title note' = "Books".
Proof.
  destruct (proj1 (updateNote_keeps_unsent_fields Sample.alice 70%N
              (mkNote 70 "Reading list" "Diestel, chapter 1" 1 None 0 5)
              (Some EmptyString) (Some "Books") 9 Sample.db_notes
              eq_refl eq_refl ltac:(discriminate) ltac:(discriminate)))
    as (note' & Hr & _ & _ & _ & Hc & _ & _ & Ht).
  exists note'. split; [exact Hr|]. split.
  - apply Hc. reflexivity.
  - apply (Ht "Books"); [reflexivity|discriminate].
Defined.

(** ** Reports *)

Lemma reason_not_empty reason : In reason Report_reasons -> reason <> EmptyString.
Proof. simpl. intros [<-|[<-|[<-|[<-|[<-|[]]]]]]; discriminate. Qed.

Lemma isIn_In s l : isIn s l = true <-> In s l.
Proof.
  unfold isIn. rewrite existsb_exists. split.
  - intros (y & Hy & E). apply String.eqb_eq in E. by subst.
  - intros H. exists s. split; [done|]. apply String.eqb_refl.
Qed.

Lemma createReport_stores user commentId reason details comment db :
  In reason Report_reasons ->
  (reason = "other" -> Js.truthy_string details = true) ->
  findById comment_id commentId (comments db) = Some comment ->
  comment_user comment <> user_id user ->
  List.find (Report_matches commentId (user_id user)) (reports db) = None ->
  let report := mkReport (nextId db) commentId (user_id user) reason
                         (if String.eqb reason "other" then details else None)
                         "pending" in
  createReport user (mkReportBody (Some commentId) (Some reason) details) db
  = (mkResponse 201 (Success report),
     set_reports (fun rs => (rs ++ [report])%list) (snd (fresh db))).
Proof.
  intros Hreason Hdetails Hc Hauthor Hnone report.
  unfold createReport, try_catch. simpl.
  pose proof (reason_not_empty _ Hreason) as Hne.
  apply String.eqb_neq in Hne. rewrite Hne. simpl.
  unfold Comment_findById. rewrite bind_gets, Hc.
  apply N.eqb_neq in Hauthor. rewrite Hauthor.
  unfold Report_findOne at 1. rewrite bind_gets, Hnone.
  unfold Report_create. unfold bind at 1 2.
  rewrite validate_ok.
  - unfold Report_findOne. rewrite bind_gets, Hnone. reflexivity.
  - cbn [forallb snd]. rewrite (proj2 (isIn_In _ _) Hreason). simpl.
    destruct (String.eqb_spec reason "other") as [->|_]; [|done].
    simpl. unfold required. by rewrite Hdetails.
Qed.

(** X12.  A report on someone else's comment, with a reason of the model
    and details when the reason is "other", is stored as pending and
    answered 201; afterwards [checkUserReport] says the caller has reported
    the comment, [getUserReport] returns that report, and [getReportCount]
    is one higher.  Details sent with another reason are dropped. *)
Theorem createReport_then_read user commentId reason details comment db :
  In reason Report_reasons ->
  (reason = "other" -> Js.truthy_string details = true) ->
  findById comment_id commentId (comments db) = Some comment ->
  comment_user comment <> user_id user ->
  List.find (Report_matches commentId (user_id user)) (reports db) = None ->
  let r := createReport user (mkReportBody (Some commentId) (Some reason) details) db in
  let report := mkReport (nextId db) commentId (user_id user) reason
                         (if String.eqb reason "other" then details else None)
                         "pending" in
  fst r = mkResponse 201 (Success report)
  /\ fst (checkUserReport user commentId (snd r))
     = mkResponse 200 (Success (mkHasReportedReply true))
  /\ fst (getUserReport user commentId (snd r)) = mkResponse 200 (Success report)
  /\ fst (getReportCount commentId (snd r))
     = mkResponse 200 (Success (mkCountReply (S (length (reportsOn commentId db)))))
  /\ fst (getReportCount commentId db)
     = mkResponse 200 (Success (mkCountReply (length (reportsOn commentId db)))).
Proof.
  intros Hreason Hdetails Hc Hauthor Hnone.
  rewrite (createReport_stores _ _ _ _ _ _ Hreason Hdetails Hc Hauthor Hnone). simpl.
  set (report := mkReport _ _ _ _ _ _).
  assert (Hf : List.find (Report_matches commentId (user_id user))
                         (reports db ++ [report])%list = Some report).
  { apply find_app_new; [done|]. unfold Report_matches. simpl. by rewrite !N.eqb_refl. }
  split; [done|].
  unfold checkUserReport, getUserReport, getReportCount, try_catch, Report_findOne.
  rewrite !bind_gets. simpl. rewrite Hf. simpl.
  repeat split.
  unfold reportsOn. rewrite List.filter_app, List.length_app. simpl.
  rewrite N.eqb_refl. simpl. do 3 f_equal. lia.
Qed.

Lemma createReport_then_read_witness :
  fst (checkUserReport Sample.alice 21%N
         (snd (createReport Sample.alice
                 (mkReportBody (Some 21%N) (Some "off-topic") (Some "not about graphs"))
                 Sample.db_reviewed)))
  = mkResponse 200 (Success (mkHasReportedReply true)).
Proof.
  apply (createReport_then_read Sample.alice 21%N "off-topic" (Some "not about graphs")
           (mkComment 21 "See slide 4." 2 10 (Some 20%N)) Sample.db_reviewed
           ltac:(simpl; tauto) ltac:(discriminate) eq_refl ltac:(discriminate) eq_refl).
Defined.

Lemma deleteById_fresh {A} (idOf : A -> ObjectId) i (l : list A) :
  Forall (fun x => (idOf x < i)%N) l -> deleteById idOf i l = l.
Proof.
  unfold deleteById. induction l as [|x l IH]; simpl; [done|].
  intros [Hx Hl]%Forall_cons.
  apply N.lt_neq, N.eqb_neq in Hx. rewrite Hx. simpl. by rewrite IH.
Qed.

(** X13.  Cancelling a report right after making it gives back the report
    collection as it was (when report ids come from the id counter). *)
Theorem createReport_then_cancel_restores user commentId reason details comment db :
  In reason Report_reasons ->
  (reason = "other" -> Js.truthy_string details = true) ->
  findById comment_id commentId (comments db) = Some comment ->
  comment_user comment <> user_id user ->
  List.find (Report_matches commentId (user_id user)) (reports db) = None ->
  reportsFresh db ->
  let r1 := createReport user (mkReportBody (Some commentId) (Some reason) details) db in
  let r2 := cancelReport user commentId (snd r1) in
  fst r2 = mkResponse 200 (SuccessMessage "Report successfully canceled")
  /\ reports (snd r2) = reports db.
Proof.
  intros Hreason Hdetails Hc Hauthor Hnone Hfresh.
  rewrite (createReport_stores _ _ _ _ _ _ Hreason Hdetails Hc Hauthor Hnone). simpl.
  set (report := mkReport _ _ _ _ _ _).
  set (db1 := set_reports _ _).
  assert (Hf : List.find (Report_matches commentId (user_id user)) (reports db1)
               = Some report).
  { apply find_app_new; [done|]. unfold Report_matches. simpl. by rewrite !N.eqb_refl. }
  rewrite (cancelReport_run _ _ _ _ Hf). simpl. split; [done|].
  rewrite (deleteById_app_new report_id (nextId db) (reports db) report eq_refl).
  by apply deleteById_fresh.
Qed.

Lemma createReport_then_cancel_restores_witness :
  reports (snd (cancelReport Sample.alice 21%N
            (snd (createReport Sample.alice
                    (mkReportBody (Some 21%N) (Some "spam") None) Sample.db_reviewed))))
  = reports Sample.db_reviewed.
Proof.
  apply (createReport_then_cancel_restores Sample.alice 21%N "spam" None
           (mkComment 21 "See slide 4." 2 10 (Some 20%N)) Sample.db_reviewed
           ltac:(simpl; tauto) ltac:(discriminate) eq_refl ltac:(discriminate) eq_refl).
  apply Forall_singleton. reflexivity.
Defined.

(** X14.  [createReport] stores nothing and answers 500 with the validation
    error when the reason is not one of the model's, or is "other" without
    details. *)
Theorem createReport_validates user commentId reason details comment db :
  reason <> EmptyString ->
  findById comment_id commentId (comments db) = Some comment ->
  comment_user comment <> user_id user ->
  List.find (Report_matches commentId (user_id user)) (reports db) = None ->
  (~ In reason Report_reasons ->
   createReport user (mkReportBody (Some commentId) (Some reason) details) db
   = (mkResponse 500 (Failure (MessageOf (ValidationError "Report" ["reason"]))), db))
  /\ (reason = "other" -> Js.truthy_string details = false ->
      createReport user (mkReportBody (Some commentId) (Some reason) details) db
      = (mkResponse 500 (Failure (MessageOf (ValidationError "Report" ["details"]))),
         db)).
Proof.
  intros Hne Hc Hauthor Hnone.
  assert (Hrun : createReport user (mkReportBody (Some commentId) (Some reason) details) db
                 = try_catch
                     (await report := Report_create commentId (user_id user) reason
                        (if String.eqb reason "other" then details else None) in
                      ret (mkResponse 201 (Success report)))
                     (fun error => mkResponse 500 (Failure (MessageOf error))) db).
  { unfold createReport, try_catch. simpl.
    apply String.eqb_neq in Hne. rewrite Hne. simpl.
    unfold Comment_findById. rewrite bind_gets, Hc.
    apply N.eqb_neq in Hauthor. rewrite Hauthor.
    unfold Report_findOne at 1. by rewrite bind_gets, Hnone. }
  rewrite Hrun. unfold try_catch, Report_create, bind, validate. split.
  - intros Hnot.
    assert (isIn reason Report_reasons = false) as Hin.
    { apply not_true_is_false. by rewrite isIn_In. }
    cbn [List.filter snd]. rewrite Hin. simpl.
    assert ((reason =? "other")%string = false) as ->; [|done].
    apply String.eqb_neq. intros ->. apply Hnot. simpl. tauto.
  - intros -> Hd. simpl. unfold required. by rewrite Hd.
Qed.

Lemma createReport_validates_witness :
  createReport Sample.alice (mkReportBody (Some 21%N) (Some "other") None)
               Sample.db_thread
  = (mkResponse 500 (Failure (MessageOf (ValidationError "Report" ["details"]))),
     Sample.db_thread).
Proof.
  apply (proj2 (createReport_validates Sample.alice 21%N "other" None
                  (mkComment 21 "See slide 4." 2 10 (Some 20%N)) Sample.db_thread
                  ltac:(discriminate) eq_refl ltac:(discriminate) eq_refl));
    reflexivity.
Defined.

Lemma createReport_writes user req db :
  snd (createReport user req db) = db
  \/ exists commentId reason details comment,
       findById comment_id commentId (comments db) = Some comment
       /\ comment_user comment <> user_id user
       /\ List.find (Report_matches commentId (user_id user)) (reports db) = None
       /\ snd (createReport user req db)
          = set_reports
              (fun rs => (rs ++ [mkReport (nextId db) commentId (user_id user) reason
                                          details "pending"])%list)
              (snd (fresh db)).
Proof.
  remember (snd (createReport user req db)) as db' eqn:Hdb'.
  unfold createReport in Hdb'. rewrite try_catch_snd in Hdb'.
  destruct (body_commentId req) as [commentId|]; [|by left].
  destruct (Js.truthy_string (body_reason req)); [|by left].
  destruct (body_reason req) as [reason|]; [|by left].
  unfold Comment_findById in Hdb'. rewrite bind_gets in Hdb'.
  destruct (findById comment_id commentId (comments db)) as [comment|] eqn:Hc; [|by left].
  destruct (comment_user comment =? user_id user)%N eqn:Ha; [by left|].
  unfold Report_findOne at 1 in Hdb'. rewrite bind_gets in Hdb'.
  destruct (List.find (Report_matches commentId (user_id user)) (reports db)) eqn:Hf;
    [by left|].
  unfold Report_create in Hdb'. unfold bind at 1 2 in Hdb'. unfold validate in Hdb'.
  destruct (List.filter _ _); [|by left].
  unfold ret at 1 in Hdb'. unfold Report_findOne in Hdb'.
  rewrite bind_gets, Hf in Hdb'.
  right. exists commentId, reason,
    (if String.eqb reason "other" then body_details req else None), comment.
  apply N.eqb_neq in Ha. done.
Qed.

(** X15.  The report handlers keep the report collection consistent: after
    [createReport], the admin's status update or [cancelReport] there is
    still at most one report per (comment, user), and still no report by
    the author of the comment it names. *)
Theorem reports_stay_consistent user db :
  reportsUnique db -> noSelfReports db ->
  (forall req,
     reportsUnique (snd (createReport user req db))
     /\ noSelfReports (snd (createReport user req db)))
  /\ (forall id newStatus,
        reportsUnique (snd (PUT_report user id newStatus db))
        /\ noSelfReports (snd (PUT_report user id newStatus db)))
  /\ (forall commentId,
        reportsUnique (snd (cancelReport user commentId db))
        /\ noSelfReports (snd (cancelReport user commentId db))).
Proof.
  intros Hu Hs. repeat split.
  - destruct (createReport_writes user req db)
      as [->|(c & reason & details & comment & Hc & Ha & Hf & ->)]; [done|].
    unfold reportsUnique. simpl.
    apply (NoDup_map_snoc (fun r => (report_comment r, report_user r))); [done|].
    simpl. intros (r & Hr & Hin)%in_map_iff.
    pose proof (List.find_none _ _ Hf r Hin) as Hm.
    injection Hr as Hrc Hru. unfold Report_matches in Hm.
    by rewrite Hrc, Hru, !N.eqb_refl in Hm.
  - destruct (createReport_writes user req db)
      as [->|(c & reason & details & comment & Hc & Ha & Hf & ->)]; [done|].
    intros r c' Hin Hc'. simpl in Hin, Hc'.
    apply in_app_iff in Hin as [Hin|[<-|[]]]; [by apply (Hs r c')|].
    simpl in *. congruence.
  - unfold PUT_report, authorized. destruct (authorize [admin] user); [done|].
    unfold updateReportStatus. rewrite try_catch_snd.
    destruct newStatus as [s|]; [|done].
    destruct (negb (isIn s Report_statuses)); [done|].
    unfold Report_findByIdAndUpdate, bind at 1 2, validate.
    destruct (List.filter _ _); [|done]. unfold ret at 1. rewrite bind_gets.
    destruct (findById report_id id (reports db)); [|done]. simpl.
    unfold reportsUnique in *. simpl. rewrite List.map_map.
    erewrite List.map_ext; [exact Hu|].
    intros x. by destruct (report_id x =? id)%N.
  - unfold PUT_report, authorized. destruct (authorize [admin] user); [done|].
    unfold updateReportStatus. rewrite try_catch_snd.
    destruct newStatus as [s|]; [|done].
    destruct (negb (isIn s Report_statuses)); [done|].
    unfold Report_findByIdAndUpdate, bind at 1 2, validate.
    destruct (List.filter _ _); [|done]. unfold ret at 1. rewrite bind_gets.
    destruct (findById report_id id (reports db)); [|done]. simpl.
    intros x c Hin Hc. simpl in Hin, Hc.
    apply in_map_iff in Hin as (r0 & <- & Hin).
    destruct (report_id r0 =? id)%N; simpl in *; by apply (Hs r0 c).
  - unfold cancelReport. rewrite try_catch_snd. unfold Report_findOne. rewrite bind_gets.
    destruct (List.find _ (reports db)); [|done]. simpl.
    unfold reportsUnique. simpl. by apply NoDup_map_filter.
  - unfold cancelReport. rewrite try_catch_snd. unfold Report_findOne. rewrite bind_gets.
    destruct (List.find _ (reports db)); [|done]. simpl.
    intros x c Hin Hc. simpl in Hin, Hc.
    apply List.filter_In in Hin as [Hin _]. by apply (Hs x c).
Qed.

Lemma reports_stay_consistent_witness :
  reportsUnique (snd (createReport Sample.alice
                        (mkReportBody (Some 21%N) (Some "spam") None)
                        Sample.db_reviewed)).
Proof.
  apply (proj1 (reports_stay_consistent Sample.alice Sample.db_reviewed
                  ltac:(apply NoDup_singleton)
                  ltac:(intros r c [<-|[]] [= <-]; discriminate))
               (mkReportBody (Some 21%N) (Some "spam") None)).
Defined.

(** X16.  [updateReportStatus] answers 400 for a status outside pending,
    reviewed and ignored and 404 for an unknown report, changing nothing in
    either case; and whatever it answers, it never adds or removes a report
    nor changes who reported what and why. *)
Theorem updateReportStatus_changes_status_only id newStatus user db :
  (~ (exists s, newStatus = Some s /\ In s Report_statuses) ->
   updateReportStatus id newStatus user db
   = (mkResponse 400 (Failure (Text "Invalid status value")), db))
  /\ (forall s, newStatus = Some s -> In s Report_statuses ->
        findById report_id id (reports db) = None ->
        updateReportStatus id newStatus user db
        = (mkResponse 404 (Failure (Text "Report not found")), db))
  /\ List.map (fun r => (report_id r, report_comment r, report_user r,
                         report_reason r, report_details r))
              (reports (snd (updateReportStatus id newStatus user db)))
     = List.map (fun r => (report_id r, report_comment r, report_user r,
                           report_reason r, report_details r))
                (reports db).
Proof.
  repeat split.
  - intros Hbad. unfold updateReportStatus, try_catch.
    destruct newStatus as [s|]; [|done].
    destruct (isIn s Report_statuses) eqn:Hs; [|done].
    exfalso. apply Hbad. exists s. split; [done|]. by apply isIn_In.
  - intros s -> Hs Hnone. apply isIn_In in Hs.
    unfold updateReportStatus, try_catch. rewrite Hs. simpl.
    unfold Report_findByIdAndUpdate. unfold bind at 1 2.
    rewrite validate_ok; [|cbn [forallb snd]; by rewrite Hs].
    by rewrite bind_gets, Hnone.
  - unfold updateReportStatus. rewrite try_catch_snd.
    destruct newStatus as [s|]; [|done].
    destruct (negb (isIn s Report_statuses)); [done|].
    unfold Report_findByIdAndUpdate, bind at 1 2, validate.
    destruct (List.filter _ _); [|done]. unfold ret at 1. rewrite bind_gets.
    destruct (findById report_id id (reports db)); [|done]. simpl.
    rewrite List.map_map. apply List.map_ext.
    intros x. by destruct (report_id x =? id)%N.
Qed.

Lemma updateReportStatus_changes_status_only_witness :
  updateReportStatus 30%N (Some "closed") Sample.carol Sample.db_reviewed
  = (mkResponse 400 (Failure (Text "Invalid status value")), Sample.db_reviewed).
Proof.
  apply (proj1 (updateReportStatus_changes_status_only 30%N (Some "closed")
                  Sample.carol Sample.db_reviewed)).
  intros (s & [= <-] & Hin). simpl in Hin.
  destruct Hin as [H|[H|[H|[]]]]; discriminate H.
Defined.

(** ** Comments *)






Lemma bulkAction_one t l :
  List.filter (fun c => negb (existsb (N.eqb (comment_id c)) [t]
                              || optionInIds (comment_parentComment c) [t])) l
  = List.filter (fun c => negb (inTree t c)) l.
Proof.
  apply List.filter_ext. intros c. unfold inTree, isReplyTo, optionInIds.
  destruct (comment_parentComment c); simpl; by rewrite ?orb_false_r.
Qed.

(** X19.  For an admin, the bulk deletion of a single top-level comment
    leaves the same comments as [deleteComment] on it; anyone but an admin
    is refused and nothing is deleted. *)
Theorem bulkAction_of_one_is_deleteComment user t comment db :
  findById comment_id t (comments db) = Some comment ->
  comment_parentComment comment = None ->
  (user_role user = admin ->
   fst (POST_bulkAction user (Some [t]) db)
   = mkResponse 200 (SuccessMessage "Successfully deleted 1 comments")
   /\ comments (snd (POST_bulkAction user (Some [t]) db))
      = comments (snd (deleteComment user t db)))
  /\ (user_role user <> admin ->
      forall ids,
        POST_bulkAction user ids db
        = (mkResponse 403 (Failure (Text
             ("User role " ++ Role_name (user_role user)
              ++ " is not authorized to access this route"))), db)).
Proof.
  intros Hf Htop. split.
  - intros Hadmin. unfold POST_bulkAction, authorized, authorize. rewrite Hadmin.
    simpl. split; [done|].
    rewrite (deleteComment_run _ _ _ _ Hf), Hadmin, Htop, andb_false_r. simpl.
    rewrite (findById_id _ _ _ _ Hf), deleteById_replies. apply bulkAction_one.
  - intros Hrole ids. unfold POST_bulkAction, authorized, authorize.
    by destruct (user_role user).
Qed.

Lemma bulkAction_of_one_is_deleteComment_witness :
  comments (snd (POST_bulkAction Sample.carol (Some [20%N]) Sample.db_thread))
  = comments (snd (deleteComment Sample.carol 20%N Sample.db_thread)).
Proof.
  apply (proj1 (bulkAction_of_one_is_deleteComment Sample.carol 20%N
                  (mkComment 20 "Why is it connected?" 1 10 None) Sample.db_thread
                  eq_refl eq_refl) eq_refl).
Defined.

(** X20.  [deleteComment] on a reply deletes that reply only: the replies
    made to it stay in the collection, while the bulk deletion of the same
    reply removes them too. *)
Theorem deleteComment_reply_keeps_its_replies user id comment parent db :
  findById comment_id id (comments db) = Some comment ->
  comment_parentComment comment = Some parent ->
  comment_user comment = user_id user \/ user_role user = admin ->
  comments (snd (deleteComment user id db)) = deleteById comment_id id (comments db)
  /\ (forall x, In x (comments db) -> comment_parentComment x = Some id ->
                comment_id x <> id ->
                In x (comments (snd (deleteComment user id db)))
                /\ ~ In x (comments (snd (bulkAction (Some [id]) user db)))).
Proof.
  intros Hf Hp Hauth. rewrite (deleteComment_run _ _ _ _ Hf), Hp.
  assert (negb (comment_user comment =? user_id user)%N
          && negb (Role_eqb (user_role user) admin) = false) as ->.
  { destruct Hauth as [->| ->]; [by rewrite N.eqb_refl|]. apply andb_false_r. }
  simpl. split; [done|].
  intros x Hin Hx Hne. split.
  - apply List.filter_In. split; [done|]. by apply negb_true_iff, N.eqb_neq.
  - intros Hin'. apply List.filter_In in Hin' as [_ Hk].
    unfold optionInIds in Hk. rewrite Hx in Hk. simpl in Hk.
    by rewrite N.eqb_refl, !orb_true_r in Hk.
Qed.

Lemma deleteComment_reply_keeps_its_replies_witness :
  comments (snd (deleteComment Sample.bob 21%N Sample.db_thread))
  = deleteById comment_id 21%N (comments Sample.db_thread).
Proof.
  apply (deleteComment_reply_keeps_its_replies Sample.bob 21%N
           (mkComment 21 "See slide 4." 2 10 (Some 20%N)) 20%N Sample.db_thread
           eq_refl eq_refl).
  left. reflexivity.
Defined.

(** ** Signing in and passing the middleware *)

Lemma rev_app_append a : forall b s,
  String.rev_app a b ++ s = String.rev_app a (b ++ s).
Proof. induction a as [|c a IH]; intros b s; [done|]. apply (IH (String c b) s). Qed.

Lemma append_rev_cons c acc s :
  String.rev (String c acc) ++ s = String.rev acc ++ String c s.
Proof.
  unfold String.rev.
  change (String.rev_app (String c acc) EmptyString)
    with (String.rev_app acc (String c EmptyString)).
  by rewrite !rev_app_append.
Qed.

Lemma append_empty_r (s : string) : s ++ EmptyString = s.
Proof.
  induction s as [|a s IH]; [done|].
  change (String a (s ++ EmptyString) = String a s). by rewrite IH.
Qed.

Lemma prefix_char a c t :
  String.prefix (String a EmptyString) (String c t) = Ascii.eqb c a.
Proof.
  cbn [String.prefix]. destruct (ascii_dec a c) as [->|Hne].
  - rewrite Ascii.eqb_refl. by destruct t.
  - symmetry. apply Ascii.eqb_neq. congruence.
Qed.

Lemma split_without_separator t : forall acc,
  Js.includes " " t = false ->
  Js.split_aux " " acc t = [String.rev acc ++ t].
Proof.
  induction t as [|c t IH]; intros acc Hno.
  - cbn [Js.split_aux]. by rewrite append_empty_r.
  - cbn [Js.split_aux]. cbn [Js.includes] in Hno.
    apply orb_false_iff in Hno as [Hc Ht].
    rewrite prefix_char in Hc. rewrite Hc.
    rewrite (IH _ Ht). by rewrite append_rev_cons.
Qed.

Lemma bearerToken_of_header t :
  Js.includes " " t = false ->
  bearerToken (Some ("Bearer " ++ t)) = Some t.
Proof.
  intros Hno. unfold bearerToken, Js.split. simpl.
  change (EmptyString ++ t) with t.
  rewrite (split_without_separator t EmptyString Hno). reflexivity.
Qed.

Section LoginProperties.

Variable matchPassword : User -> string -> option bool.
Variable generateToken : ObjectId -> option string.
Variable jwt_verify : string -> option ObjectId.

Lemma find_user_elem (p : User -> bool) (m : gmap N User) u :
  List.find p (List.map snd (map_to_list m)) = Some u ->
  p u = true /\ exists k, m !! k = Some u.
Proof.
  intros Hf. apply List.find_some in Hf as [Hin Hp]. split; [done|].
  apply in_map_iff in Hin as ([k u'] & Hu & Hin). simpl in Hu. subst u'.
  exists k. by apply elem_of_map_to_list, list_elem_of_In.
Qed.

Lemma login_success_inv email password db reply :
  fst (login matchPassword generateToken email password db)
  = mkResponse 200 (Success reply) ->
  exists e p k,
    email = Some e /\ password = Some p
    /\ users db !! k = Some (reply_user reply)
    /\ user_email (reply_user reply) = e
    /\ matchPassword (reply_user reply) p = Some true
    /\ user_isApproved (reply_user reply) = true
    /\ generateToken (user_id (reply_user reply)) = Some (reply_token reply).
Proof.
  unfold login, try_catch.
  destruct (Js.truthy_string email && Js.truthy_string password) eqn:Hin;
    [|simpl; discriminate].
  destruct email as [e|]; [|done]. destruct password as [p|]; [|by destruct (Js.truthy_string _)].
  simpl. unfold User_findOneByEmail. rewrite bind_gets.
  destruct (List.find _ _) as [user|] eqn:Hf; [|simpl; discriminate].
  apply find_user_elem in Hf as [He [k Hk]]. apply String.eqb_eq in He.
  destruct (matchPassword user p) as [[|]|] eqn:Hm; try (simpl; discriminate).
  destruct (user_isApproved user) eqn:Ha; [|simpl; discriminate].
  simpl. destruct (generateToken (user_id user)) as [token|] eqn:Hg;
    [|simpl; discriminate].
  simpl. intros [= <-]. exists e, p, k. simpl. done.
Qed.

(** X21.  [login] never writes; it answers 200 only for a stored, approved
    user with that email whose password matches, and then with a token
    signed for that user's id; and an unknown email gets the very answer a
    wrong password gets. *)
Theorem login_grants_only_to_approved_password_holders email password db :
  snd (login matchPassword generateToken email password db) = db
  /\ (forall reply,
        fst (login matchPassword generateToken email password db)
        = mkResponse 200 (Success reply) ->
        exists e p k,
          email = Some e /\ password = Some p
          /\ users db !! k = Some (reply_user reply)
          /\ user_email (reply_user reply) = e
          /\ matchPassword (reply_user reply) p = Some true
          /\ user_isApproved (reply_user reply) = true
          /\ generateToken (user_id (reply_user reply)) = Some (reply_token reply))
  /\ (forall e p,
        email = Some e -> password = Some p ->
        e <> EmptyString -> p <> EmptyString ->
        fst (User_findOneByEmail e db) = inr None
        \/ (exists user, fst (User_findOneByEmail e db) = inr (Some user)
                         /\ matchPassword user p = Some false) ->
        login matchPassword generateToken email password db
        = (mkResponse 401 (Failure (Text "Invalid credentials")), db)).
Proof.
  split; [|split].
  - unfold login. rewrite try_catch_snd.
    destruct (negb _); [done|]. unfold User_findOneByEmail. rewrite bind_gets.
    destruct (List.find _ _) as [user|]; [|done].
    destruct (matchPassword user _) as [[|]|]; try done.
    destruct (negb _); [done|]. by destruct (generateToken _).
  - apply login_success_inv.
  - intros e p -> -> He Hp Hcase. unfold login, try_catch. simpl.
    apply String.eqb_neq in He, Hp. rewrite He, Hp. simpl.
    unfold User_findOneByEmail in *. rewrite bind_gets. simpl in Hcase.
    destruct Hcase as [[= ->]|(user & [= ->] & ->)]; done.
Qed.

Hypothesis issued_tokens_verify :
  forall id token,
    generateToken id = Some token ->
    jwt_verify token = Some id /\ token <> EmptyString
    /\ Js.includes " " token = false.

(** X22.  A token obtained from [login], sent back as "Bearer <token>",
    passes [protect] on the same database and yields the user who signed
    in (when issued tokens verify to their id and contain no space, and user
    documents are stored under their own id). *)
Theorem login_token_passes_protect (D : Type) email password db reply :
  usersKeyed db ->
  fst (login matchPassword generateToken email password db)
  = mkResponse 200 (Success reply) ->
  protect (D := D) jwt_verify (Some ("Bearer " ++ reply_token reply)) db
  = Next (reply_user reply).
Proof.
  intros Hkeyed Hlogin.
  apply login_success_inv in Hlogin as (e & p & k & _ & _ & Hk & _ & _ & Ha & Hg).
  apply issued_tokens_verify in Hg as (Hv & Hne & Hno).
  rewrite (protect_verified jwt_verify D _ (reply_token reply)
             (user_id (reply_user reply)) db (bearerToken_of_header _ Hno) Hne Hv).
  rewrite (Hkeyed k _ Hk), Hk. by rewrite Ha.
Qed.

End LoginProperties.

Lemma login_grants_only_to_approved_password_holders_witness :
  login Sample.check_password Sample.sign (Some "nobody@example.org") (Some "secret")
        Sample.db
  = (mkResponse 401 (Failure (Text "Invalid credentials")), Sample.db).
Proof.
  apply (proj2 (proj2 (login_grants_only_to_approved_password_holders
                         Sample.check_password Sample.sign
                         (Some "nobody@example.org") (Some "secret") Sample.db))
               "nobody@example.org" "secret" eq_refl eq_refl
               ltac:(discriminate) ltac:(discriminate)).
  left. reflexivity.
Defined.

Lemma Sample_tokens_verify id token :
  Sample.sign id = Some token ->
  Sample.tokens token = Some id /\ token <> EmptyString
  /\ Js.includes " " token = false.
Proof.
  unfold Sample.sign. destruct (N.eqb_spec id 3) as [->|_]; [|discriminate].
  intros [= <-]. repeat split. discriminate.
Qed.

Lemma login_token_passes_protect_witness :
  protect (D := unit) Sample.tokens (Some "Bearer carol-token") Sample.db
  = Next Sample.carol.
Proof.
  apply (login_token_passes_protect Sample.check_password Sample.sign Sample.tokens
           Sample_tokens_verify unit (Some "carol@example.org") (Some "secret")
           Sample.db (mkLoginReply "carol-token" Sample.carol)).
  - intros id u Hu. unfold Sample.db in Hu. simpl in Hu.
    repeat (apply lookup_insert_Some in Hu as [[<- <-]|[_ Hu]]; [reflexivity|]).
    by rewrite lookup_empty in Hu.
  - reflexivity.
Defined.

(** ** The middleware and the user store *)

(** X23.  [protect] calls the next handler only with a user who is stored
    under the id of a verified, non-empty bearer token and who is approved;
    without an Authorization header, or with one that is not a Bearer
    header, it answers 401. *)
Theorem protect_passes_only_verified_approved_users
    (jwt_verify : string -> option ObjectId) (D : Type) authorization db :
  (forall user,
     protect (D := D) jwt_verify authorization db = Next user ->
     user_isApproved user = true
     /\ exists token id,
          bearerToken authorization = Some token /\ token <> EmptyString
          /\ jwt_verify token = Some id /\ users db !! id = Some user)
  /\ ((authorization = None
       \/ exists h, authorization = Some h /\ String.prefix "Bearer" h = false) ->
      protect (D := D) jwt_verify authorization db
      = Reply (mkResponse 401 (Failure (Text "Not authorized to access this route")))).
Proof.
  split.
  - intros user. unfold protect.
    destruct (bearerToken authorization) as [token|] eqn:Htok; [|simpl; discriminate].
    simpl. destruct (String.eqb_spec token EmptyString) as [->|Hne]; [simpl; discriminate|].
    simpl. destruct (jwt_verify token) as [id|] eqn:Hv; [|discriminate].
    destruct (users db !! id) as [u|] eqn:Hu; [|discriminate].
    destruct (user_isApproved u) eqn:Ha; simpl; [|discriminate].
    intros [= <-]. split; [done|]. by exists token, id.
  - intros [->|(h & -> & Hp)]; unfold protect, bearerToken; [done|by rewrite Hp].
Qed.

Lemma protect_passes_only_verified_approved_users_witness :
  protect (D := unit) Sample.tokens (Some "Basic carol-token") Sample.db
  = Reply (mkResponse 401 (Failure (Text "Not authorized to access this route"))).
Proof.
  apply (proj2 (protect_passes_only_verified_approved_users Sample.tokens unit
                  (Some "Basic carol-token") Sample.db)).
  right. exists "Basic carol-token". split; reflexivity.
Defined.

(** X24.  [deleteUser] never removes an admin: every admin stored before the
    call is stored after it, whichever id is asked for.  A user who is not
    an admin is removed, and no other user is; the likes, views, comments,
    notes and reports of the removed user stay. *)
Theorem deleteUser_spares_admins id db :
  (forall k u, users db !! k = Some u -> user_role u = admin ->
               users (snd (deleteUser id db)) !! k = Some u)
  /\ (forall u, users db !! id = Some u -> user_role u <> admin ->
        fst (deleteUser id db) = mkResponse 200 (Success tt)
        /\ users (snd (deleteUser id db)) = delete id (users db))
  /\ (likes (snd (deleteUser id db)), videoViews (snd (deleteUser id db)),
      comments (snd (deleteUser id db)), notes (snd (deleteUser id db)),
      reports (snd (deleteUser id db)))
     = (likes db, videoViews db, comments db, notes db, reports db).
Proof.
  assert (Hrun : deleteUser id db
                 = match users db !! id with
                   | None => (mkResponse 404 (Failure (Text "User not found")), db)
                   | Some user =>
                       if Role_eqb (user_role user) admin
                       then (mkResponse 403 (Failure (Text "Cannot delete admin user")), db)
                       else (mkResponse 200 (Success tt), set_users (delete id) db)
                   end).
  { unfold deleteUser, try_catch, User_findById. rewrite bind_gets.
    destruct (users db !! id) as [user|]; [|done].
    by destruct (Role_eqb (user_role user) admin). }
  rewrite Hrun. split; [|split].
  - intros k u Hk Ha. destruct (users db !! id) as [user|] eqn:Hu; [|done].
    destruct (Role_eqb (user_role user) admin) eqn:Hr; [done|]. simpl.
    rewrite lookup_delete_ne; [done|]. intros <-.
    rewrite Hk in Hu. injection Hu as <-. by rewrite Ha in Hr.
  - intros u -> Hr.
    assert (Role_eqb (user_role u) admin = false) as -> by (by destruct (user_role u)).
    done.
  - destruct (users db !! id) as [user|]; [|done].
    by destruct (Role_eqb (user_role user) admin).
Qed.

Lemma deleteUser_spares_admins_witness :
  users (snd (deleteUser 3%N Sample.db)) !! 3%N = Some Sample.carol.
Proof.
  apply (proj1 (deleteUser_spares_admins 3%N Sample.db) 3%N Sample.carol);
    reflexivity.
Defined.

(** ** Reading a video back *)

Lemma getVideo_run user id video db :
  videos db !! id = Some video ->
  (user_role user = student -> getVideo_hasAccess user video = true) ->
  getVideo (Some user) id db
  = (mkResponse 200
       (Success (mkVideoData video
          (length (List.filter (fun l => (like_video l =? id)%N) (likes db)))
          (Some (bool_decide
                   (is_Some (List.find (Like_matches id (user_id user)) (likes db))))))),
     db).
Proof.
  intros Hv Hacc. unfold getVideo, try_catch, Video_findById, Like_countDocuments.
  rewrite bind_gets, bind_gets, Hv.
  assert (Role_eqb (user_role user) student && negb (getVideo_hasAccess user video)
          = false) as ->.
  { destruct (user_role user); try done. simpl. by rewrite Hacc. }
  unfold Like_findOne. unfold bind at 1. rewrite bind_gets. reflexivity.
Qed.

(** X25.  [getVideo] shows what [likeVideo] did: for a user who may see the
    video and has not liked it, the answer says isLiked false; after that
    user's [likeVideo] it says isLiked true and counts one like more.
    [getVideo] itself writes nothing. *)
Theorem getVideo_reflects_like user id video db :
  videos db !! id = Some video ->
  (user_role user = student -> getVideo_hasAccess user video = true) ->
  List.find (Like_matches id (user_id user)) (likes db) = None ->
  let n := length (List.filter (fun l => (like_video l =? id)%N) (likes db)) in
  getVideo (Some user) id db
  = (mkResponse 200 (Success (mkVideoData video n (Some false))), db)
  /\ fst (getVideo (Some user) id (snd (likeVideo user id db)))
     = mkResponse 200 (Success (mkVideoData video (S n) (Some true)))
  /\ snd (getVideo (Some user) id (snd (likeVideo user id db)))
     = snd (likeVideo user id db).
Proof.
  intros Hv Hacc Hnone n.
  rewrite (getVideo_run _ _ _ _ Hv Hacc), Hnone.
  split; [done|].
  rewrite (likeVideo_like _ _ _ _ Hv Hnone). cbn [snd].
  set (db1 := set_likes _ _).
  rewrite (getVideo_run user id video db1 Hv Hacc). simpl.
  rewrite (find_app_new _ _ _ Hnone (Like_matches_new _ _ _)).
  rewrite List.filter_app, List.length_app. simpl. rewrite N.eqb_refl. simpl.
  split; [|done]. do 3 f_equal. subst n. lia.
Qed.

Lemma getVideo_reflects_like_witness :
  fst (getVideo (Some Sample.alice) 10%N (snd (likeVideo Sample.alice 10%N Sample.db)))
  = mkResponse 200 (Success (mkVideoData Sample.lecture 1 (Some true))).
Proof.
  apply (getVideo_reflects_like Sample.alice 10%N Sample.lecture Sample.db
           eq_refl ltac:(reflexivity) eq_refl).
Defined.

(** X26.  [toggleLike] lets a student through only by the allow-list: on an
    existing video a student who is not in [specialAccess] gets 403 and
    nothing changes, whatever the branch and year of the two; teachers and
    admins are never answered 403. *)
Theorem toggleLike_students_need_allow_list user id video db :
  videos db !! id = Some video ->
  (user_role user = student -> ~ In (user_id user) (video_specialAccess video) ->
   toggleLike user id db
   = (mkResponse 403 (Failure (Text "You do not have access to this video")), db))
  /\ (user_role user <> student \/ In (user_id user) (video_specialAccess video) ->
      status (fst (toggleLike user id db)) <> 403).
Proof.
  intros Hv. split.
  - intros Hrole Hnot. unfold toggleLike, try_catch, Video_findById.
    rewrite bind_gets, Hv, Hrole. simpl.
    assert (existsb (N.eqb (user_id user)) (video_specialAccess video) = false) as ->;
      [|done].
    apply not_true_is_false. by rewrite existsb_N_eqb_In.
  - intros Hok.
    assert (Hacc : user_role user = student ->
                   In (user_id user) (video_specialAccess video)).
    { intros Hr. by destruct Hok. }
    destruct (List.find (Like_matches id (user_id user)) (likes db)) as [like|] eqn:Hf.
    + by rewrite (toggleLike_unlike _ _ _ _ _ Hv Hacc Hf).
    + rewrite (toggleLike_like _ _ _ _ Hv Hacc Hf).
      by destruct (video_teacher video =? user_id user)%N.
Qed.

Lemma toggleLike_students_need_allow_list_witness :
  toggleLike Sample.alice 10%N Sample.db
  = (mkResponse 403 (Failure (Text "You do not have access to this video")), Sample.db).
Proof.
  apply (proj1 (toggleLike_students_need_allow_list Sample.alice 10%N Sample.lecture
                  Sample.db eq_refl) eq_refl).
  intros [].
Defined.

(** X27.  [recordView] does not look the video up: for an id that names no
    video it still answers 200 and stores the caller's view row, and the
    video collection is left as it was.  In every case the counters of the
    other videos are untouched. *)
Theorem recordView_unknown_video user req now db videoId :
  body_videoId req = Some videoId ->
  (videos db !! videoId = None ->
   viewRows videoId (user_id user) db = [] ->
   fst (recordView user req now db)
   = mkResponse 200 (Success (firstView user videoId req now db))
   /\ viewRows videoId (user_id user) (snd (recordView user req now db))
      = [firstView user videoId req now db]
   /\ videos (snd (recordView user req now db)) = videos db)
  /\ (forall other, other <> videoId ->
        viewCount other (snd (recordView user req now db)) = viewCount other db).
Proof.
  intros Hid. split.
  - intros Hv Hrows.
    rewrite (recordView_first _ _ _ _ _ Hid (find_none_rows _ _ Hrows)). simpl.
    split; [done|]. split.
    + unfold viewRows in *. simpl. rewrite List.filter_app, Hrows. simpl.
      unfold VideoView_matches. simpl. by rewrite !N.eqb_refl.
    + apply map_eq. intros k. destruct (decide (videoId = k)) as [<-|Hne].
      * by rewrite lookup_alter_eq, Hv.
      * by rewrite lookup_alter_ne.
  - intros other Hne. unfold viewCount.
    destruct (List.find (VideoView_matches videoId (user_id user)) (videoViews db))
      as [view|] eqn:Hf.
    + by rewrite (recordView_again _ _ _ _ _ _ Hid Hf).
    + rewrite (recordView_first _ _ _ _ _ Hid Hf). simpl.
      by rewrite lookup_alter_ne.
Qed.

Lemma recordView_unknown_video_witness :
  viewRows 999%N 1%N
    (snd (recordView Sample.alice (mkViewBody (Some 999%N) None None None) 7 Sample.db))
  = [mkVideoView 100 999 1 7 0 0 0].
Proof.
  apply (proj1 (recordView_unknown_video Sample.alice
                  (mkViewBody (Some 999%N) None None None) 7 Sample.db 999%N eq_refl)
               eq_refl eq_refl).
Defined.

(** ** Notices *)









(** ** Likes of a deleted user *)

Lemma getLikesForVideo_run videoId db :
  LikeController.getLikesForVideo videoId db
  = (let found :=
       List.map (fun l => (l, user_name <$> users db !! like_user l))
         (List.filter (fun l => (like_video l =? videoId)%N) (likes db)) in
     mkResponse 200 (Success (mkListing (length found) found)), db).
Proof. reflexivity. Qed.

(** X29.  Deleting a user does not delete their likes: after [deleteUser]
    of a user who is not an admin, [getLikesForVideo] lists as many likes as
    before, and lists that user's likes without a user name. *)
Theorem likes_outlive_their_user id user videoId like db :
  users db !! id = Some user ->
  user_role user <> admin ->
  In like (likes db) ->
  like_video like = videoId ->
  like_user like = id ->
  exists before after,
    fst (LikeController.getLikesForVideo videoId db) = mkResponse 200 (Success before)
    /\ fst (LikeController.getLikesForVideo videoId (snd (deleteUser id db)))
       = mkResponse 200 (Success after)
    /\ listing_count after = listing_count before
    /\ In (like, Some (user_name user)) (listing_data before)
    /\ In (like, None) (listing_data after).
Proof.
  intros Hu Hrole Hin Hv Hl.
  assert (Hdel : snd (deleteUser id db) = set_users (delete id) db).
  { unfold deleteUser, try_catch, User_findById. rewrite bind_gets, Hu.
    by destruct (user_role user). }
  rewrite Hdel, !getLikesForVideo_run. cbv zeta. simpl.
  eexists _, _. split; [reflexivity|]. split; [reflexivity|]. simpl.
  split; [by rewrite !List.length_map|].
  assert (Hf : In like (List.filter (fun l => (like_video l =? videoId)%N) (likes db))).
  { apply List.filter_In. split; [done|]. by apply N.eqb_eq. }
  split; apply in_map_iff; exists like; (split; [|done]).
  - by rewrite Hl, Hu.
  - by rewrite Hl, lookup_delete_eq.
Qed.

Lemma likes_outlive_their_user_witness :
  exists before after,
    fst (LikeController.getLikesForVideo 10%N Sample.db_liked)
    = mkResponse 200 (Success before)
    /\ fst (LikeController.getLikesForVideo 10%N (snd (deleteUser 1%N Sample.db_liked)))
       = mkResponse 200 (Success after)
    /\ listing_count after = listing_count before
    /\ In (mkLike 80 10 1, Some "Alice") (listing_data before)
    /\ In (mkLike 80 10 1, None) (listing_data after).
Proof.
  apply (likes_outlive_their_user 1%N Sample.alice 10%N (mkLike 80 10 1)
           Sample.db_liked eq_refl ltac:(discriminate)
           ltac:(left; reflexivity) eq_refl eq_refl).
Defined.
